(** * WCT reward engine: scoring, aggregation, planning and distribution

    A shallow embedding of the reward engine of the wiki contribution token
    backend:

    - [backend/models/index.ts] (the Sequelize models and their
      associations);
    - [backend/services/token-economy-service.ts]
      ([calculatePoints], [recordContribution], [calculateWeeklyRewards],
      [distributeWeeklyRewards], [getPendingRewardsForUser],
      [updateUserReputation], [updateTagDemandMultipliers]);
    - [backend/src/services/rewards-service.ts]
      ([calculateRewards], [createWeeklyReward], [processUserReward],
      [completeDistribution], [getUserRewardStats]);
    - [backend/src/api/routes/rewards-routes.ts]
      (the handlers of [POST /confirm], [POST /distribution-complete] and
      [GET /projected]);
    - [scripts/weekly-reward-distribution.ts] ([main]).

    JavaScript numbers are IEEE 754 binary64 values; they are modelled by
    [spec_float] with the operations of the standard specification
    ([SFadd], [SFmul], [SFdiv], ... at precision 53 and maximal exponent
    1024), so every rounding of the source is present in the model.
    Sequelize models are records with the columns the models declare, a
    thrown exception is the [Throw] constructor of [result], and the Solana
    RPC endpoint is an explicit [Ledger] value that answers the calls of the
    distributor.

    The models declare no attribute [userId], [articleId] or
    [weeklyRewardId]: the associations ([User.hasMany(Contribution)],
    [Contribution.belongsTo(User)], ...) are declared without a
    [foreignKey] option, so the foreign keys are the columns [UserId],
    [ArticleId] and [WeeklyRewardId].  Sequelize drops the unknown fields
    [userId], [articleId] and [weeklyRewardId] of the objects the services
    pass to [create], reads of [instance.userId] give [undefined], and a
    [where: { userId }] on [Contribution] or [UserReward] names a column
    the table does not have.  The embedding follows the models. *)

From Stdlib Require Import ZArith List Bool String Lia Zpower Sorted Permutation.
From Corelib Require Import SpecFloat.
Import ListNotations.

Local Open Scope Z_scope.

(* ================================================================= *)
(** ** JavaScript numbers *)

Module JS.

Definition number := spec_float.

Definition prec : Z := 53.
Definition emax : Z := 1024.

Definition add : number -> number -> number := SFadd prec emax.
Definition sub : number -> number -> number := SFsub prec emax.
Definition mul : number -> number -> number := SFmul prec emax.
Definition div : number -> number -> number := SFdiv prec emax.

(** [a < b], [a <= b], [a > b] and [a === b] on numbers. *)
Definition ltb : number -> number -> bool := SFltb.
Definition leb : number -> number -> bool := SFleb.
Definition gtb (a b : number) : bool := SFltb b a.
Definition eqb : number -> number -> bool := SFeqb.

Definition isNaN (x : number) : bool :=
  match x with S754_nan => true | _ => false end.

(** An integer as a number (round to nearest even; exact below [2^53]). *)
Definition of_Z (z : Z) : number := binary_normalize prec emax z 0 false.

(** A decimal literal [n / 10^k] of the source text: the binary64 value
    nearest to it, which for the short literals of this program is the
    correctly rounded quotient of two exactly representable integers. *)
Definition lit (n : Z) (k : nat) : number := div (of_Z n) (of_Z (10 ^ Z.of_nat k)).

Definition zero : number := S754_zero false.
Definition one : number := of_Z 1.

(** The signed integer [(-1)^s * m]. *)
Definition signed (s : bool) (m : positive) : Z := cond_Zopp s (Zpos m).

(** [Math.floor]: [q] is the floor of [(-1)^s * m * 2^e] for [e < 0]. *)
Definition Math_floor (x : number) : number :=
  match x with
  | S754_finite s m e =>
      if 0 <=? e then x
      else
        match Z.shiftr (signed s m) (- e) with
        | Z0 => S754_zero s
        | q => of_Z q
        end
  | _ => x
  end.

(** [Math.round]: nearest integer, ties towards [+Infinity]; a result of
    zero keeps the sign of the argument. *)
Definition Math_round (x : number) : number :=
  match x with
  | S754_finite s m e =>
      if 0 <=? e then x
      else
        match Z.shiftr (2 * signed s m + 2 ^ (- e)) (- e + 1) with
        | Z0 => S754_zero s
        | q => of_Z q
        end
  | _ => x
  end.

Definition isNegZero (x : number) : bool :=
  match x with S754_zero true => true | _ => false end.

(** [Math.max] and [Math.min] of two arguments: [NaN] if either is [NaN],
    and [+0] counts as larger than [-0]. *)
Definition Math_max (a b : number) : number :=
  if isNaN a || isNaN b then S754_nan
  else if ltb a b then b
  else if ltb b a then a
  else if isNegZero a then b else a.

Definition Math_min (a b : number) : number :=
  if isNaN a || isNaN b then S754_nan
  else if ltb a b then a
  else if ltb b a then b
  else if isNegZero b then b else a.

Definition Math_abs : number -> number := SFabs.

(** [parseFloat(x.toFixed(2))]: [toFixed(2)] takes the integer [n] with
    [n / 100] nearest to [|x|], the larger one on a tie, and prints
    [n / 100] with the sign of [x]; [parseFloat] reads it back as the
    nearest number. *)
Definition toFixed2_hundredths (m : positive) (e : Z) : Z :=
  if 0 <=? e then Zpos m * 2 ^ e * 100
  else Z.shiftr (2 * (Zpos m * 100) + 2 ^ (- e)) (- e + 1).

Definition parseFloat_toFixed2 (x : number) : number :=
  match x with
  | S754_finite s m e =>
      let q := div (of_Z (toFixed2_hundredths m e)) (of_Z 100) in
      if s then SFopp q else q
  | S754_zero _ => zero
  | _ => x
  end.

(** [BigInt(x)]: the integer value, a [RangeError] ([None]) when [x] is
    not an integer. *)
Definition toBigInt (x : number) : option Z :=
  match x with
  | S754_zero _ => Some 0
  | S754_finite s m e =>
      if 0 <=? e then Some (signed s m * 2 ^ e)
      else if (Zpos m) mod 2 ^ (- e) =? 0
           then Some (Z.shiftr (signed s m) (- e)) else None
  | _ => None
  end.

End JS.

Import JS.

(* ================================================================= *)
(** ** Exceptions *)

(** A computation that may throw: [Ok v] is a normal return, [Throw msg]
    an exception carrying its message. *)
Inductive result (A : Type) : Type :=
| Ok (v : A)
| Throw (msg : string).
Arguments Ok {A} v.
Arguments Throw {A} msg.

Definition bind {A B : Type} (r : result A) (k : A -> result B) : result B :=
  match r with
  | Ok v => k v
  | Throw msg => Throw msg
  end.

Notation "'let*' x ':=' r 'in' k" := (bind r (fun x => k))
  (at level 10, x name, r at level 100, k at level 200).

Definition isOk {A : Type} (r : result A) : bool :=
  match r with Ok _ => true | Throw _ => false end.

(* ================================================================= *)
(** ** Column types *)

(** An [INTEGER] column takes the integers from [-2^31] to [2^31 - 1];
    the insert of [NaN], of an infinity or of any other number is
    rejected by the database. *)
Definition fitsINTEGER (x : number) : bool :=
  match toBigInt x with
  | Some z => (- 2 ^ 31 <=? z) && (z <=? 2 ^ 31 - 1)
  | None => false
  end.

(** A [DECIMAL(24,9)] column keeps nine decimals: [nanos m e] is the
    integer [n] with [n / 10^9] nearest to [m * 2^e], the larger one on a
    tie, and the column gives back [n / 10^9] with the sign of the value
    written, read as the nearest number. *)
Definition nanos (m : positive) (e : Z) : Z :=
  if 0 <=? e then Zpos m * 2 ^ e * 10 ^ 9
  else Z.shiftr (2 * (Zpos m * 10 ^ 9) + 2 ^ (- e)) (- e + 1).

(** The number nearest to the fraction [n / d] of two positive integers
    (the division rounds once, whatever the size of [n]). *)
Definition nearest (s : bool) (n d : positive) : number :=
  SFdiv prec emax (S754_finite s n 0) (S754_finite false d 0).

Definition DECIMAL_24_9 (x : number) : number :=
  match x with
  | S754_finite s m e =>
      match nanos m e with
      | Zpos n => nearest s n (10 ^ 9)
      | _ => zero
      end
  | S754_zero _ => zero
  | _ => x
  end.

(* ================================================================= *)
(** ** The Sequelize models ([backend/models/index.ts])

    Dates are millisecond timestamps.  Each model lives in a module of its
    own so that the fields keep the names of the source; columns that no
    service reads (titles, descriptions, the identifiers of contributions
    and of Payout Records) are left out.  A [UUID] primary key is a
    natural number: whatever value [UUIDV4] draws, it is one that no
    stored row has. *)

Definition Date := Z.

(** A string or [undefined] ([None]). *)
Definition Key := option string.

Definition Key_eqb (a b : Key) : bool :=
  match a, b with
  | Some x, Some y => String.eqb x y
  | None, None => true
  | _, _ => false
  end.

Module User.
Record t := mk {
  id : string;
  walletAddress : string;
  reputation : number;
  totalContributions : number;
  totalPoints : number;
  totalTokensEarned : number;
  lastActiveAt : Date
}.
End User.

Module Tag.
Record t := mk {
  name : string;
  demandMultiplier : number
}.
End Tag.

Module Article.
(** [Tags] holds the names of the tags joined through [ArticleTag]. *)
Record t := mk {
  id : string;
  qualityScore : number;
  totalRevisions : number;
  updatedAt : Date;
  Tags : list string
}.
End Article.

Inductive ContributionType :=
| creation | major_edit | minor_edit | review
| unrecognized.   (* any other string: the [default] branch *)

Module Contribution.
(** [UserId] and [ArticleId] are the foreign keys of
    [Contribution.belongsTo(User)] and [Contribution.belongsTo(Article)];
    [None] is [NULL]. *)
Record t := mk {
  UserId : option string;
  ArticleId : option string;
  type : ContributionType;
  basePoints : number;
  qualityMultiplier : number;
  reputationMultiplier : number;
  demandMultiplier : number;
  totalPoints : number;
  createdAt : Date
}.

(** [contribution.userId]: the model has no attribute of this name, so
    the read gives [undefined] for every row. *)
Definition userId (contribution : t) : Key := None.
End Contribution.

(** The values of the column [WeeklyReward.status]:
    [ENUM('pending', 'processing', 'completed', 'failed')]. *)
Inductive Status := pending | processing | completed | failed.

(** The words the services compute for the status of a run; ['partial']
    is not a value of the column. *)
Inductive StatusWord :=
| word (s : Status)
| partial.

Module WeeklyReward.
Record t := mk {
  id : nat;
  weekStartDate : Date;
  weekEndDate : Date;
  totalPoints : number;
  totalTokens : number;
  pointToTokenRatio : number;
  distributionTxHash : option string;
  distributedAt : option Date;
  status : Status
}.
End WeeklyReward.

Module UserReward.
(** [UserId] and [WeeklyRewardId] are the foreign keys of
    [UserReward.belongsTo(User)] and [UserReward.belongsTo(WeeklyReward)];
    [txHash = None] is the [null] transaction reference of a failed
    payout. *)
Record t := mk {
  UserId : option string;
  WeeklyRewardId : option nat;
  points : number;
  tokens : number;
  txHash : option string
}.
End UserReward.

(** The database: one list per table.  The rows of a table are listed in
    the order in which a query without [ORDER BY] returns them: the
    database chooses that order and the list records it.  An insert puts
    the new row last and an update leaves the row in its place; what a
    service does with the rows of a query is stated about the rows as the
    query returns them. *)
Record DB := mkDB {
  users : list User.t;
  articles : list Article.t;
  tags : list Tag.t;
  contributions : list Contribution.t;
  weeklyRewards : list WeeklyReward.t;
  userRewards : list UserReward.t
}.

Definition emptyDB : DB := mkDB [] [] [] [] [] [].

Definition set_users (f : list User.t -> list User.t) (db : DB) : DB :=
  mkDB (f (users db)) (articles db) (tags db) (contributions db)
       (weeklyRewards db) (userRewards db).
Definition set_articles (f : list Article.t -> list Article.t) (db : DB) : DB :=
  mkDB (users db) (f (articles db)) (tags db) (contributions db)
       (weeklyRewards db) (userRewards db).
Definition set_tags (f : list Tag.t -> list Tag.t) (db : DB) : DB :=
  mkDB (users db) (articles db) (f (tags db)) (contributions db)
       (weeklyRewards db) (userRewards db).
Definition set_contributions
    (f : list Contribution.t -> list Contribution.t) (db : DB) : DB :=
  mkDB (users db) (articles db) (tags db) (f (contributions db))
       (weeklyRewards db) (userRewards db).
Definition set_weeklyRewards
    (f : list WeeklyReward.t -> list WeeklyReward.t) (db : DB) : DB :=
  mkDB (users db) (articles db) (tags db) (contributions db)
       (f (weeklyRewards db)) (userRewards db).
Definition set_userRewards
    (f : list UserReward.t -> list UserReward.t) (db : DB) : DB :=
  mkDB (users db) (articles db) (tags db) (contributions db)
       (weeklyRewards db) (f (userRewards db)).

(** *** Queries and updates used by the services *)

(** [User.findByPk]. *)
Definition User_findByPk (db : DB) (uid : string) : option User.t :=
  find (fun u => String.eqb (User.id u) uid) (users db).

(** [Article.findByPk]. *)
Definition Article_findByPk (db : DB) (aid : string) : option Article.t :=
  find (fun a => String.eqb (Article.id a) aid) (articles db).

Definition mem_string (s : string) (l : list string) : bool :=
  existsb (String.eqb s) l.

(** [Tag.findAll({ where: { name: names } })]. *)
Definition Tag_findAll_byName (db : DB) (names : list string) : list Tag.t :=
  filter (fun t => mem_string (Tag.name t) names) (tags db).

(** [Op.between]: SQL [BETWEEN lo AND hi], both bounds included. *)
Definition Op_between (lo hi t : Date) : bool := (lo <=? t) && (t <=? hi).

(** [Op.gte]. *)
Definition Op_gte (lo t : Date) : bool := lo <=? t.

(** [Contribution.findAll({ where: { createdAt: { [Op.between]: [s, e] } },
    include: [User] })]: the rows of the window; the joined user of a row
    is [contribution_User]. *)
Definition Contribution_findAll_between (db : DB) (startDate endDate : Date)
  : list Contribution.t :=
  filter (fun c => Op_between startDate endDate (Contribution.createdAt c))
         (contributions db).

(** [contribution.User] of an included row: the user the foreign key
    [UserId] points to, [null] ([None]) when the key is [NULL] or no such
    user is stored. *)
Definition contribution_User (db : DB) (contribution : Contribution.t)
  : option User.t :=
  match Contribution.UserId contribution with
  | Some uid => User_findByPk db uid
  | None => None
  end.

(** [Contribution.findAll({ where: { userId, ... } })]: [userId] is no
    column of the table, and the database rejects the query. *)
Definition Contribution_findAll_where_userId (db : DB) (userId : string)
  : result (list Contribution.t) :=
  Throw "column Contribution.userId does not exist".


(** [User.increment(fields, { where: { id } })] and [User.update]: applies
    [f] to the rows with identifier [uid]. *)
Definition User_update_where (uid : string) (f : User.t -> User.t) (db : DB) : DB :=
  set_users (map (fun u => if String.eqb (User.id u) uid then f u else u)) db.

Definition Article_update_where (aid : string) (f : Article.t -> Article.t)
    (db : DB) : DB :=
  set_articles (map (fun a => if String.eqb (Article.id a) aid then f a else a)) db.

(** [UUIDV4] for a new run: an identifier that no stored run has. *)
Definition freshId (db : DB) : nat :=
  S (fold_left Nat.max (map WeeklyReward.id (weeklyRewards db)) 0%nat).

(* ================================================================= *)
(** ** Scoring ([calculatePoints], [recordContribution]) *)

(** The constants of [token-economy-service.ts]. *)
Definition TOKEN_DECIMALS : Z := 9.
Definition WEEKLY_REWARD_POOL : number := of_Z 200000.
Definition MIN_TOKENS_PER_USER : number := of_Z 10.

Record PointsData := mkPointsData {
  pd_basePoints : number;
  pd_qualityMultiplier : number;
  pd_reputationMultiplier : number;
  pd_demandMultiplier : number;
  pd_totalPoints : number
}.

(** The [switch] on the contribution type: [(min, max)]. *)
Definition basePointsRange (t : ContributionType) : number * number :=
  match t with
  | creation => (of_Z 50, of_Z 200)
  | major_edit => (of_Z 20, of_Z 100)
  | minor_edit => (of_Z 5, of_Z 20)
  | review => (of_Z 10, of_Z 50)
  | unrecognized => (of_Z 10, of_Z 20)
  end.

(** [l.reduce((sum, tag) => sum + tag.demandMultiplier, 0) / l.length]. *)
Definition averageDemand (l : list Tag.t) : number :=
  div (fold_left (fun sum tag => add sum (Tag.demandMultiplier tag)) l zero)
      (of_Z (Z.of_nat (List.length l))).

(** A string is truthy when it is not empty. *)
Definition truthy (s : string) : bool := negb (String.eqb s EmptyString).

(** [calculatePoints]; [rnd1] and [rnd2] are the two values returned by
    [Math.random()], in the order of the calls. *)
Definition calculatePoints (db : DB) (rnd1 rnd2 : number)
    (contributionType : ContributionType) (userId : string)
    (articleId : option string) (tagNames : option (list string)) : PointsData :=
  let '(rmin, rmax) := basePointsRange contributionType in
  let basePoints :=
    Math_floor (add rmin (mul rnd1 (add (sub rmax rmin) (of_Z 1)))) in
  let reputationMultiplier :=
    match User_findByPk db userId with
    | Some user => User.reputation user
    | None => lit 10 1
    end in
  let qualityMultiplier :=
    parseFloat_toFixed2 (add (lit 5 1) (mul rnd2 (lit 25 1))) in
  let demandMultiplier :=
    match tagNames with
    | Some (n :: ns) =>
        match Tag_findAll_byName db (n :: ns) with
        | [] => lit 10 1
        | tagObjects => averageDemand tagObjects
        end
    | _ =>
        match articleId with
        | Some aid =>
            if truthy aid then
              match Article_findByPk db aid with
              | Some article =>
                  match Tag_findAll_byName db (Article.Tags article) with
                  | [] => lit 10 1
                  | articleTags => averageDemand articleTags
                  end
              | None => lit 10 1
              end
            else lit 10 1
        | None => lit 10 1
        end
    end in
  let totalPoints :=
    Math_floor
      (mul (mul (mul basePoints qualityMultiplier) reputationMultiplier)
           demandMultiplier) in
  mkPointsData basePoints qualityMultiplier reputationMultiplier
               demandMultiplier totalPoints.

Definition isEdit (t : ContributionType) : bool :=
  match t with creation => false | _ => true end.

Definition isCreationOrMajorEdit (t : ContributionType) : bool :=
  match t with creation | major_edit => true | _ => false end.

(** [Contribution.create({ userId, articleId, type, ... })]: the fields
    [userId] and [articleId] are no attributes of the model and are
    dropped, so both foreign keys of the new row are [NULL]. *)
Definition Contribution_create (userId articleId : string)
    (type : ContributionType) (pointsData : PointsData) (now : Date)
  : Contribution.t :=
  Contribution.mk None None type
    (pd_basePoints pointsData) (pd_qualityMultiplier pointsData)
    (pd_reputationMultiplier pointsData) (pd_demandMultiplier pointsData)
    (pd_totalPoints pointsData) now.

(** [recordContribution]: stores the contribution and updates the
    statistics of the user and of the article; [now] is the time of the
    call ([new Date()], and the [updatedAt] that [Article.increment]
    sets). *)
Definition recordContribution (db : DB) (now : Date) (rnd1 rnd2 : number)
    (userId articleId : string) (contributionType : ContributionType)
    (tagNames : option (list string)) : DB * Contribution.t :=
  let pointsData :=
    calculatePoints db rnd1 rnd2 contributionType userId (Some articleId) tagNames in
  let contribution :=
    Contribution_create userId articleId contributionType pointsData now in
  let db1 := set_contributions (fun l => l ++ [contribution]) db in
  let db2 :=
    User_update_where userId
      (fun u => User.mk (User.id u) (User.walletAddress u) (User.reputation u)
                  (add (User.totalContributions u) (of_Z 1))
                  (add (User.totalPoints u) (pd_totalPoints pointsData))
                  (User.totalTokensEarned u) (User.lastActiveAt u)) db1 in
  let db3 :=
    User_update_where userId
      (fun u => User.mk (User.id u) (User.walletAddress u) (User.reputation u)
                  (User.totalContributions u) (User.totalPoints u)
                  (User.totalTokensEarned u) now) db2 in
  let db4 :=
    if isEdit contributionType then
      Article_update_where articleId
        (fun a => Article.mk (Article.id a) (Article.qualityScore a)
                    (add (Article.totalRevisions a) (of_Z 1))
                    now (Article.Tags a)) db3
    else db3 in
  let db5 :=
    if isCreationOrMajorEdit contributionType then
      Article_update_where articleId
        (fun a => Article.mk (Article.id a) (pd_qualityMultiplier pointsData)
                    (Article.totalRevisions a) now (Article.Tags a)) db4
    else db4 in
  (db5, contribution).

(* ================================================================= *)
(** ** Aggregation and planning ([calculateWeeklyRewards]) *)

(** A JavaScript [Map] (or object): the entries in insertion order;
    setting an existing key keeps its position.  A key is a string or
    [undefined]. *)
Module JSMap.
Section WithValue.
Context {V : Type}.

Definition t := list (Key * V).

Fixpoint get (m : t) (k : Key) : option V :=
  match m with
  | [] => None
  | (k', v) :: rest => if Key_eqb k' k then Some v else get rest k
  end.

Definition has (m : t) (k : Key) : bool :=
  match get m k with Some _ => true | None => false end.

Fixpoint set (m : t) (k : Key) (v : V) : t :=
  match m with
  | [] => [(k, v)]
  | (k', v') :: rest =>
      if Key_eqb k' k then (k', v) :: rest else (k', v') :: set rest k v
  end.

Definition keys (m : t) : list Key := map fst m.
Definition values (m : t) : list V := map snd m.
End WithValue.
Arguments t V : clear implicits.
End JSMap.

Record UserPoints := mkUserPoints {
  up_points : number;
  up_walletAddress : string
}.

Record UserRewardData := mkUserRewardData {
  userId : Key;
  walletAddress : string;
  points : number;
  tokenAmount : number
}.

(** The body of the [forEach] over the contributions of the window.  The
    key is [contribution.userId]; the joined [contribution.User] is
    [null] when the row has no user, and reading its wallet address then
    throws. *)
Definition accumulate (db : DB) (userPointsMap : JSMap.t UserPoints)
    (contribution : Contribution.t) : result (JSMap.t UserPoints) :=
  let userId := Contribution.userId contribution in
  match contribution_User db contribution with
  | None => Throw "Cannot read properties of null (reading 'walletAddress')"
  | Some user =>
      let walletAddress := User.walletAddress user in
      let m1 :=
        if JSMap.has userPointsMap userId then userPointsMap
        else JSMap.set userPointsMap userId (mkUserPoints zero walletAddress) in
      match JSMap.get m1 userId with
      | None => Throw "Cannot read properties of undefined (reading 'points')"
      | Some userData =>
          Ok (JSMap.set m1 userId
                (mkUserPoints
                   (add (up_points userData) (Contribution.totalPoints contribution))
                   (up_walletAddress userData)))
      end
  end.

Fixpoint forEach_accumulate (db : DB) (m : JSMap.t UserPoints)
    (cs : list Contribution.t) : result (JSMap.t UserPoints) :=
  match cs with
  | [] => Ok m
  | c :: rest =>
      let* m' := accumulate db m c in forEach_accumulate db m' rest
  end.

(** [values.reduce((sum, userData) => sum + userData.points, 0)]. *)
Definition sumPoints (m : JSMap.t UserPoints) : number :=
  fold_left (fun sum userData => add sum (up_points userData)) (JSMap.values m) zero.

(** One entry of the plan: [max(floor(points * ratio), MIN_TOKENS_PER_USER)]. *)
Definition planEntry (pointToTokenRatio : number) (e : Key * UserPoints)
  : UserRewardData :=
  let '(userId, userData) := e in
  mkUserRewardData userId (up_walletAddress userData) (up_points userData)
    (Math_max (Math_floor (mul (up_points userData) pointToTokenRatio))
              MIN_TOKENS_PER_USER).

Definition calculateWeeklyRewards (db : DB) (startDate endDate : Date)
  : result (list UserRewardData) :=
  let contributions := Contribution_findAll_between db startDate endDate in
  let* userPointsMap := forEach_accumulate db [] contributions in
  let totalPoints := sumPoints userPointsMap in
  if eqb totalPoints zero then Ok []
  else
    let pointToTokenRatio := div WEEKLY_REWARD_POOL totalPoints in
    Ok (map (planEntry pointToTokenRatio) userPointsMap).

(* ================================================================= *)
(** ** The ledger

    The Solana endpoint answers the distributor.  [validRecipient] tells
    whether [new PublicKey(address)] and the derivation of the recipient
    token account succeed; [rpc n to amount] is the outcome of the [n]-th
    round of [getLatestBlockhash], [sendRawTransaction] and
    [confirmTransaction]. *)

Inductive RpcOutcome :=
| SendError                           (* fetching the blockhash or sending throws *)
| ConfirmError (signature : string)   (* [confirmTransaction] throws *)
| Confirmed (signature : string).

Record Ledger := mkLedger {
  treasuryKeypairValid : bool;
  validRecipient : string -> bool;
  rpc : nat -> string -> Z -> RpcOutcome
}.

Record Transfer := mkTransfer {
  tr_to : string;
  tr_amount : Z
}.

(** What has happened on the endpoint so far: the transfers taken to it,
    one per round, oldest first. *)
Definition Chain := list Transfer.

Definition emptyChain : Chain := [].

(** [reward.tokenAmount * Math.pow(10, TOKEN_DECIMALS)]. *)
Definition scaledAmount (reward : UserRewardData) : number :=
  mul (tokenAmount reward) (of_Z (10 ^ TOKEN_DECIMALS)).

(** The [try] block of the payout loop up to [confirmTransaction]: the
    signature on success, the exception otherwise. *)
Definition attemptTransfer (L : Ledger) (chain : Chain) (reward : UserRewardData)
  : Chain * result string :=
  if negb (validRecipient L (walletAddress reward)) then
    (chain, Throw "Invalid public key input")
  else
    match toBigInt (scaledAmount reward) with
    | None => (chain, Throw "The number cannot be converted to a BigInt")
    | Some raw =>
        let sent := chain ++ [mkTransfer (walletAddress reward) raw] in
        match rpc L (List.length chain) (walletAddress reward) raw with
        | SendError => (sent, Throw "failed to send transaction")
        | ConfirmError _ => (sent, Throw "failed to confirm transaction")
        | Confirmed signature => (sent, Ok signature)
        end
    end.

(* ================================================================= *)
(** ** Distribution ([distributeWeeklyRewards]) *)

(** The counters [successfulTransactions] and [failedTransactions] only
    count up from zero; they are natural numbers here. *)
Record TokenDistributionResult := mkResult {
  success : bool;
  totalUsers : nat;
  totalTokens : number;
  totalPoints : number;
  weekStartDate : Date;
  weekEndDate : Date;
  successfulTransactions : nat;
  failedTransactions : nat;
  errorMessage : option string
}.

(** [UserReward.create({ userId, weeklyRewardId, points, tokens, txHash })]:
    the fields [userId] and [weeklyRewardId] are no attributes of the
    model and are dropped, so both foreign keys of the new record are
    [NULL]. *)
Definition UserReward_build (userId : Key) (weeklyRewardId : nat)
    (points tokens : number) (txHash : option string) : UserReward.t :=
  UserReward.mk None None points tokens txHash.

Definition UserReward_create (userId : Key) (weeklyRewardId : nat)
    (points tokens : number) (txHash : option string) (db : DB) : DB :=
  set_userRewards
    (fun l => l ++ [UserReward_build userId weeklyRewardId points tokens txHash]) db.

(** The user row after a payout of [amount]. *)
Definition creditedTokens (amount : number) (u : User.t) : User.t :=
  User.mk (User.id u) (User.walletAddress u) (User.reputation u)
          (User.totalContributions u) (User.totalPoints u)
          (add (User.totalTokensEarned u) amount) (User.lastActiveAt u).

(** [User.increment({ totalTokensEarned: amount }, { where: { id } })];
    Sequelize refuses to build a [WHERE] from an [undefined] value. *)
Definition User_increment_totalTokensEarned (id : Key) (amount : number)
    (db : DB) : result DB :=
  match id with
  | None => Throw "WHERE parameter id has invalid undefined value"
  | Some uid => Ok (User_update_where uid (creditedTokens amount) db)
  end.

(** The state threaded through the payout loop. *)
Record LoopState := mkLoop {
  ls_db : DB;
  ls_chain : Chain;
  ls_successful : nat;
  ls_failed : nat
}.

(** One iteration of [for (const reward of userRewards)].  The [catch]
    also takes the exception of [User.increment], which is thrown after
    the Payout Record with the signature has been stored. *)
Definition payOne (L : Ledger) (weeklyRewardId : nat) (st : LoopState)
    (reward : UserRewardData) : LoopState :=
  if negb (truthy (walletAddress reward)) then
    (* no wallet address: warn, count a failure, [continue] *)
    mkLoop (ls_db st) (ls_chain st) (ls_successful st) (S (ls_failed st))
  else
    match attemptTransfer L (ls_chain st) reward with
    | (chain', Ok signature) =>
        let db1 :=
          UserReward_create (userId reward) weeklyRewardId (points reward)
                            (tokenAmount reward) (Some signature) (ls_db st) in
        match User_increment_totalTokensEarned (userId reward)
                                               (tokenAmount reward) db1 with
        | Ok db2 => mkLoop db2 chain' (S (ls_successful st)) (ls_failed st)
        | Throw _ =>
            let db2 :=
              UserReward_create (userId reward) weeklyRewardId (points reward)
                                (tokenAmount reward) None db1 in
            mkLoop db2 chain' (ls_successful st) (S (ls_failed st))
        end
    | (chain', Throw _) =>
        let db1 :=
          UserReward_create (userId reward) weeklyRewardId (points reward)
                            (tokenAmount reward) None (ls_db st) in
        mkLoop db1 chain' (ls_successful st) (S (ls_failed st))
    end.

Definition payAll (L : Ledger) (weeklyRewardId : nat) (st : LoopState)
    (userRewards : list UserRewardData) : LoopState :=
  fold_left (payOne L weeklyRewardId) userRewards st.

(** The status computed at the end of the loop. *)
Definition resolveStatus (successfulTransactions failedTransactions : nat)
  : StatusWord :=
  if (0 <? successfulTransactions)%nat then
    if (0 <? failedTransactions)%nat then partial else word completed
  else word failed.

(** Writing a status word into the column: a word that is no value of the
    [ENUM] is rejected. *)
Definition ENUM_status (w : StatusWord) : result Status :=
  match w with
  | word s => Ok s
  | partial =>
      Throw "invalid input value for enum enum_WeeklyRewards_status: partial"
  end.

(** An update of the run with identifier [wid]. *)
Definition WeeklyReward_update (wid : nat) (f : WeeklyReward.t -> WeeklyReward.t)
    (db : DB) : DB :=
  set_weeklyRewards
    (map (fun w => if Nat.eqb (WeeklyReward.id w) wid then f w else w)) db.

(** [weeklyReward.update({ status, distributedAt, distributionTxHash })]:
    nothing is written when the status is rejected. *)
Definition WeeklyReward_update_status (wid : nat) (status : StatusWord)
    (distributedAt : Date) (distributionTxHash : string) (db : DB) : result DB :=
  let* s := ENUM_status status in
  Ok (WeeklyReward_update wid
        (fun w =>
           WeeklyReward.mk (WeeklyReward.id w) (WeeklyReward.weekStartDate w)
             (WeeklyReward.weekEndDate w) (WeeklyReward.totalPoints w)
             (WeeklyReward.totalTokens w) (WeeklyReward.pointToTokenRatio w)
             (Some distributionTxHash) (Some distributedAt) s)
        db).

(** The result returned by the outer [catch]. *)
Definition errorResult (startDate endDate : Date) (msg : string)
  : TokenDistributionResult :=
  mkResult false 0 zero zero startDate endDate 0 0 (Some msg).

Definition distributeWeeklyRewards (L : Ledger) (now : Date) (db : DB)
    (chain : Chain) (startDate endDate : Date)
  : DB * Chain * TokenDistributionResult :=
  match calculateWeeklyRewards db startDate endDate with
  | Throw msg => (db, chain, errorResult startDate endDate msg)
  | Ok [] =>
      (db, chain, mkResult true 0 zero zero startDate endDate 0 0 None)
  | Ok userRewards =>
      let totalTokens :=
        fold_left (fun sum reward => add sum (tokenAmount reward)) userRewards zero in
      let totalPoints :=
        fold_left (fun sum reward => add sum (points reward)) userRewards zero in
      let weeklyReward :=
        WeeklyReward.mk (freshId db) startDate endDate totalPoints totalTokens
          (DECIMAL_24_9 (div WEEKLY_REWARD_POOL totalPoints)) None None processing in
      let db1 := set_weeklyRewards (fun l => l ++ [weeklyReward]) db in
      if negb (treasuryKeypairValid L) then
        (db1, chain, errorResult startDate endDate "bad secret key size"%string)
      else
        let st :=
          payAll L (WeeklyReward.id weeklyReward) (mkLoop db1 chain 0 0) userRewards in
        match WeeklyReward_update_status (WeeklyReward.id weeklyReward)
                (resolveStatus (ls_successful st) (ls_failed st))
                now "batch_distribution" (ls_db st) with
        | Throw msg =>
            (ls_db st, ls_chain st, errorResult startDate endDate msg)
        | Ok db2 =>
            (db2, ls_chain st,
             mkResult (0 <? ls_successful st)%nat (List.length userRewards)
               totalTokens totalPoints startDate endDate
               (ls_successful st) (ls_failed st) None)
        end
  end.

(* ================================================================= *)
(** ** [rewards-service.ts] *)

Record UserPointsRow := mkRow {
  row_userId : Key;
  row_walletAddress : string;
  row_points : number;
  row_contributionCount : number
}.

(** The body of the [forEach] of [calculateRewards]; [userPoints] is an
    object keyed by [contribution.userId].  [user.walletAddress] is read
    only when the key is new. *)
Definition accumulateRow (db : DB) (userPoints : JSMap.t UserPointsRow)
    (contribution : Contribution.t) : result (JSMap.t UserPointsRow) :=
  let userId := Contribution.userId contribution in
  let user := contribution_User db contribution in
  let* m1 :=
    match JSMap.get userPoints userId with
    | Some _ => Ok userPoints
    | None =>
        match user with
        | None => Throw "Cannot read properties of null (reading 'walletAddress')"
        | Some user =>
            Ok (JSMap.set userPoints userId
                  (mkRow userId (User.walletAddress user) zero zero))
        end
    end in
  match JSMap.get m1 userId with
  | None => Throw "Cannot read properties of undefined (reading 'points')"
  | Some row =>
      Ok (JSMap.set m1 userId
            (mkRow (row_userId row) (row_walletAddress row)
               (add (row_points row) (Contribution.totalPoints contribution))
               (add (row_contributionCount row) (of_Z 1))))
  end.

Fixpoint forEach_accumulateRow (db : DB) (m : JSMap.t UserPointsRow)
    (cs : list Contribution.t) : result (JSMap.t UserPointsRow) :=
  match cs with
  | [] => Ok m
  | c :: rest =>
      let* m' := accumulateRow db m c in forEach_accumulateRow db m' rest
  end.

(** [calculateRewards]: the rows and their total. *)
Definition calculateRewards (db : DB) (startDate endDate : Date)
  : result (list UserPointsRow * number) :=
  let contributions := Contribution_findAll_between db startDate endDate in
  let* userPoints := forEach_accumulateRow db [] contributions in
  let users := JSMap.values userPoints in
  let totalPoints := fold_left (fun sum user => add sum (row_points user)) users zero in
  Ok (users, totalPoints).

(** [createWeeklyReward]: the database with the new run, and the run as
    the database returns it. *)
Definition createWeeklyReward (db : DB) (startDate endDate : Date)
    (totalTokens : number) : result (DB * WeeklyReward.t) :=
  let* r := calculateRewards db startDate endDate in
  let '(users, totalPoints) := r in
  if eqb totalPoints zero || Nat.eqb (List.length users) 0 then
    Throw "No contributions to reward for this period"
  else
    let pointToTokenRatio := div totalTokens totalPoints in
    let weeklyReward :=
      WeeklyReward.mk (freshId db) startDate endDate
        totalPoints totalTokens (DECIMAL_24_9 pointToTokenRatio) None None pending in
    Ok (set_weeklyRewards (fun l => l ++ [weeklyReward]) db, weeklyReward).

(** [processUserReward]: the insert of the Payout Record is rejected when
    the computed points are no value of the [INTEGER] column; the [catch]
    rethrows and nothing is stored. *)
Definition processUserReward (db : DB) (weeklyReward : WeeklyReward.t)
    (userId : string) (tokens : number) (txHash : string)
  : DB * result UserReward.t :=
  let points := Math_round (div tokens (WeeklyReward.pointToTokenRatio weeklyReward)) in
  if fitsINTEGER points then
    let db1 :=
      UserReward_create (Some userId) (WeeklyReward.id weeklyReward) points tokens
                        (Some txHash) db in
    let userReward :=
      UserReward_build (Some userId) (WeeklyReward.id weeklyReward) points tokens
                       (Some txHash) in
    match User_increment_totalTokensEarned (Some userId) tokens db1 with
    | Ok db2 => (db2, Ok userReward)
    | Throw msg => (db1, Throw msg)
    end
  else (db, Throw "invalid input syntax for type integer").

(* ================================================================= *)
(** ** [POST /rewards/distribution-complete] ([rewards-routes.ts]) *)

(** [WeeklyReward.findOne({ where: { weekStartDate, weekEndDate } })]: a
    run with this window, the first one in the order of the table. *)
Definition WeeklyReward_findOne (db : DB) (startDate endDate : Date)
  : option WeeklyReward.t :=
  find (fun w => (WeeklyReward.weekStartDate w =? startDate)
                 && (WeeklyReward.weekEndDate w =? endDate))
       (weeklyRewards db).

(** The status the handler assigns from the counts of the request body. *)
Definition routeStatus (totalUsers successfulTransactions : number) : StatusWord :=
  if eqb successfulTransactions totalUsers then word completed else partial.

(** The handler: the database after the request, the HTTP status and the
    run of a 200 answer.  A rejected [save()] ends in the [catch], which
    answers 500. *)
Definition distributionComplete (db : DB) (startDate endDate : Date)
    (totalUsers successfulTransactions failedTransactions : number)
  : DB * (nat * option WeeklyReward.t) :=
  match WeeklyReward_findOne db startDate endDate with
  | None => (db, (404%nat, None))
  | Some weeklyReward =>
      match ENUM_status (routeStatus totalUsers successfulTransactions) with
      | Throw _ => (db, (500%nat, None))
      | Ok status =>
          let saved :=
            WeeklyReward.mk (WeeklyReward.id weeklyReward)
              (WeeklyReward.weekStartDate weeklyReward)
              (WeeklyReward.weekEndDate weeklyReward)
              (WeeklyReward.totalPoints weeklyReward)
              (WeeklyReward.totalTokens weeklyReward)
              (WeeklyReward.pointToTokenRatio weeklyReward)
              (WeeklyReward.distributionTxHash weeklyReward)
              (WeeklyReward.distributedAt weeklyReward) status in
          (WeeklyReward_update (WeeklyReward.id weeklyReward) (fun _ => saved) db,
           (200%nat, Some saved))
      end
  end.

(* ================================================================= *)
(** ** Reputation ([updateUserReputation]) *)

(** [order: [['createdAt', 'DESC']]]: newest first (rows with equal dates
    keep their table order). *)
Fixpoint insertDesc (c : Contribution.t) (l : list Contribution.t)
  : list Contribution.t :=
  match l with
  | [] => [c]
  | d :: rest =>
      if Contribution.createdAt d <? Contribution.createdAt c
      then c :: d :: rest
      else d :: insertDesc c rest
  end.

Definition orderByCreatedAtDesc (l : list Contribution.t) : list Contribution.t :=
  fold_left (fun acc c => insertDesc c acc) l [].

(** [Contribution.findAll({ where: { userId }, order: DESC, limit: 100 })]. *)
Definition Contribution_findRecent (db : DB) (userId : string)
  : result (list Contribution.t) :=
  let* found := Contribution_findAll_where_userId db userId in
  Ok (firstn 100 (orderByCreatedAtDesc found)).

(** The reputation computed from a non-empty history. *)
Definition reputationOf (history : list Contribution.t) : number :=
  let avgQuality :=
    div (fold_left (fun sum c => add sum (Contribution.qualityMultiplier c))
                   history zero)
        (of_Z (Z.of_nat (List.length history))) in
  let baseReputation :=
    add (lit 8 1) (mul (sub avgQuality (lit 5 1)) (div (lit 7 1) (lit 25 1))) in
  let stakingBoost := zero in
  Math_max (lit 8 1)
    (Math_min (lit 15 1)
       (mul baseReputation (add (of_Z 1) (div stakingBoost (of_Z 100))))).

(** [updateUserReputation]: the database after the call and the value
    returned, or the exception rethrown by the [catch]. *)
Definition updateUserReputation (db : DB) (userId : string) : DB * result number :=
  match Contribution_findRecent db userId with
  | Throw msg => (db, Throw msg)
  | Ok [] => (db, Ok (lit 10 1))
  | Ok contributions =>
      let newReputation := reputationOf contributions in
      (User_update_where userId
         (fun u => User.mk (User.id u) (User.walletAddress u) newReputation
                     (User.totalContributions u) (User.totalPoints u)
                     (User.totalTokensEarned u) (User.lastActiveAt u)) db,
       Ok newReputation)
  end.

(* ================================================================= *)
(** ** Demand ([updateTagDemandMultipliers]) *)

Definition THIRTY_DAYS : Z := 30 * 24 * 60 * 60 * 1000.

(** [article.Contributions] of the nested [include]: the contributions
    whose foreign key [ArticleId] is the article, created in the last 30
    days. *)
Definition article_Contributions (db : DB) (now : Date) (article : Article.t)
  : list Contribution.t :=
  filter
    (fun c =>
       match Contribution.ArticleId c with
       | Some aid => String.eqb aid (Article.id article)
       | None => false
       end
       && Op_gte (now - THIRTY_DAYS) (Contribution.createdAt c))
    (contributions db).

(** [tag.Articles]: the articles joined to the tag through [ArticleTag]. *)
Definition tag_Articles (db : DB) (tag : Tag.t) : list Article.t :=
  filter (fun a => mem_string (Tag.name tag) (Article.Tags a)) (articles db).

(** The count of the inner [forEach]:
    [totalContributions += article.Contributions.length]. *)
Definition recentContributions (db : DB) (now : Date) (tag : Tag.t) : nat :=
  fold_left
    (fun totalContributions article =>
       Nat.add totalContributions
         (List.length (article_Contributions db now article)))
    (tag_Articles db tag)
    0%nat.

(** The multiplier recomputed from the count. *)
Definition newDemandMultiplier (totalContributions : nat) : number :=
  if (0 <? totalContributions)%nat then
    add (lit 10 1)
        (Math_min (lit 15 1) (div (of_Z (Z.of_nat totalContributions)) (of_Z 10)))
  else lit 10 1.

(** Whether the change is large enough to be written. *)
Definition changedSignificantly (newMultiplier oldMultiplier : number) : bool :=
  gtb (Math_abs (sub newMultiplier oldMultiplier)) (lit 1 1).

(** One iteration of the loop over the tags: the row after the iteration
    and whether it was updated. *)
Definition updateTag (db : DB) (now : Date) (tag : Tag.t) : Tag.t * bool :=
  let newMultiplier := newDemandMultiplier (recentContributions db now tag) in
  if changedSignificantly newMultiplier (Tag.demandMultiplier tag)
  then (Tag.mk (Tag.name tag) newMultiplier, true)
  else (tag, false).

Definition updateTagDemandMultipliers (db : DB) (now : Date) : DB * nat :=
  let updated := map (updateTag db now) (tags db) in
  (set_tags (fun _ => map fst updated) db,
   List.length (filter snd updated)).

(* ================================================================= *)
(** ** Calendar dates

    The [Date] methods the services use, for a process whose time zone is
    UTC: a date is its millisecond timestamp, and the calendar day of [d]
    is [d / MS_PER_DAY] (rounded down, also before 1970). *)

Definition MS_PER_DAY : Z := 24 * 60 * 60 * 1000.

(** [d.getDay()]: 0 is Sunday; 1 January 1970 was a Thursday. *)
Definition getDay (d : Date) : Z := (d / MS_PER_DAY + 4) mod 7.

(** [d.setDate(d.getDate() + n)]: the same time of day, [n] days later. *)
Definition addDays (d : Date) (n : Z) : Date := d + n * MS_PER_DAY.

(** [d.setHours(0, 0, 0, 0)]. *)
Definition startOfDay (d : Date) : Date := d / MS_PER_DAY * MS_PER_DAY.

(** [d.setHours(23, 59, 59, 999)]. *)
Definition endOfDay (d : Date) : Date := startOfDay d + MS_PER_DAY - 1.

(* ================================================================= *)
(** ** Pending rewards ([getPendingRewardsForUser]) *)

(** [startOfWeek]: [setDate(now.getDate() - now.getDay())], then
    [setHours(0, 0, 0, 0)]. *)
Definition startOfWeek_pending (now : Date) : Date :=
  startOfDay (addDays now (- getDay now)).





(* ================================================================= *)
(** ** [rewards-service.ts], continued *)

(** [WeeklyReward.findByPk]. *)
Definition WeeklyReward_findByPk (db : DB) (wid : nat) : option WeeklyReward.t :=
  find (fun w => Nat.eqb (WeeklyReward.id w) wid) (weeklyRewards db).

(** [completeDistribution]. *)
Definition completeDistribution (db : DB) (now : Date) (weeklyRewardId : nat)
    (txHash : string) : result (DB * WeeklyReward.t) :=
  match WeeklyReward_findByPk db weeklyRewardId with
  | None => Throw "Weekly reward not found"
  | Some weeklyReward =>
      let saved :=
        WeeklyReward.mk (WeeklyReward.id weeklyReward)
          (WeeklyReward.weekStartDate weeklyReward)
          (WeeklyReward.weekEndDate weeklyReward)
          (WeeklyReward.totalPoints weeklyReward)
          (WeeklyReward.totalTokens weeklyReward)
          (WeeklyReward.pointToTokenRatio weeklyReward)
          (Some txHash) (Some now) completed in
      Ok (WeeklyReward_update (WeeklyReward.id weeklyReward) (fun _ => saved) db,
          saved)
  end.









(* ================================================================= *)
(** ** [POST /rewards/confirm] and [GET /rewards/projected] *)

(** The fields of the request body.  A missing field and an empty string
    are both falsy; [tokens] is the number sent, a missing or [null] one
    being [NaN], which is falsy as well ([parseFloat] of a truthy number
    is that number); [weekStartDate] and [weekEndDate] are [None] when
    missing and otherwise the instant their text denotes. *)
Record ConfirmBody := mkConfirmBody {
  body_userId : string;
  body_tokens : number;
  body_txHash : string;
  body_weekStartDate : option Date;
  body_weekEndDate : option Date
}.

(** [!x] on a number: zero and [NaN] are falsy. *)
Definition falsyNumber (x : number) : bool := isNaN x || eqb x zero.

(** The handler: the database after the request, the HTTP status and the
    Payout Record of a 200 answer.  An exception of [processUserReward]
    ends in the [catch], which answers 500. *)
Definition confirm (db : DB) (body : ConfirmBody) : DB * nat * option UserReward.t :=
  match body_weekStartDate body, body_weekEndDate body with
  | Some weekStartDate, Some weekEndDate =>
      if negb (truthy (body_userId body)) || falsyNumber (body_tokens body)
         || negb (truthy (body_txHash body))
      then (db, 400%nat, None)
      else
        match WeeklyReward_findOne db weekStartDate weekEndDate with
        | None => (db, 404%nat, None)
        | Some weeklyReward =>
            match processUserReward db weeklyReward (body_userId body)
                                    (body_tokens body) (body_txHash body) with
            | (db', Ok userReward) => (db', 200%nat, Some userReward)
            | (db', Throw _) => (db', 500%nat, None)
            end
        end
  | _, _ => (db, 400%nat, None)
  end.

(** The current week of [/projected]: Monday 00:00:00.000 to Sunday
    23:59:59.999. *)
Definition startOfWeek_projected (now : Date) : Date :=
  startOfDay (addDays now (- (if getDay now =? 0 then 6 else getDay now - 1))).

Definition endOfWeek_projected (now : Date) : Date :=
  endOfDay (addDays (startOfWeek_projected now) 6).

Definition WEEKLY_TOKEN_ALLOCATION : number := of_Z 200000.

Record CurrentPeriod := mkCurrentPeriod {
  period_startDate : Date;
  period_endDate : Date;
  period_totalPoints : number;
  period_totalUsers : nat;
  tokenPerPoint : number
}.

Record UserProjection := mkUserProjection {
  projection_points : number;
  projection_contributionCount : number;
  projectedTokens : number
}.

(** The [currentPeriod] and [userProjection] fields of the answer for the
    requester [requesterId] ([req.user.id]); [Throw] is the 500 answer. *)
Definition projected (db : DB) (now : Date) (requesterId : string)
  : result (CurrentPeriod * UserProjection) :=
  let startOfWeek := startOfWeek_projected now in
  let endOfWeek := endOfWeek_projected now in
  let* r := calculateRewards db startOfWeek endOfWeek in
  let '(users, totalPoints) := r in
  let tokenPerPoint :=
    if gtb totalPoints zero then div WEEKLY_TOKEN_ALLOCATION totalPoints else zero in
  let currentUser :=
    find (fun user => Key_eqb (row_userId user) (Some requesterId)) users in
  Ok (mkCurrentPeriod startOfWeek endOfWeek totalPoints (List.length users)
                      tokenPerPoint,
      match currentUser with
      | Some user =>
          mkUserProjection (row_points user) (row_contributionCount user)
                           (mul (row_points user) tokenPerPoint)
      | None => mkUserProjection zero zero zero
      end).

(* ================================================================= *)
(** ** The distribution script ([scripts/weekly-reward-distribution.ts])

    The script talks to the backend over HTTP and to the token program
    through the Solana endpoint.  The backend is the database with the
    handlers above (the script presents an administrator token); what the
    endpoint answers is a [ScriptEnv]. *)

(** *** The window *)

(** [weekEndDate = new Date(now.setHours(0, 0, 0, 0))] and
    [weekStartDate = weekEndDate - 7 days]. *)
Definition script_weekEndDate (now : Date) : Date := startOfDay now.
Definition script_weekStartDate (now : Date) : Date :=
  addDays (script_weekEndDate now) (-7).

(** *** Values in JSON documents *)

(** [JSON.stringify] writes [NaN] and the infinities as [null] and [-0] as
    [0]; every other number is read back as it was written. *)
Definition JSONNumber : Type := option number.

Definition toJSON (x : number) : JSONNumber :=
  match x with
  | S754_nan | S754_infinity _ => None
  | S754_zero _ => Some zero
  | S754_finite _ _ _ => Some x
  end.

(** [null] in arithmetic is 0. *)
Definition ToNumber (j : JSONNumber) : number :=
  match j with Some x => x | None => zero end.

(** [j === 0]. *)
Definition strictlyZero (j : JSONNumber) : bool :=
  match j with Some x => eqb x zero | None => false end.

(** A number of a request body as the handler sees it: [null] is falsy,
    like [NaN]. *)
Definition bodyNumber (j : JSONNumber) : number :=
  match j with Some x => x | None => S754_nan end.

(** A string field of a request body as the handler sees it:
    [JSON.stringify] leaves out a field that is [undefined], and the
    handler reads a missing field as falsy, like the empty string. *)
Definition bodyString (k : Key) : string :=
  match k with Some s => s | None => EmptyString end.

(** *** [GET /rewards/calculate] as the script receives it *)

(** [received_userId] is [None] when the document has no field
    [userId]. *)
Record ReceivedUser := mkReceivedUser {
  received_userId : Key;
  received_walletAddress : string;
  received_points : JSONNumber
}.

(** The answer to a request with both dates: [None] is the 500 answer, on
    which [axios.get] throws. *)
Definition GET_calculate (db : DB) (startDate endDate : Date)
  : option (list ReceivedUser * JSONNumber) :=
  match calculateRewards db startDate endDate with
  | Ok (users, totalPoints) =>
      Some (map (fun user => mkReceivedUser (row_userId user) (row_walletAddress user)
                               (toJSON (row_points user)))
                users,
            toJSON totalPoints)
  | Throw _ => None
  end.

(** *** The plan of the script *)

Record UserContribution := mkUserContribution {
  uc_userId : Key;
  uc_walletAddress : string;
  uc_points : JSONNumber;
  uc_tokenAmount : number
}.

(** [users.map(user => ({ ..., tokenAmount: Math.max(Math.floor(user.points
    * pointToTokenRatio), MIN_TOKENS_PER_USER) }))]; the two constants of
    the script have the values of those of the service. *)
Definition userContributions (users : list ReceivedUser) (totalPoints : JSONNumber)
  : list UserContribution :=
  let pointToTokenRatio := div WEEKLY_REWARD_POOL (ToNumber totalPoints) in
  map (fun user =>
         mkUserContribution (received_userId user) (received_walletAddress user)
           (received_points user)
           (Math_max (Math_floor (mul (ToNumber (received_points user))
                                      pointToTokenRatio))
                     MIN_TOKENS_PER_USER))
      users.

(** *** The endpoint *)

(** [authorityBalance] is the raw balance read by [getAccount], [None]
    when reading it throws; [distribute n user] is the outcome of the
    [try] block of the [n]-th iteration up to [.rpc()]: the signature, or
    [None] when the conversion of the amount, the recipient address, the
    recipient token account or the transfer throws. *)
Record ScriptEnv := mkScriptEnv {
  authorityBalance : option Z;
  distribute : nat -> UserContribution -> option string
}.

Inductive TransactionStatus := tx_success | tx_failed.

Record TransactionEntry := mkTransactionEntry {
  entry_walletAddress : string;
  entry_tokens : number;
  entry_signature : option string;
  entry_status : TransactionStatus
}.

Definition isSuccess (tx : TransactionEntry) : bool :=
  match entry_status tx with tx_success => true | tx_failed => false end.

Definition isFailed (tx : TransactionEntry) : bool :=
  match entry_status tx with tx_failed => true | tx_success => false end.

Record ScriptLoop := mkScriptLoop {
  sl_db : DB;
  sl_transactions : list TransactionEntry;
  sl_index : nat
}.

(** One iteration of [for (const user of userContributions)]: the success
    is logged before [/rewards/confirm] is called, and an answer other
    than 200 makes [axios.post] throw into the [catch], which logs a
    failure. *)
Definition distributeTo (env : ScriptEnv) (weekStartDate weekEndDate : Date)
    (st : ScriptLoop) (user : UserContribution) : ScriptLoop :=
  let failedEntry :=
    mkTransactionEntry (uc_walletAddress user) (uc_tokenAmount user) None tx_failed in
  match distribute env (sl_index st) user with
  | None =>
      mkScriptLoop (sl_db st) (sl_transactions st ++ [failedEntry]) (S (sl_index st))
  | Some signature =>
      let logged :=
        sl_transactions st
        ++ [mkTransactionEntry (uc_walletAddress user) (uc_tokenAmount user)
                               (Some signature) tx_success] in
      let '(db', status, _) :=
        confirm (sl_db st)
                (mkConfirmBody (bodyString (uc_userId user))
                               (bodyNumber (toJSON (uc_tokenAmount user)))
                               signature (Some weekStartDate) (Some weekEndDate)) in
      if Nat.eqb status 200
      then mkScriptLoop db' logged (S (sl_index st))
      else mkScriptLoop db' (logged ++ [failedEntry]) (S (sl_index st))
  end.

(** What a run of the script leaves: the exit code, the database, and the
    transactions of the log file when the script got as far as writing
    it. *)
Record ScriptResult := mkScriptResult {
  exitCode : nat;
  finalDB : DB;
  loggedTransactions : option (list TransactionEntry)
}.

(** [main], from the computation of the window on.  An answer of
    [/rewards/distribution-complete] other than 200 makes [axios.post]
    throw, and the script exits with code 1. *)
Definition main (env : ScriptEnv) (now : Date) (db : DB) : ScriptResult :=
  let weekEndDate := script_weekEndDate now in
  let weekStartDate := script_weekStartDate now in
  match GET_calculate db weekStartDate weekEndDate with
  | None => mkScriptResult 1 db None
  | Some (users, totalPoints) =>
      if Nat.eqb (List.length users) 0 || strictlyZero totalPoints
      then mkScriptResult 0 db None
      else
        let plan := userContributions users totalPoints in
        match authorityBalance env with
        | None => mkScriptResult 1 db None
        | Some amount =>
            let totalTokensNeeded :=
              fold_left (fun sum user => add sum (uc_tokenAmount user))
                        plan zero in
            let totalTokensNeededRaw :=
              mul totalTokensNeeded (of_Z (10 ^ 9)) in
            match toBigInt totalTokensNeededRaw with
            | None => mkScriptResult 1 db None
            | Some needed =>
                if amount <? needed then mkScriptResult 1 db None
                else
                  let st :=
                    fold_left (distributeTo env weekStartDate weekEndDate)
                              plan (mkScriptLoop db [] 0) in
                  let successfulTransactions :=
                    filter isSuccess (sl_transactions st) in
                  let failedTransactions :=
                    filter isFailed (sl_transactions st) in
                  let '(db', (status, _)) :=
                    distributionComplete (sl_db st) weekStartDate weekEndDate
                      (of_Z (Z.of_nat (List.length plan)))
                      (of_Z (Z.of_nat (List.length successfulTransactions)))
                      (of_Z (Z.of_nat (List.length failedTransactions))) in
                  if Nat.eqb status 200
                  then mkScriptResult 0 db' (Some (sl_transactions st))
                  else mkScriptResult 1 db' (Some (sl_transactions st))
            end
        end
  end.

(* ================================================================= *)
(** ** Scenarios used in the examples below *)

Module Scenario.
Local Open Scope string_scope.

Definition alice : User.t :=
  User.mk "alice" "WalletA" (lit 10 1) zero zero zero 0.
(** A contributor without a wallet address. *)
Definition bob : User.t :=
  User.mk "bob" "" (lit 10 1) zero zero zero 0.

(** Alice contributes 100 points at time 1000, Bob 50 points at 2000;
    both rows are linked to their user and to the article. *)
Definition c_alice : Contribution.t :=
  Contribution.mk (Some "alice") (Some "art1") creation (of_Z 100) (lit 10 1)
    (lit 10 1) (lit 10 1) (of_Z 100) 1000.
Definition c_bob : Contribution.t :=
  Contribution.mk (Some "bob") (Some "art1") review (of_Z 50) (lit 10 1)
    (lit 10 1) (lit 10 1) (of_Z 50) 2000.

(** A contribution of 0 points at time 1500 whose user is not set. *)
Definition c_orphan : Contribution.t :=
  Contribution.mk None (Some "art1") review zero (lit 10 1)
    (lit 10 1) (lit 10 1) zero 1500.

Definition db_alice : DB := mkDB [alice] [] [] [c_alice] [] [].
Definition db_two : DB := mkDB [alice; bob] [] [] [c_alice; c_bob] [] [].

(** A ledger that confirms every transfer. *)
Definition ledger_ok : Ledger :=
  mkLedger true (fun _ => true) (fun _ _ _ => Confirmed "sig").


(** The plan for [db_two] over the window [[0, 2000]]: one payout, keyed
    by [undefined], for the points of both contributors, addressed to the
    wallet of the user of the first row. *)
Definition r_merged : UserRewardData :=
  mkUserRewardData None "WalletA" (of_Z 150) (of_Z 200000).

(** The plans for [db_alice] and [db_bob]. *)
Definition r_alice : UserRewardData :=
  mkUserRewardData None "WalletA" (of_Z 100) (of_Z 200000).

(** [db_two] with the run created through [createWeeklyReward] for the
    window [[0, 2000]] with a pool of 200000 tokens. *)
Definition db_pending : DB :=
  match createWeeklyReward db_two 0 2000 (of_Z 200000) with
  | Ok (db, _) => db
  | Throw _ => db_two
  end.

(** A run whose ratio is 0.02 tokens per point, and one whose ratio is 0. *)
Definition run_small_ratio : WeeklyReward.t :=
  WeeklyReward.mk 1 0 2000 (of_Z 10000) (of_Z 200) (div (of_Z 200) (of_Z 10000))
    None None pending.
Definition run_zero_ratio : WeeklyReward.t :=
  WeeklyReward.mk 1 0 2000 (of_Z 10000) zero zero None None pending.

End Scenario.

(* ================================================================= *)
(** ** Notions used to state the properties *)

(** The contributions created in the closed window [[startDate, endDate]]. *)
Definition inClosedWindow (startDate endDate : Date) (c : Contribution.t) : Prop :=
  startDate <= Contribution.createdAt c <= endDate.

(** The contributions of the table created in that window, in the order
    of the table. *)
Definition closedWindow (db : DB) (startDate endDate : Date) : list Contribution.t :=
  filter (fun c => (startDate <=? Contribution.createdAt c)
                   && (Contribution.createdAt c <=? endDate))
         (contributions db).

(** The points of a list of contributions, added up from [zero] in the
    order of the list, and their number counted in the same way. *)
Definition sumOfPoints (cs : list Contribution.t) : number :=
  fold_left (fun sum c => add sum (Contribution.totalPoints c)) cs zero.

Definition countOf (cs : list Contribution.t) : number :=
  fold_left (fun n (_ : Contribution.t) => add n (of_Z 1)) cs zero.

(** The contribution is linked to a stored user. *)
Definition linked (db : DB) (c : Contribution.t) : bool :=
  match contribution_User db c with Some _ => true | None => false end.

(** The wallet address of the user of the first contribution of a list. *)
Definition firstWallet (db : DB) (cs : list Contribution.t) : option string :=
  match cs with
  | c :: _ => option_map User.walletAddress (contribution_User db c)
  | [] => None
  end.

(** A planned payout with a wallet address. *)
Definition hasWallet (reward : UserRewardData) : bool :=
  truthy (walletAddress reward).

(** A planned payout for which the distributor reaches the endpoint: it
    has a wallet address, the address is a usable recipient and the
    scaled amount is an integer. *)
Definition attemptable (L : Ledger) (reward : UserRewardData) : bool :=
  hasWallet reward
  && validRecipient L (walletAddress reward)
  && match toBigInt (scaledAmount reward) with Some _ => true | None => false end.

(** The Payout Record of a planned payout, with and without a transaction
    reference. *)
Definition recordOf (reward : UserRewardData) (txHash : option string)
  : UserReward.t :=
  UserReward.mk None None (points reward) (tokenAmount reward) txHash.

(** A Payout Record with a null transaction reference. *)
Definition isNullRecord (r : UserReward.t) : bool :=
  match UserReward.txHash r with None => true | Some _ => false end.

(** The Distribution Run inserted before the payout loop. *)
Definition openRun (db : DB) (startDate endDate : Date)
    (plan : list UserRewardData) : WeeklyReward.t :=
  let planned :=
    fold_left (fun sum reward => add sum (points reward)) plan zero in
  WeeklyReward.mk (freshId db) startDate endDate planned
    (fold_left (fun sum reward => add sum (tokenAmount reward)) plan zero)
    (DECIMAL_24_9 (div WEEKLY_REWARD_POOL planned)) None None processing.

(** A run after the final update of a payout loop that counted no
    success. *)
Definition closedRun (now : Date) (w : WeeklyReward.t) : WeeklyReward.t :=
  WeeklyReward.mk (WeeklyReward.id w) (WeeklyReward.weekStartDate w)
    (WeeklyReward.weekEndDate w) (WeeklyReward.totalPoints w)
    (WeeklyReward.totalTokens w) (WeeklyReward.pointToTokenRatio w)
    (Some "batch_distribution"%string) (Some now) failed.

(** What the records and the transfers of a part of the loop are, for
    the planned payouts [plan]. *)
Definition loopTrace (L : Ledger) (plan : list UserRewardData)
    (recs : list UserReward.t) (sent : list Transfer) : Prop :=
  map tr_to sent = map walletAddress (filter (attemptable L) plan)
  /\ Forall (fun r => exists reward,
                        In reward plan /\ r = recordOf reward (UserReward.txHash r))
            recs
  /\ List.length (filter isNullRecord recs) = List.length (filter hasWallet plan)
  /\ (List.length (filter (fun r => negb (isNullRecord r)) recs)
      <= List.length sent)%nat.


(** The recent contributions of a tag, counted over the pairs of an
    article of the tag and a contribution to that article of the last 30
    days. *)
Definition recentCount (db : DB) (now : Date) (tag : Tag.t) : nat :=
  List.length
    (filter
       (fun p : Article.t * Contribution.t =>
          mem_string (Tag.name tag) (Article.Tags (fst p))
          && match Contribution.ArticleId (snd p) with
             | Some aid => String.eqb aid (Article.id (fst p))
             | None => false
             end
          && (now - THIRTY_DAYS <=? Contribution.createdAt (snd p)))
       (list_prod (articles db) (contributions db))).

(** The demand multiplier the specification gives to a count:
    [1.0] for zero, [1.0 + min(1.5, count / 10)] otherwise. *)
Definition demandOf (count : nat) : number :=
  match count with
  | O => lit 10 1
  | S _ => add (lit 10 1) (Math_min (lit 15 1) (div (of_Z (Z.of_nat count)) (of_Z 10)))
  end.

(** *** Classes of numbers *)

(** [x] is not [NaN] and carries the sign [s]. *)
Definition signed_as (s : bool) (x : number) : Prop :=
  match x with
  | S754_nan => False
  | S754_zero s' | S754_infinity s' | S754_finite s' _ _ => s' = s
  end.

(** [Number.isFinite]. *)
Definition isFinite (x : number) : bool :=
  match x with
  | S754_zero _ | S754_finite _ _ _ => true
  | _ => false
  end.

(** A number that is neither [NaN] nor negative. *)
Definition nonNegative (x : number) : bool :=
  match x with
  | S754_nan => false
  | S754_zero _ => true
  | S754_infinity s | S754_finite s _ _ => negb s
  end.

(** The numbers 1.0 and 2.5. *)
Definition ONE : number := S754_finite false 4503599627370496 (-52).
Definition TWO_AND_HALF : number := S754_finite false 5629499534213120 (-51).

(** The second half of [binary_round_aux]: the rounded mantissa [m1] at
    exponent [e'] is brought back into the format. *)
Definition round_finish (sx : bool) (m1 e' : Z) : number :=
  let '(mrs'', e'') := shr_fexp prec emax m1 e' loc_Exact in
  match shr_m mrs'' with
  | Z0 => S754_zero sx
  | Zpos m => if e'' <=? emax - prec then S754_finite sx m e'' else S754_infinity sx
  | Zneg _ => S754_nan
  end.

(** *** Notions used for the further properties *)

(** The user row after a contribution worth [pts] recorded at [now]. *)
Definition creditedContribution (pts : number) (now : Date) (u : User.t) : User.t :=
  User.mk (User.id u) (User.walletAddress u) (User.reputation u)
          (add (User.totalContributions u) (of_Z 1))
          (add (User.totalPoints u) pts)
          (User.totalTokensEarned u) now.

(** The article row after a contribution of type [ty] with quality
    multiplier [quality] recorded at [now]. *)
Definition revisedArticle (ty : ContributionType) (quality : number) (now : Date)
    (a : Article.t) : Article.t :=
  Article.mk (Article.id a)
    (if isCreationOrMajorEdit ty then quality else Article.qualityScore a)
    (if isEdit ty then add (Article.totalRevisions a) (of_Z 1)
     else Article.totalRevisions a)
    now
    (Article.Tags a).

(** The day number of the Monday that starts the week of day [d]. *)
Definition mondayOf (d : Z) : Z := d - (d + 3) mod 7.

(** The request passes the checks of the handler. *)
Definition wellFormed (body : ConfirmBody) : bool :=
  truthy (body_userId body) && negb (falsyNumber (body_tokens body))
  && truthy (body_txHash body)
  && match body_weekStartDate body, body_weekEndDate body with
     | Some _, Some _ => true
     | _, _ => false
     end.

(** The run a request names. *)
Definition namedRun (db : DB) (body : ConfirmBody) : option WeeklyReward.t :=
  match body_weekStartDate body, body_weekEndDate body with
  | Some weekStartDate, Some weekEndDate =>
      WeeklyReward_findOne db weekStartDate weekEndDate
  | _, _ => None
  end.

(** The points [/confirm] computes for a request that names run [w]. *)
Definition confirmedPoints (w : WeeklyReward.t) (body : ConfirmBody) : number :=
  Math_round (div (body_tokens body) (WeeklyReward.pointToTokenRatio w)).

(** A run with its status replaced. *)
Definition withStatus (status : Status) (w : WeeklyReward.t) : WeeklyReward.t :=
  WeeklyReward.mk (WeeklyReward.id w) (WeeklyReward.weekStartDate w)
    (WeeklyReward.weekEndDate w) (WeeklyReward.totalPoints w)
    (WeeklyReward.totalTokens w) (WeeklyReward.pointToTokenRatio w)
    (WeeklyReward.distributionTxHash w) (WeeklyReward.distributedAt w) status.

(** A number that JSON carries unchanged. *)
Definition survivesJSON (x : number) : Prop := toJSON x = Some x.

(** *** Further scenarios *)

Module Cases.
Local Open Scope string_scope.

(** A ledger whose treasury key cannot be read. *)
Definition ledger_no_key : Ledger :=
  mkLedger false (fun _ => true) (fun _ _ _ => Confirmed "sig").

(** The run that [createWeeklyReward] stores for [Scenario.db_two] and the
    window [[0, 2000]]: its ratio is 1333.333333333. *)
Definition run_pending : WeeklyReward.t :=
  WeeklyReward.mk 1 0 2000 (of_Z 150) (of_Z 200000)
                  (lit 1333333333333 9) None None pending.

Definition body_alice : ConfirmBody :=
  mkConfirmBody "alice" (of_Z 133333) "sig" (Some 0) (Some 2000).

(** The Payout Record [/confirm] stores for [body_alice]. *)
Definition reward_alice : UserReward.t :=
  UserReward.mk None None (of_Z 100) (of_Z 133333) (Some "sig").

(** Alice contributes at midnight of 1 January 1970. *)
Definition c_midnight : Contribution.t :=
  Contribution.mk (Some "alice") (Some "art1") creation (of_Z 100) (lit 10 1)
    (lit 10 1) (lit 10 1) (of_Z 100) 0.
Definition db_midnight : DB := mkDB [Scenario.alice] [] [] [c_midnight] [] [].

(** A contribution of Alice that earned 0 points. *)
Definition c_midnight_zero : Contribution.t :=
  Contribution.mk (Some "alice") (Some "art1") review zero (lit 10 1)
    (lit 10 1) (lit 10 1) zero 0.

(** The script is run on 2 January 1970, five seconds after midnight;
    the authority holds enough tokens and every transfer goes through. *)
Definition script_now : Date := 86405000.
Definition env_ok : ScriptEnv :=
  mkScriptEnv (Some (10 ^ 18)) (fun _ _ => Some "sig").

(** An endpoint on which every transfer fails. *)
Definition env_down : ScriptEnv :=
  mkScriptEnv (Some (10 ^ 18)) (fun _ _ => None).

(** [db_midnight] with the run of the window of that script run. *)
Definition db_script : DB :=
  match createWeeklyReward db_midnight (script_weekStartDate script_now)
                           (script_weekEndDate script_now) (of_Z 200000) with
  | Ok (db, _) => db
  | Throw _ => db_midnight
  end.

(** A tag with one article that got three contributions at time 1000. *)
Definition tag_coq : Tag.t := Tag.mk "coq" (lit 10 1).
Definition art1 : Article.t := Article.mk "art1" (lit 10 1) zero 0 ["coq"].
Definition db_tagged : DB :=
  mkDB [Scenario.alice] [art1] [tag_coq]
       [Scenario.c_alice; Scenario.c_alice; Scenario.c_alice] [] [].

End Cases.

(* ================================================================= *)
(* ================================================================= *)
(** * Properties *)

#[global] Arguments JS.add : simpl never.
#[global] Arguments JS.sub : simpl never.
#[global] Arguments JS.mul : simpl never.
#[global] Arguments JS.div : simpl never.
#[global] Arguments JS.of_Z : simpl never.
#[global] Arguments JS.lit : simpl never.
#[global] Arguments JS.Math_floor : simpl never.
#[global] Arguments JS.Math_round : simpl never.
#[global] Arguments JS.Math_max : simpl never.
#[global] Arguments JS.Math_min : simpl never.

(** ** Facts about binary64 arithmetic *)

(** *** Comparison *)

Lemma SFcompare_antisym x y :
  SFcompare y x = option_map CompOpp (SFcompare x y).
Proof.
  destruct x as [sx|sx| |sx mx ex], y as [sy|sy| |sy my ey]; simpl;
    try reflexivity;
    try (destruct sx; reflexivity); try (destruct sy; reflexivity);
    try (destruct sx, sy; reflexivity).
  pose proof (Pos.compare_cont_antisym mx my Eq) as Hm. simpl in Hm.
  destruct sx, sy; simpl; try reflexivity;
    rewrite (Z.compare_antisym ex ey);
    destruct (ex ?= ey); simpl; try reflexivity;
    rewrite <- Hm; try reflexivity.
Qed.

Lemma SFcompare_refl x : isNaN x = false -> SFcompare x x = Some Eq.
Proof.
  destruct x as [s|s| |s m e]; simpl; try discriminate; intros _;
    try reflexivity; try (destruct s; reflexivity).
  destruct s; rewrite Z.compare_refl, Pos.compare_cont_refl; reflexivity.
Qed.

Lemma SFcompare_defined x y :
  isNaN x = false -> isNaN y = false -> exists c, SFcompare x y = Some c.
Proof.
  destruct x as [sx|sx| |sx mx ex], y as [sy|sy| |sy my ey]; simpl;
    try discriminate; intros _ _; eauto.
Qed.

Lemma ltb_leb x y : ltb x y = true -> leb x y = true.
Proof.
  unfold ltb, leb, SFltb, SFleb.
  destruct (SFcompare x y) as [[| |]|]; auto.
Qed.

Lemma leb_refl x : isNaN x = false -> leb x x = true.
Proof. intros H. unfold leb, SFleb. now rewrite SFcompare_refl. Qed.

(** The order is total on numbers other than [NaN]. *)
Lemma not_ltb_leb x y :
  isNaN x = false -> isNaN y = false -> ltb x y = false -> leb y x = true.
Proof.
  intros Hx Hy. unfold ltb, leb, SFltb, SFleb.
  rewrite (SFcompare_antisym x y).
  destruct (SFcompare_defined x y Hx Hy) as [c ->].
  destruct c; simpl; auto.
Qed.

(** *** [Math.max] and [Math.min] *)

Lemma Math_max_cases a b :
  isNaN a = false -> isNaN b = false ->
  Math_max a b = a \/ Math_max a b = b.
Proof.
  intros Ha Hb. unfold Math_max. rewrite Ha, Hb. simpl.
  destruct (ltb a b); auto. destruct (ltb b a); auto.
  destruct (isNegZero a); auto.
Qed.

Lemma Math_max_ge_r a b :
  isNaN a = false -> isNaN b = false -> leb b (Math_max a b) = true.
Proof.
  intros Ha Hb. unfold Math_max. rewrite Ha, Hb. simpl.
  destruct (ltb a b) eqn:E1; [now apply leb_refl|].
  destruct (ltb b a) eqn:E2; [now apply ltb_leb|].
  destruct (isNegZero a); [now apply leb_refl|].
  now apply not_ltb_leb.
Qed.

Lemma Math_max_ge_l a b :
  isNaN a = false -> isNaN b = false -> leb a (Math_max a b) = true.
Proof.
  intros Ha Hb. unfold Math_max. rewrite Ha, Hb. simpl.
  destruct (ltb a b) eqn:E1; [now apply ltb_leb|].
  destruct (ltb b a) eqn:E2; [now apply leb_refl|].
  destruct (isNegZero a); [|now apply leb_refl].
  now apply not_ltb_leb.
Qed.

Lemma Math_min_cases a b :
  isNaN a = false -> isNaN b = false ->
  Math_min a b = a \/ Math_min a b = b.
Proof.
  intros Ha Hb. unfold Math_min. rewrite Ha, Hb. simpl.
  destruct (ltb a b); auto. destruct (ltb b a); auto.
  destruct (isNegZero b); auto.
Qed.

Lemma Math_min_le_l a b :
  isNaN a = false -> isNaN b = false -> leb (Math_min a b) a = true.
Proof.
  intros Ha Hb. unfold Math_min. rewrite Ha, Hb. simpl.
  destruct (ltb a b) eqn:E1; [now apply leb_refl|].
  destruct (ltb b a) eqn:E2; [now apply ltb_leb|].
  destruct (isNegZero b); [|now apply leb_refl].
  now apply not_ltb_leb.
Qed.

Lemma Math_min_le_r a b :
  isNaN a = false -> isNaN b = false -> leb (Math_min a b) b = true.
Proof.
  intros Ha Hb. unfold Math_min. rewrite Ha, Hb. simpl.
  destruct (ltb a b) eqn:E1; [now apply ltb_leb|].
  destruct (ltb b a) eqn:E2; [now apply leb_refl|].
  destruct (isNegZero b); [now apply leb_refl|].
  now apply not_ltb_leb.
Qed.

Lemma Math_max_notNaN a b :
  isNaN a = false -> isNaN b = false -> isNaN (Math_max a b) = false.
Proof. intros Ha Hb. destruct (Math_max_cases a b Ha Hb) as [-> | ->]; auto. Qed.

Lemma Math_min_notNaN a b :
  isNaN a = false -> isNaN b = false -> isNaN (Math_min a b) = false.
Proof. intros Ha Hb. destruct (Math_min_cases a b Ha Hb) as [-> | ->]; auto. Qed.

(** *** Rounding never invents [NaN] *)

Lemma signed_as_notNaN s x : signed_as s x -> isNaN x = false.
Proof. destruct x; simpl; tauto. Qed.

Section RoundingShape.
Variables p em : Z.

Lemma iter_pos_invariant {A : Type} (P : A -> Prop) (f : A -> A) :
  (forall x, P x -> P (f x)) ->
  forall n x, P x -> P (iter_pos f n x).
Proof.
  intros Hf. induction n as [n IH|n IH|]; intros x Hx; simpl; auto.
Qed.

Lemma shr_1_nonneg mrs : 0 <= shr_m mrs -> 0 <= shr_m (shr_1 mrs).
Proof.
  destruct mrs as [m r s]. simpl.
  destruct m as [|q|q]; simpl; try lia; destruct q; simpl; lia.
Qed.

Lemma shr_nonneg mrs e n : 0 <= shr_m mrs -> 0 <= shr_m (fst (shr mrs e n)).
Proof.
  intros H. unfold shr. destruct n; simpl; auto.
  apply (iter_pos_invariant (fun x => 0 <= shr_m x)); auto.
  apply shr_1_nonneg.
Qed.

Lemma shr_record_of_loc_m m l : shr_m (shr_record_of_loc m l) = m.
Proof. destruct l as [|[| |]]; reflexivity. Qed.

Lemma shr_fexp_nonneg m e l : 0 <= m -> 0 <= shr_m (fst (shr_fexp p em m e l)).
Proof.
  intros H. unfold shr_fexp. apply shr_nonneg.
  now rewrite shr_record_of_loc_m.
Qed.

Lemma round_nearest_even_nonneg m l : 0 <= m -> 0 <= round_nearest_even m l.
Proof.
  intros H. unfold round_nearest_even.
  destruct l as [|[| |]]; try lia. destruct (Z.even m); lia.
Qed.

Lemma binary_round_aux_signed sx mx ex lx :
  0 <= mx -> signed_as sx (binary_round_aux p em sx mx ex lx).
Proof.
  intros H. unfold binary_round_aux.
  pose proof (shr_fexp_nonneg mx ex lx H) as H1.
  destruct (shr_fexp p em mx ex lx) as [mrs' e']. simpl in H1.
  pose proof (shr_fexp_nonneg _ e' loc_Exact
                (round_nearest_even_nonneg _ (loc_of_shr_record mrs') H1)) as H2.
  destruct (shr_fexp p em (round_nearest_even (shr_m mrs') (loc_of_shr_record mrs'))
                     e' loc_Exact) as [mrs'' e''].
  simpl in H2.
  destruct (shr_m mrs'') as [|q|q]; simpl.
  - reflexivity.
  - destruct (e'' <=? em - p); reflexivity.
  - lia.
Qed.

Lemma binary_round_signed sx mx ex : signed_as sx (binary_round p em sx mx ex).
Proof.
  unfold binary_round.
  destruct (shl_align mx ex (fexp p em (Z.pos (digits2_pos mx) + ex))) as [mz ez].
  apply binary_round_aux_signed. lia.
Qed.

Lemma binary_normalize_notNaN m e szero :
  isNaN (binary_normalize p em m e szero) = false.
Proof.
  destruct m; simpl; auto;
    apply (signed_as_notNaN _ _ (binary_round_signed _ _ _)).
Qed.

Lemma binary_normalize_pos m e szero :
  0 < m -> signed_as false (binary_normalize p em m e szero).
Proof.
  destruct m; simpl; try lia. intros _. apply binary_round_signed.
Qed.

End RoundingShape.

(** *** The operations on numbers other than [NaN] *)

Lemma nonNegative_notNaN x : nonNegative x = true -> isNaN x = false.
Proof. destruct x; simpl; auto. Qed.

Lemma signed_as_nonNegative x : signed_as false x -> nonNegative x = true.
Proof. destruct x; simpl; try tauto; intros ->; reflexivity. Qed.

Lemma of_Z_notNaN z : isNaN (of_Z z) = false.
Proof. apply binary_normalize_notNaN. Qed.

Lemma add_notNaN x y :
  isFinite x = true -> isNaN y = false -> isNaN (add x y) = false.
Proof.
  destruct x as [sx|sx| |sx mx ex], y as [sy|sy| |sy my ey]; simpl;
    try discriminate; intros _ _; auto;
    try (destruct sx, sy; reflexivity).
  apply binary_normalize_notNaN.
Qed.

Lemma sub_notNaN x y :
  isNaN x = false -> isFinite y = true -> isNaN (sub x y) = false.
Proof.
  destruct x as [sx|sx| |sx mx ex], y as [sy|sy| |sy my ey]; simpl;
    try discriminate; intros _ _; auto;
    try (destruct sx, sy; reflexivity).
  apply binary_normalize_notNaN.
Qed.

(** A product is [NaN] only for a [NaN] factor or for zero times infinity. *)
Lemma mul_notNaN x y :
  isNaN x = false -> isNaN y = false ->
  (isFinite x = true /\ isFinite y = true)
  \/ (x <> S754_zero true /\ x <> S754_zero false
      /\ y <> S754_zero true /\ y <> S754_zero false) ->
  isNaN (mul x y) = false.
Proof.
  destruct x as [sx|sx| |sx mx ex], y as [sy|sy| |sy my ey]; simpl;
    try discriminate; intros _ _ H; auto;
    try (destruct H as [[? ?]|(? & ? & ? & ?)]; try discriminate;
         destruct sx, sy; congruence).
  apply (signed_as_notNaN (xorb sx sy)).
  apply binary_round_aux_signed. lia.
Qed.

Lemma SFdiv_core_binary_nonneg m1 e1 m2 e2 :
  0 <= fst (fst (SFdiv_core_binary prec emax (Zpos m1) e1 (Zpos m2) e2)).
Proof.
  unfold SFdiv_core_binary.
  set (s := _ - _ - Z.min _ _).
  set (m' := match s with Z0 => _ | Zpos _ => _ | Zneg _ => _ end).
  assert (Hm : 0 <= m').
  { subst m'. destruct s; try lia. apply Z.shiftl_nonneg. lia. }
  pose proof (Z_div_mod m' (Zpos m2) eq_refl) as Hd.
  destruct (Z.div_eucl m' (Z.pos m2)) as [q r]. simpl.
  destruct Hd as [Hq Hr]. nia.
Qed.

(** A quotient is [NaN] only for a [NaN] operand, zero by zero or
    infinity by infinity. *)
Lemma div_notNaN x y :
  isNaN x = false -> isNaN y = false ->
  (exists s m e, x = S754_finite s m e) \/ (exists s m e, y = S754_finite s m e) ->
  isNaN (div x y) = false.
Proof.
  destruct x as [sx|sx| |sx mx ex], y as [sy|sy| |sy my ey]; simpl;
    try discriminate; intros _ _ H; auto;
    try (destruct H as [(? & ? & ? & ?)|(? & ? & ? & ?)]; discriminate).
  unfold div, SFdiv.
  pose proof (SFdiv_core_binary_nonneg mx ex my ey) as Hq.
  destruct (SFdiv_core_binary prec emax (Z.pos mx) ex (Z.pos my) ey) as [[mz ez] lz].
  apply (signed_as_notNaN (xorb sx sy)).
  now apply binary_round_aux_signed.
Qed.

(** Sums of numbers that are not negative. *)
Lemma add_nonNegative x y :
  nonNegative x = true -> nonNegative y = true -> nonNegative (add x y) = true.
Proof.
  destruct x as [sx|sx| |sx mx ex], y as [sy|sy| |sy my ey]; simpl;
    try discriminate; auto;
    try (destruct sx, sy; simpl; auto; discriminate);
    try (destruct sx; simpl; auto; discriminate);
    try (destruct sy; simpl; auto; discriminate).
  destruct sx, sy; try discriminate. intros _ _.
  apply signed_as_nonNegative. unfold add, SFadd. simpl.
  apply binary_round_signed.
Qed.

Lemma Math_floor_notNaN x : isNaN x = false -> isNaN (Math_floor x) = false.
Proof.
  destruct x as [s|s| |s m e]; simpl; auto. intros _.
  unfold Math_floor. destruct (0 <=? e); auto.
  destruct (Z.shiftr (signed s m) (- e)); auto; apply of_Z_notNaN.
Qed.

(** ** The rounding of sums and quotients

    The range of the recomputed demand multiplier depends on how sums and
    quotients are rounded; the lemmas below follow the rounding of
    [binary_round_aux] digit by digit. *)

(** *** Digits and shifts *)

Lemma digits2_pos_size p : digits2_pos p = Pos.size p.
Proof. induction p; simpl; congruence. Qed.

Lemma digits2_pos_bounds p :
  2 ^ (Zpos (digits2_pos p) - 1) <= Zpos p < 2 ^ Zpos (digits2_pos p).
Proof.
  rewrite digits2_pos_size. split.
  - pose proof (Pos.size_le p) as H.
    assert (H' : Z.pos (2 ^ Pos.size p) <= Z.pos p~0) by exact H.
    rewrite Pos2Z.inj_pow in H'.
    replace (Z.pos (Pos.size p)) with (Z.pos (Pos.size p) - 1 + 1) in H' by lia.
    rewrite Z.pow_add_r in H' by lia. lia.
  - pose proof (Pos.size_gt p) as H.
    assert (H' : Z.pos p < Z.pos (2 ^ Pos.size p)) by exact H.
    now rewrite Pos2Z.inj_pow in H'.
Qed.

Lemma Zdigits2_bound m : 0 <= m -> m < 2 ^ Zdigits2 m.
Proof.
  destruct m as [|q|q]; simpl; try lia. intros _. apply digits2_pos_bounds.
Qed.

(** The number of digits is determined by the binade. *)
Lemma digits2_pos_unique p d :
  2 ^ (d - 1) <= Zpos p < 2 ^ d -> Zpos (digits2_pos p) = d.
Proof.
  intros [Hlo Hhi]. pose proof (digits2_pos_bounds p) as [Hl Hh].
  set (n := Zpos (digits2_pos p)) in *.
  assert (Hd : 0 < d).
  { destruct (Z_lt_le_dec 0 d); auto.
    assert (2 ^ d <= 1).
    { destruct (Z.eq_dec d 0) as [->|]; [simpl; lia|].
      rewrite Z.pow_neg_r by lia. lia. }
    lia. }
  destruct (Z_lt_le_dec n d) as [Hlt|Hge].
  - assert (2 ^ n <= 2 ^ (d - 1)) by (apply Z.pow_le_mono_r; lia). lia.
  - destruct (Z_lt_le_dec d n) as [Hlt|Hge']; [|lia].
    assert (2 ^ d <= 2 ^ (n - 1)) by (apply Z.pow_le_mono_r; lia). lia.
Qed.

Lemma shr_1_m mrs : 0 <= shr_m mrs -> shr_m (shr_1 mrs) = shr_m mrs / 2.
Proof.
  destruct mrs as [m r s]. simpl. intros H.
  destruct m as [|q|q]; try lia; [reflexivity|].
  destruct q as [q|q|]; simpl.
  - rewrite Pos2Z.inj_xI. apply Z.div_unique with (r := 1); lia.
  - rewrite Pos2Z.inj_xO. apply Z.div_unique with (r := 0); lia.
  - reflexivity.
Qed.

Lemma iter_shr_1_m k : forall mrs,
  0 <= shr_m mrs ->
  shr_m (iter_pos shr_1 k mrs) = shr_m mrs / 2 ^ Zpos k.
Proof.
  induction k as [k IH|k IH|]; intros mrs H; simpl iter_pos.
  - pose proof (shr_1_nonneg mrs H) as H1.
    pose proof (iter_pos_invariant (fun x => 0 <= shr_m x) shr_1 shr_1_nonneg k _ H1) as H2.
    rewrite IH, IH, shr_1_m by auto.
    rewrite !Z.div_div by lia.
    f_equal.
    replace (Z.pos k~1) with (1 + Z.pos k + Z.pos k) by lia.
    rewrite (Z.pow_add_r 2 (1 + Z.pos k) (Z.pos k)) by lia.
    rewrite (Z.pow_add_r 2 1 (Z.pos k)) by lia. change (2 ^ 1) with 2. ring.
  - pose proof (iter_pos_invariant (fun x => 0 <= shr_m x) shr_1 shr_1_nonneg k _ H) as H2.
    rewrite IH, IH by auto.
    rewrite !Z.div_div by lia.
    f_equal.
    replace (Z.pos k~0) with (Z.pos k + Z.pos k) by lia.
    rewrite (Z.pow_add_r 2 (Z.pos k) (Z.pos k)) by lia. ring.
  - now rewrite shr_1_m.
Qed.

Lemma shr_m_spec mrs e n :
  0 <= shr_m mrs ->
  shr_m (fst (shr mrs e n)) = shr_m mrs / 2 ^ Z.max 0 n
  /\ snd (shr mrs e n) = e + Z.max 0 n.
Proof.
  intros H. unfold shr. destruct n as [|k|k]; simpl.
  - rewrite Z.div_1_r. split; auto; lia.
  - rewrite iter_shr_1_m by auto. split; auto.
  - rewrite Z.div_1_r. split; auto; lia.
Qed.

Lemma iter_xO_spec p d : Zpos (Pos.iter xO p d) = Zpos p * 2 ^ Zpos d.
Proof.
  change (Pos.iter xO p d) with (shift_pos d p).
  rewrite shift_pos_correct, Z.pow_pos_fold. lia.
Qed.

Lemma fexp_eq x : fexp prec emax x = Z.max (x - 53) (-1074).
Proof. reflexivity. Qed.

Lemma round_nearest_even_bounds m l :
  m <= round_nearest_even m l <= m + 1.
Proof.
  unfold round_nearest_even. destruct l as [|[| |]]; try lia.
  destruct (Z.even m); lia.
Qed.

Lemma binary_round_aux_mantissa sx mx ex lx s m e :
  0 <= mx ->
  binary_round_aux prec emax sx mx ex lx = S754_finite s m e ->
  Zpos m < 2 ^ 53.
Proof.
  intros H. unfold binary_round_aux.
  pose proof (shr_fexp_nonneg prec emax mx ex lx H) as H1.
  destruct (shr_fexp prec emax mx ex lx) as [mrs' e']. simpl in H1.
  set (m1 := round_nearest_even (shr_m mrs') (loc_of_shr_record mrs')).
  assert (Hm1 : 0 <= m1) by now apply round_nearest_even_nonneg.
  unfold shr_fexp.
  set (k := fexp prec emax (Zdigits2 m1 + e') - e').
  assert (Hrec : 0 <= shr_m (shr_record_of_loc m1 loc_Exact)) by exact Hm1.
  destruct (shr_m_spec (shr_record_of_loc m1 loc_Exact) e' k Hrec) as [Hm _].
  destruct (shr (shr_record_of_loc m1 loc_Exact) e' k) as [mrs'' e''].
  simpl in Hm. rewrite Hm.
  pose proof (Zdigits2_bound m1 Hm1) as Hd.
  assert (Hk : Zdigits2 m1 - 53 <= Z.max 0 k).
  { subst k. rewrite fexp_eq. lia. }
  assert (Hdn : 0 <= Zdigits2 m1) by (destruct m1; simpl; lia).
  assert (Hlt : m1 / 2 ^ Z.max 0 k < 2 ^ 53).
  { apply Z.div_lt_upper_bound; [apply Z.pow_pos_nonneg; lia|].
    rewrite <- Z.pow_add_r by lia.
    eapply Z.lt_le_trans; [exact Hd|]. apply Z.pow_le_mono_r; lia. }
  destruct (m1 / 2 ^ Z.max 0 k) as [|q|q]; try discriminate.
  destruct (e'' <=? emax - prec); intros [= <- <- <-]. exact Hlt.
Qed.

Lemma leb_same_exp a b e :
  Zpos a <= Zpos b -> leb (S754_finite false a e) (S754_finite false b e) = true.
Proof.
  intros H. unfold leb, SFleb. simpl. rewrite Z.compare_refl.
  change (Pos.compare_cont Eq a b) with (Pos.compare a b).
  destruct (Pos.compare_spec a b) as [?|?|Hgt]; auto.
  apply Pos2Z.pos_lt_pos in Hgt. lia.
Qed.

Lemma leb_lt_exp a b e1 e2 :
  e1 < e2 -> leb (S754_finite false a e1) (S754_finite false b e2) = true.
Proof.
  intros H. unfold leb, SFleb. simpl.
  destruct (Z.compare_spec e1 e2); auto; lia.
Qed.

Lemma leb_finite_inv a ea b eb :
  leb (S754_finite false a ea) (S754_finite false b eb) = true ->
  ea < eb \/ (ea = eb /\ Zpos a <= Zpos b).
Proof.
  unfold leb, SFleb. simpl.
  destruct (Z.compare_spec ea eb); try discriminate; auto.
  change (Pos.compare_cont Eq a b) with (Pos.compare a b).
  destruct (Pos.compare_spec a b) as [->|Hlt|?]; try discriminate;
    intros _; right; split; auto; [lia|].
  apply Pos2Z.pos_lt_pos in Hlt. lia.
Qed.

Lemma binary_round_aux_finish sx mx ex lx :
  binary_round_aux prec emax sx mx ex lx
  = round_finish sx
      (round_nearest_even (shr_m (fst (shr_fexp prec emax mx ex lx)))
                          (loc_of_shr_record (fst (shr_fexp prec emax mx ex lx))))
      (snd (shr_fexp prec emax mx ex lx)).
Proof.
  unfold binary_round_aux, round_finish.
  destruct (shr_fexp prec emax mx ex lx) as [mrs' e']. reflexivity.
Qed.

(** A mantissa of 53 digits is kept. *)
Lemma round_finish_normal sx q e' :
  2 ^ 52 <= Zpos q < 2 ^ 53 -> -1074 <= e' <= 971 ->
  round_finish sx (Zpos q) e' = S754_finite sx q e'.
Proof.
  intros Hq He. unfold round_finish, shr_fexp.
  assert (Hd : Zdigits2 (Zpos q) = 53).
  { simpl. apply digits2_pos_unique. exact Hq. }
  rewrite Hd, fexp_eq.
  replace (Z.max (53 + e' - 53) (-1074) - e') with 0 by lia.
  simpl. replace (e' <=? 971) with true by (symmetry; apply Z.leb_le; lia).
  reflexivity.
Qed.

(** A mantissa of [2^53] is halved and the exponent incremented. *)
Lemma round_finish_carry sx e' :
  -1074 <= e' <= 970 ->
  round_finish sx (2 ^ 53) e' = S754_finite sx 4503599627370496 (e' + 1).
Proof.
  intros He. unfold round_finish, shr_fexp.
  change (Zdigits2 (2 ^ 53)) with 54. rewrite fexp_eq.
  replace (Z.max (54 + e' - 53) (-1074) - e') with 1 by lia.
  simpl. replace (e' + 1 <=? 971) with true by (symmetry; apply Z.leb_le; lia).
  reflexivity.
Qed.

(** The first half when nothing is shifted out. *)
Lemma shr_fexp_exact M e :
  fexp prec emax (Zdigits2 M + e) - e <= 0 ->
  shr_fexp prec emax M e loc_Exact = (Build_shr_record M false false, e).
Proof.
  intros H. unfold shr_fexp, shr.
  destruct (fexp prec emax (Zdigits2 M + e) - e); try lia; reflexivity.
Qed.

(** The first half when [k > 0] digits are shifted out. *)
Lemma shr_fexp_shift M e l k :
  0 <= M -> fexp prec emax (Zdigits2 M + e) - e = k -> 0 < k ->
  shr_m (fst (shr_fexp prec emax M e l)) = M / 2 ^ k
  /\ snd (shr_fexp prec emax M e l) = e + k.
Proof.
  intros HM Hk Hpos. unfold shr_fexp. rewrite Hk.
  assert (Hrec : 0 <= shr_m (shr_record_of_loc M l))
    by now rewrite shr_record_of_loc_m.
  destruct (shr_m_spec (shr_record_of_loc M l) e k Hrec) as [H1 H2].
  rewrite H1, H2, shr_record_of_loc_m.
  replace (Z.max 0 k) with k by lia. auto.
Qed.

Lemma binary_round_noshift sx Mp e :
  e <= fexp prec emax (Zpos (digits2_pos Mp) + e) ->
  binary_round prec emax sx Mp e = binary_round_aux prec emax sx (Zpos Mp) e loc_Exact.
Proof.
  intros H. unfold binary_round, shl_align.
  destruct (fexp prec emax (Z.pos (digits2_pos Mp) + e) - e) eqn:E; try reflexivity.
  lia.
Qed.

(** Rounding a sum in [[1, 2)] whose last digit is worth less than
    [2^-52]. *)
Lemma round_sum_below_two Mp m e :
  e <= -53 -> Zpos Mp = 2 ^ (- e) + Zpos m -> Zpos m < 2 ^ 53 ->
  leb ONE (binary_round prec emax false Mp e) = true
  /\ leb (binary_round prec emax false Mp e) TWO_AND_HALF = true.
Proof.
  intros He HM Hm.
  set (k := -52 - e).
  assert (Hk : 0 < k) by (unfold k; lia).
  assert (Hpk : 2 <= 2 ^ k).
  { change 2 with (2 ^ 1) at 1. apply Z.pow_le_mono_r; lia. }
  assert (Hsplit : 2 ^ (- e) = 2 ^ k * 2 ^ 52).
  { rewrite <- Z.pow_add_r by lia. f_equal. unfold k. lia. }
  assert (Hd : Zpos (digits2_pos Mp) = 1 - e).
  { apply digits2_pos_unique. rewrite HM.
    replace (1 - e - 1) with (- e) by lia.
    replace (1 - e) with (- e + 1) by lia.
    rewrite Z.pow_add_r by lia. change (2 ^ 1) with 2.
    rewrite Hsplit. nia. }
  rewrite binary_round_noshift by (rewrite Hd, fexp_eq; lia).
  rewrite binary_round_aux_finish.
  destruct (shr_fexp_shift (Zpos Mp) e loc_Exact k) as [H1 H2]; try lia.
  { simpl Zdigits2. rewrite Hd, fexp_eq. unfold k. lia. }
  rewrite H1, H2.
  replace (e + k) with (-52) by (unfold k; lia).
  set (m' := Zpos Mp / 2 ^ k).
  assert (Hm' : 2 ^ 52 <= m' < 2 ^ 53).
  { unfold m'. split.
    - apply Z.div_le_lower_bound; lia.
    - apply Z.div_lt_upper_bound; [lia|]. rewrite HM, Hsplit.
      change (2 ^ 53) with (2 * 2 ^ 52). nia. }
  pose proof (round_nearest_even_bounds m'
                (loc_of_shr_record (fst (shr_fexp prec emax (Z.pos Mp) e loc_Exact))))
    as Hr.
  set (m1 := round_nearest_even m' _) in *.
  destruct (Z.eq_dec m1 (2 ^ 53)) as [-> | Hne].
  - rewrite round_finish_carry by lia. split; reflexivity.
  - destruct m1 as [|q|q]; try lia.
    rewrite round_finish_normal by lia. split.
    + apply leb_same_exp. change (Zpos 4503599627370496) with (2 ^ 52). lia.
    + apply leb_lt_exp. lia.
Qed.

(** Rounding a sum in [[1, 2.5]] whose last digit is worth [2^-52]. *)
Lemma round_sum_at_unit Mp m :
  Zpos Mp = 2 ^ 52 + Zpos m -> Zpos m <= 3 * 2 ^ 51 ->
  leb ONE (binary_round prec emax false Mp (-52)) = true
  /\ leb (binary_round prec emax false Mp (-52)) TWO_AND_HALF = true.
Proof.
  intros HM Hm.
  destruct (Z_lt_le_dec (Zpos Mp) (2 ^ 53)) as [Hlt|Hge].
  - assert (Hd : Zpos (digits2_pos Mp) = 53)
      by (apply digits2_pos_unique; lia).
    rewrite binary_round_noshift by (rewrite Hd, fexp_eq; lia).
    rewrite binary_round_aux_finish.
    rewrite shr_fexp_exact by (simpl Zdigits2; rewrite Hd, fexp_eq; lia).
    simpl fst. simpl snd. simpl round_nearest_even.
    rewrite round_finish_normal by lia. split.
    + apply leb_same_exp. rewrite HM. change (2 ^ 52) with (Zpos 4503599627370496).
      lia.
    + apply leb_lt_exp. lia.
  - assert (Hd : Zpos (digits2_pos Mp) = 54).
    { apply digits2_pos_unique. lia. }
    rewrite binary_round_noshift by (rewrite Hd, fexp_eq; lia).
    rewrite binary_round_aux_finish.
    unfold shr_fexp. simpl Zdigits2. rewrite Hd, fexp_eq.
    replace (Z.max (54 + -52 - 53) (-1074) - -52) with 1 by lia.
    change (2 ^ 53) with 9007199254740992 in Hge.
    change (2 ^ 52) with 4503599627370496 in HM.
    change (3 * 2 ^ 51) with 6755399441055744 in Hm.
    assert (Hbound : forall q, 4503599627370496 <= Zpos q <= 5629499534213120 ->
              leb ONE (round_finish false (Zpos q) (-51)) = true
              /\ leb (round_finish false (Zpos q) (-51)) TWO_AND_HALF = true).
    { intros q Hq. rewrite round_finish_normal.
      - split; [apply leb_lt_exp; lia | apply leb_same_exp; apply Hq].
      - change (2 ^ 52) with 4503599627370496.
        change (2 ^ 53) with 9007199254740992. lia.
      - lia. }
    destruct Mp as [q|q|]; simpl.
    + match goal with |- context [if ?b then _ else _] => destruct b end.
      * apply Hbound. lia.
      * change (Z.pos q + 1) with (Zpos (q + 1)). apply Hbound. lia.
    + apply Hbound. lia.
    + lia.
Qed.

Lemma add_one_sum m e :
  e <= -52 ->
  exists Mp, add ONE (S754_finite false m e) = binary_round prec emax false Mp e
             /\ Zpos Mp = 2 ^ (- e) + Zpos m.
Proof.
  intros He. unfold add, ONE, SFadd.
  rewrite Z.min_r by lia.
  unfold shl_align at 2. rewrite Z.sub_diag.
  unfold shl_align.
  destruct (e - -52) as [|d|d] eqn:E; try lia.
  - assert (e = -52) by lia. subst e.
    eexists. split; [reflexivity|]. reflexivity.
  - eexists. split; [reflexivity|].
    simpl fst. rewrite Pos2Z.inj_add, iter_xO_spec.
    change (Z.pos 4503599627370496) with (2 ^ 52).
    rewrite <- Z.pow_add_r by lia. do 2 f_equal. lia.
Qed.

Lemma div_mantissa a b s m e : div a b = S754_finite s m e -> Zpos m < 2 ^ 53.
Proof.
  destruct a as [sa|sa| |sa ma ea], b as [sb|sb| |sb mb eb]; simpl;
    try discriminate.
  unfold div, SFdiv.
  pose proof (SFdiv_core_binary_nonneg ma ea mb eb) as Hq.
  destruct (SFdiv_core_binary prec emax (Z.pos ma) ea (Z.pos mb) eb) as [[mz ez] lz].
  intros H. eapply binary_round_aux_mantissa; eauto.
Qed.

Lemma div_signed a mb eb :
  signed_as false a -> signed_as false (div a (S754_finite false mb eb)).
Proof.
  destruct a as [sa|sa| |sa ma ea]; simpl; try tauto; intros ->; try reflexivity.
  unfold div, SFdiv.
  pose proof (SFdiv_core_binary_nonneg ma ea mb eb) as Hq.
  destruct (SFdiv_core_binary prec emax (Z.pos ma) ea (Z.pos mb) eb) as [[mz ez] lz].
  now apply binary_round_aux_signed.
Qed.

(** Adding 1.0 to a number of [[0, 1.5]] gives a number of [[1.0, 2.5]]. *)
Lemma add_one_range x :
  signed_as false x ->
  (forall s m e, x = S754_finite s m e -> Zpos m < 2 ^ 53) ->
  leb x (lit 15 1) = true ->
  leb ONE (add ONE x) = true /\ leb (add ONE x) TWO_AND_HALF = true.
Proof.
  intros Hs Hm Hle.
  assert (E15 : lit 15 1 = S754_finite false 6755399441055744 (-52))
    by (vm_compute; reflexivity).
  rewrite E15 in Hle.
  destruct x as [s|s| |s m e]; simpl in Hs; try contradiction; subst s.
  - split; reflexivity.
  - discriminate.
  - specialize (Hm _ _ _ eq_refl).
    apply leb_finite_inv in Hle.
    destruct (add_one_sum m e) as (Mp & -> & HM); [lia|].
    destruct (Z_le_gt_dec e (-53)) as [He|He].
    + now apply round_sum_below_two with (m := m).
    + assert (e = -52) by lia. subst e.
      apply round_sum_at_unit with (m := m); [exact HM|].
      destruct Hle as [?|[_ ?]]; lia.
Qed.

Lemma newDemandMultiplier_range n :
  leb (lit 10 1) (newDemandMultiplier n) = true
  /\ leb (newDemandMultiplier n) (lit 25 1) = true.
Proof.
  unfold newDemandMultiplier.
  destruct (0 <? n)%nat eqn:En; [|split; reflexivity].
  apply Nat.ltb_lt in En.
  set (x := div (of_Z (Z.of_nat n)) (of_Z 10)).
  assert (E10 : of_Z 10 = S754_finite false 5629499534213120 (-49))
    by (vm_compute; reflexivity).
  assert (Hs : signed_as false x).
  { subst x. rewrite E10. apply div_signed. apply binary_normalize_pos. lia. }
  assert (Hx : isNaN x = false) by now apply signed_as_notNaN with (s := false).
  assert (H15 : isNaN (lit 15 1) = false) by reflexivity.
  change (lit 10 1) with ONE. change (lit 25 1) with TWO_AND_HALF.
  destruct (Math_min_cases _ _ H15 Hx) as [E|E].
  - rewrite E. split; reflexivity.
  - pose proof (Math_min_le_l _ _ H15 Hx) as Hle. rewrite E in *.
    apply add_one_range; auto.
    intros s m e Hxe. apply (div_mantissa _ _ _ _ _ Hxe).
Qed.

(** C9: the multiplier recomputed for a topic is 1.0 when the topic has
    no contribution in the last 30 days and [1.0 + min(1.5, recentCount /
    10)] otherwise; it lies in [[1.0, 2.5]]; the row of the topic then
    holds either this value or, when the change is at most 0.1, its old
    one. *)

(** ** The aggregation window *)

Lemma Op_between_spec s e t : Op_between s e t = true <-> s <= t <= e.
Proof. unfold Op_between. rewrite andb_true_iff, !Z.leb_le. tauto. Qed.

Lemma Contribution_findAll_between_spec db s e c :
  In c (Contribution_findAll_between db s e)
  <-> In c (contributions db) /\ inClosedWindow s e c.
Proof.
  unfold Contribution_findAll_between, inClosedWindow.
  now rewrite filter_In, Op_between_spec.
Qed.

Lemma Contribution_findAll_between_closedWindow db s e :
  Contribution_findAll_between db s e = closedWindow db s e.
Proof. reflexivity. Qed.

(** Adding to [+0]: the [reduce] of one entry. *)
Lemma add_zero_l x :
  add zero x = match x with S754_zero _ => zero | _ => x end.
Proof. destruct x as [[|]|[|]| |[|] m e]; reflexivity. Qed.

Lemma eqb_add_zero_l x : eqb (add zero x) zero = eqb x zero.
Proof. rewrite add_zero_l. now destruct x as [[|]|[|]| |[|] m e]. Qed.

(** ** The aggregation loops

    Every row is filed under the key [undefined], so both loops keep one
    entry: it is created from the first row and takes the points of all
    rows. *)

Lemma forEach_accumulate_merged db cs : forall v,
  forEach_accumulate db [(None, v)] cs
  = if forallb (linked db) cs
    then Ok [(None,
              mkUserPoints
                (fold_left (fun sum c => add sum (Contribution.totalPoints c))
                           cs (up_points v))
                (up_walletAddress v))]
    else Throw "Cannot read properties of null (reading 'walletAddress')".
Proof.
  induction cs as [|c cs IH]; intros v; simpl.
  - now destruct v.
  - unfold accumulate, linked, Contribution.userId.
    destruct (contribution_User db c); simpl; auto.
    now rewrite IH.
Qed.

Lemma forEach_accumulate_closed db cs :
  forEach_accumulate db [] cs
  = match cs with
    | [] => Ok []
    | c :: rest =>
        match contribution_User db c with
        | None => Throw "Cannot read properties of null (reading 'walletAddress')"
        | Some user =>
            if forallb (linked db) rest
            then Ok [(None, mkUserPoints (sumOfPoints cs) (User.walletAddress user))]
            else Throw "Cannot read properties of null (reading 'walletAddress')"
        end
    end.
Proof.
  destruct cs as [|c rest]; simpl; auto.
  unfold accumulate, Contribution.userId.
  destruct (contribution_User db c); simpl; auto.
  now rewrite forEach_accumulate_merged.
Qed.

Lemma forEach_accumulateRow_merged db cs : forall row,
  forEach_accumulateRow db [(None, row)] cs
  = Ok [(None,
         mkRow (row_userId row) (row_walletAddress row)
           (fold_left (fun sum c => add sum (Contribution.totalPoints c))
                      cs (row_points row))
           (fold_left (fun n (_ : Contribution.t) => add n (of_Z 1))
                      cs (row_contributionCount row)))].
Proof.
  induction cs as [|c cs IH]; intros row; simpl.
  - now destruct row.
  - unfold accumulateRow, Contribution.userId. simpl. now rewrite IH.
Qed.

Lemma forEach_accumulateRow_closed db cs :
  forEach_accumulateRow db [] cs
  = match cs with
    | [] => Ok []
    | c :: rest =>
        match contribution_User db c with
        | None => Throw "Cannot read properties of null (reading 'walletAddress')"
        | Some user =>
            Ok [(None, mkRow None (User.walletAddress user)
                             (sumOfPoints cs) (countOf cs))]
        end
    end.
Proof.
  destruct cs as [|c rest]; simpl; auto.
  unfold accumulateRow, Contribution.userId.
  destruct (contribution_User db c); simpl; auto.
  now rewrite forEach_accumulateRow_merged.
Qed.

(** The planner in closed form. *)
Lemma calculateWeeklyRewards_closed db startDate endDate :
  calculateWeeklyRewards db startDate endDate
  = match closedWindow db startDate endDate with
    | [] => Ok []
    | c :: rest =>
        match contribution_User db c with
        | None => Throw "Cannot read properties of null (reading 'walletAddress')"
        | Some user =>
            if forallb (linked db) rest
            then
              let windowPoints := sumOfPoints (c :: rest) in
              if eqb (add zero windowPoints) zero then Ok []
              else
                Ok [mkUserRewardData None (User.walletAddress user) windowPoints
                      (Math_max
                         (Math_floor
                            (mul windowPoints
                                 (div WEEKLY_REWARD_POOL (add zero windowPoints))))
                         MIN_TOKENS_PER_USER)]
            else Throw "Cannot read properties of null (reading 'walletAddress')"
        end
    end.
Proof.
  unfold calculateWeeklyRewards.
  rewrite Contribution_findAll_between_closedWindow, forEach_accumulate_closed.
  destruct (closedWindow db startDate endDate) as [|c rest]; [reflexivity|].
  destruct (contribution_User db c); [|reflexivity].
  destruct (forallb (linked db) rest); reflexivity.
Qed.

(** [calculateRewards] in closed form. *)
Lemma calculateRewards_closed db startDate endDate :
  calculateRewards db startDate endDate
  = match closedWindow db startDate endDate with
    | [] => Ok ([], zero)
    | c :: rest =>
        match contribution_User db c with
        | None => Throw "Cannot read properties of null (reading 'walletAddress')"
        | Some user =>
            Ok ([mkRow None (User.walletAddress user)
                       (sumOfPoints (c :: rest)) (countOf (c :: rest))],
                add zero (sumOfPoints (c :: rest)))
        end
    end.
Proof.
  unfold calculateRewards.
  rewrite Contribution_findAll_between_closedWindow, forEach_accumulateRow_closed.
  destruct (closedWindow db startDate endDate) as [|c rest]; [reflexivity|].
  destruct (contribution_User db c); reflexivity.
Qed.

(** Every planned payout is keyed by [undefined]. *)
Lemma calculateWeeklyRewards_unkeyed db startDate endDate plan :
  calculateWeeklyRewards db startDate endDate = Ok plan ->
  Forall (fun reward => userId reward = None) plan.
Proof.
  rewrite calculateWeeklyRewards_closed.
  destruct (closedWindow db startDate endDate) as [|c rest].
  - intros [= <-]. constructor.
  - destruct (contribution_User db c); [|discriminate].
    destruct (forallb (linked db) rest); [|discriminate]. cbv zeta.
    destruct (eqb _ zero); intros [= <-]; repeat constructor.
Qed.

(** C7 (as amended): the window of the Reward Aggregator is closed.  The
    query of both aggregators returns exactly the Contribution Events
    whose [createdAt] lies in [[start, end]], both bounds included, and
    what either aggregator returns holds the points of exactly these
    events: the total of [calculateRewards] and the points of every row
    and of every planned payout are the sum of the points of the events
    of the closed window. *)
Theorem aggregation_window_closed :
  forall db startDate endDate,
    let window := closedWindow db startDate endDate in
    (forall c, In c (Contribution_findAll_between db startDate endDate)
               <-> In c (contributions db) /\ inClosedWindow startDate endDate c)
    /\ Contribution_findAll_between db startDate endDate = window
    /\ (forall rows total,
          calculateRewards db startDate endDate = Ok (rows, total) ->
          total = add zero (sumOfPoints window)
          /\ (window <> [] -> rows <> [])
          /\ Forall (fun row => row_points row = sumOfPoints window
                                /\ row_contributionCount row = countOf window)
                    rows)
    /\ (forall plan,
          calculateWeeklyRewards db startDate endDate = Ok plan ->
          (eqb (sumOfPoints window) zero = false -> plan <> [])
          /\ Forall (fun reward => points reward = sumOfPoints window) plan).
Proof.
  intros db s e window.
  split; [intros c; apply Contribution_findAll_between_spec|].
  split; [reflexivity|]. split.
  - intros rows total. rewrite calculateRewards_closed. fold window.
    destruct window as [|c rest].
    + intros [= <- <-]. split; [reflexivity|]. split; [tauto|constructor].
    + destruct (contribution_User db c); [|discriminate].
      intros [= <- <-]. split; [reflexivity|]. split; [discriminate|].
      repeat constructor.
  - intros plan. rewrite calculateWeeklyRewards_closed. fold window.
    destruct window as [|c rest].
    + intros [= <-]. split; [|constructor].
      intros H. discriminate H.
    + destruct (contribution_User db c); [|discriminate].
      destruct (forallb (linked db) rest); [|discriminate]. cbv zeta.
      destruct (eqb (add zero (sumOfPoints (c :: rest))) zero) eqn:Ez;
        intros [= <-].
      * split; [|constructor]. intros Hnz.
        rewrite eqb_add_zero_l in Ez. congruence.
      * split; [discriminate|]. repeat constructor.
Qed.

Lemma aggregation_window_closed_witness :
  calculateRewards Scenario.db_two 0 2000
  = Ok ([mkRow None "WalletA" (of_Z 150) (of_Z 2)], of_Z 150)
  /\ calculateWeeklyRewards Scenario.db_two 0 2000 = Ok [Scenario.r_merged]
  /\ of_Z 150
     = add zero (sumOfPoints (closedWindow Scenario.db_two 0 2000))
  /\ Forall (fun reward =>
               points reward = sumOfPoints (closedWindow Scenario.db_two 0 2000))
            [Scenario.r_merged].
Proof.
  split; [vm_compute; reflexivity|]. split; [vm_compute; reflexivity|].
  pose proof (aggregation_window_closed Scenario.db_two 0 2000)
    as (_ & _ & Hrows & Hplan).
  split.
  - apply (Hrows [mkRow None "WalletA" (of_Z 150) (of_Z 2)] (of_Z 150)).
    vm_compute. reflexivity.
  - apply (Hplan [Scenario.r_merged]). vm_compute. reflexivity.
Defined.

(** C7 (as stated) fails: Bob's event is created exactly at the end of the
    window [[0, 2000)]; it is fetched, and its 50 points are part of the
    150 points of the row and of the planned payout. *)
Lemma half_open_window_counterexample :
  Contribution.createdAt Scenario.c_bob = 2000
  /\ In Scenario.c_bob (Contribution_findAll_between Scenario.db_two 0 2000)
  /\ calculateRewards Scenario.db_two 0 2000
     = Ok ([mkRow None "WalletA" (of_Z 150) (of_Z 2)], of_Z 150)
  /\ calculateWeeklyRewards Scenario.db_two 0 2000
     = Ok [mkUserRewardData None "WalletA" (of_Z 150) (of_Z 200000)]
  /\ calculateRewards Scenario.db_two 0 1999
     = Ok ([mkRow None "WalletA" (of_Z 100) (of_Z 1)], of_Z 100).
Proof.
  split; [reflexivity|]. split; [simpl; auto|].
  repeat split; vm_compute; reflexivity.
Qed.

(** ** Windows without points *)

(** C3 (as amended): when the aggregated [totalPoints] of a window is 0,
    [distributeWeeklyRewards] creates no Distribution Run: the database
    and the ledger are untouched.  Where the planner gets through the rows
    of the window, which it does when every Contribution Event of the
    window has its user, [calculateWeeklyRewards] returns an empty plan
    and the distributor reports success without an error message; where
    the planner throws, the distributor reports the error.
    [createWeeklyReward] creates no Distribution Run either, but it raises
    the error "No contributions to reward for this period". *)
Theorem zero_points_no_run :
  forall L now db chain startDate endDate totalTokens rows total,
    calculateRewards db startDate endDate = Ok (rows, total) ->
    eqb total zero = true ->
    match calculateWeeklyRewards db startDate endDate with
    | Ok plan =>
        plan = []
        /\ distributeWeeklyRewards L now db chain startDate endDate
           = (db, chain, mkResult true 0 zero zero startDate endDate 0 0 None)
    | Throw msg =>
        distributeWeeklyRewards L now db chain startDate endDate
        = (db, chain, errorResult startDate endDate msg)
    end
    /\ (forallb (linked db) (closedWindow db startDate endDate) = true ->
        calculateWeeklyRewards db startDate endDate = Ok [])
    /\ fst (distributeWeeklyRewards L now db chain startDate endDate) = (db, chain)
    /\ createWeeklyReward db startDate endDate totalTokens
       = Throw "No contributions to reward for this period".
Proof.
  intros L now db chain s e tokens rows total Hcalc Hzero.
  assert (Hplan : forall plan, calculateWeeklyRewards db s e = Ok plan -> plan = []).
  { intros plan. revert Hcalc.
    rewrite calculateRewards_closed, calculateWeeklyRewards_closed.
    destruct (closedWindow db s e) as [|c rest]; [now intros _ [= <-]|].
    destruct (contribution_User db c); [|discriminate].
    intros [= <- <-].
    destruct (forallb (linked db) rest); [|discriminate].
    cbv zeta. rewrite Hzero. now intros [= <-]. }
  assert (Hlinked : forallb (linked db) (closedWindow db s e) = true ->
                    isOk (calculateWeeklyRewards db s e) = true).
  { rewrite calculateWeeklyRewards_closed.
    destruct (closedWindow db s e) as [|c rest]; [reflexivity|].
    cbn [forallb]. unfold linked at 1.
    destruct (contribution_User db c); [|discriminate].
    cbn [andb]. intros ->. cbv zeta.
    destruct (JS.eqb (add zero (sumOfPoints (c :: rest))) zero); reflexivity. }
  unfold distributeWeeklyRewards.
  destruct (calculateWeeklyRewards db s e) as [plan|msg] eqn:Ep.
  - rewrite (Hplan plan eq_refl). repeat split.
    unfold createWeeklyReward. rewrite Hcalc. simpl. now rewrite Hzero.
  - split; [reflexivity|]. split; [intros Hl; now apply Hlinked in Hl|].
    split; [reflexivity|].
    unfold createWeeklyReward. rewrite Hcalc. simpl. now rewrite Hzero.
Qed.

Lemma zero_points_no_run_witness :
  calculateWeeklyRewards emptyDB 0 2000 = Ok []
  /\ distributeWeeklyRewards Scenario.ledger_ok 5000 emptyDB emptyChain 0 2000
     = (emptyDB, emptyChain, mkResult true 0 zero zero 0 2000 0 0 None)
  /\ createWeeklyReward emptyDB 0 2000 (of_Z 300)
     = Throw "No contributions to reward for this period".
Proof.
  destruct (zero_points_no_run Scenario.ledger_ok 5000 emptyDB emptyChain 0 2000
              (of_Z 300) [] zero eq_refl eq_refl) as (Hm & Hl & _ & Hc).
  split; [exact (Hl eq_refl)|]. split; [exact (proj2 Hm)|exact Hc].
Defined.

(** C3 (as stated) fails: the empty window has 0 points, and creating its
    Distribution Run raises an error. *)
Lemma zero_points_error_counterexample :
  calculateRewards emptyDB 0 2000 = Ok ([], zero)
  /\ eqb zero zero = true
  /\ isOk (createWeeklyReward emptyDB 0 2000 (of_Z 300)) = false
  /\ createWeeklyReward emptyDB 0 2000 (of_Z 300)
     = Throw "No contributions to reward for this period".
Proof. repeat split. Qed.

(** A window of 0 points in which a later event has no user: the rows of
    [calculateRewards] are returned, while the planner throws and the
    distributor reports the error. *)
Example zero_points_unlinked_event :
  let db := mkDB [Scenario.alice] [] []
              [Cases.c_midnight_zero; Scenario.c_orphan] [] [] in
  calculateRewards db 0 2000 = Ok ([mkRow None "WalletA" zero (of_Z 2)], zero)
  /\ isOk (calculateWeeklyRewards db 0 2000) = false
  /\ success (snd (distributeWeeklyRewards Scenario.ledger_ok 5000 db [] 0 2000))
     = false.
Proof. repeat split; vm_compute; reflexivity. Qed.

(** ** Scoring *)

(** C6: the contribution stored by [recordContribution] has
    [totalPoints = floor(basePoints * qualityMultiplier *
    reputationMultiplier * demandMultiplier)]: one floor, applied to the
    product of the four stored factors. *)
Theorem recordContribution_totalPoints :
  forall db now rnd1 rnd2 uid aid contributionType tagNames,
    let stored :=
      snd (recordContribution db now rnd1 rnd2 uid aid contributionType tagNames) in
    contributions
      (fst (recordContribution db now rnd1 rnd2 uid aid contributionType tagNames))
    = contributions db ++ [stored]
    /\ Contribution.totalPoints stored
       = Math_floor
           (mul (mul (mul (Contribution.basePoints stored)
                          (Contribution.qualityMultiplier stored))
                     (Contribution.reputationMultiplier stored))
                (Contribution.demandMultiplier stored)).
Proof.
  intros. subst stored. unfold recordContribution.
  split.
  - destruct (isEdit contributionType), (isCreationOrMajorEdit contributionType);
      reflexivity.
  - unfold calculatePoints.
    destruct (basePointsRange contributionType). reflexivity.
Qed.

(** A user of reputation 0.8 makes a minor edit; the draws give 5 base
    points and quality 0.5.  The product is 2 and so are the stored points,
    where flooring after each factor would give 1. *)
Example floor_applied_once :
  let db := mkDB [User.mk "carol" "WalletC" (lit 8 1) zero zero zero 0]
                 [] [] [] [] [] in
  let stored := snd (recordContribution db 7 zero zero "carol" "art1"
                       minor_edit None) in
  Contribution.basePoints stored = of_Z 5
  /\ Contribution.qualityMultiplier stored = lit 5 1
  /\ Contribution.reputationMultiplier stored = lit 8 1
  /\ Contribution.demandMultiplier stored = of_Z 1
  /\ Contribution.totalPoints stored = of_Z 2
  /\ Math_floor (mul (Math_floor (mul (Math_floor (mul (of_Z 5) (lit 5 1)))
                                      (lit 8 1)))
                     (of_Z 1))
     = of_Z 1.
Proof. vm_compute. repeat split. Qed.

(** ** The planner *)

Lemma fold_left_map_values {A B C : Type} (f : C -> B -> C) (g : A -> B) l : forall a,
  fold_left f (map g l) a = fold_left (fun acc x => f acc (g x)) l a.
Proof. induction l; simpl; auto. Qed.

Lemma plan_total (ratio : number) (m : JSMap.t UserPoints) :
  fold_left (fun sum x => add sum (points x)) (map (planEntry ratio) m) zero
  = sumPoints m.
Proof.
  unfold sumPoints, JSMap.values.
  rewrite <- (fold_left_map_values (fun sum q => add sum q) points).
  rewrite <- (fold_left_map_values (fun sum q => add sum q) up_points).
  rewrite !map_map. f_equal. apply map_ext. now intros [k ud].
Qed.

Lemma fold_add_nonNegative {A : Type} (f : A -> number) (l : list A) : forall a,
  nonNegative a = true ->
  Forall (fun x => nonNegative (f x) = true) l ->
  nonNegative (fold_left (fun sum x => add sum (f x)) l a) = true.
Proof.
  induction l as [|x l IH]; intros a Ha Hl; simpl; auto.
  inversion Hl; subst. apply IH; auto. now apply add_nonNegative.
Qed.

Lemma WEEKLY_REWARD_POOL_finite :
  exists s m e, WEEKLY_REWARD_POOL = S754_finite s m e.
Proof. vm_compute. eauto. Qed.

Lemma positive_finite x :
  ltb zero x = true -> isFinite x = true ->
  exists m e, x = S754_finite false m e.
Proof.
  destruct x as [s|s| |s m e]; simpl; try discriminate.
  destruct s; [discriminate | eauto].
Qed.

(** C2: every contributor of the plan with points > 0 is planned
    [max(floor(points * ratio), MIN_TOKENS_PER_USER)] tokens, where
    [ratio = WEEKLY_REWARD_POOL / totalPoints]; hence, the points of the
    plan being finite numbers that are not negative, the planned amount is
    at least [MIN_TOKENS_PER_USER]. *)
Theorem planner_floor_guarantee :
  forall db startDate endDate plan reward,
    calculateWeeklyRewards db startDate endDate = Ok plan ->
    In reward plan ->
    ltb zero (points reward) = true ->
    let totalPoints := fold_left (fun sum x => add sum (points x)) plan zero in
    let ratio := div WEEKLY_REWARD_POOL totalPoints in
    tokenAmount reward
    = Math_max (Math_floor (mul (points reward) ratio)) MIN_TOKENS_PER_USER
    /\ (Forall (fun x => isFinite (points x) && nonNegative (points x) = true) plan ->
        leb MIN_TOKENS_PER_USER (tokenAmount reward) = true).
Proof.
  intros db s e plan reward Hplan Hin Hpos totalPoints ratio.
  unfold calculateWeeklyRewards in Hplan.
  destruct (forEach_accumulate db [] (Contribution_findAll_between db s e))
    as [m|]; simpl in Hplan; [|discriminate].
  destruct (eqb (sumPoints m) zero) eqn:Ez; injection Hplan as <-; [destruct Hin|].
  assert (Ht : totalPoints = sumPoints m) by apply plan_total.
  apply in_map_iff in Hin as ([k ud] & <- & Hin).
  assert (Hformula :
    tokenAmount (planEntry (div WEEKLY_REWARD_POOL (sumPoints m)) (k, ud))
    = Math_max (Math_floor (mul (up_points ud) ratio)) MIN_TOKENS_PER_USER).
  { subst ratio. rewrite Ht. reflexivity. }
  split; [exact Hformula|].
  intros Hwf. rewrite Hformula.
  apply Math_max_ge_r; [|apply of_Z_notNaN].
  apply Math_floor_notNaN.
  assert (Hud : isFinite (up_points ud) = true).
  { rewrite Forall_forall in Hwf.
    specialize (Hwf _ (in_map (planEntry (div WEEKLY_REWARD_POOL (sumPoints m)))
                              _ _ Hin)).
    simpl in Hwf. now apply andb_true_iff in Hwf as [? _]. }
  destruct (positive_finite _ Hpos Hud) as (pm & pe & Hp). simpl in Hp.
  assert (Hnn : nonNegative totalPoints = true).
  { subst totalPoints. apply fold_add_nonNegative; [reflexivity|].
    eapply Forall_impl; [|exact Hwf]. intros x Hx.
    now apply andb_true_iff in Hx as [_ ?]. }
  assert (Hr : isNaN ratio = false).
  { subst ratio. apply div_notNaN.
    - destruct WEEKLY_REWARD_POOL_finite as (s0 & m0 & e0 & ->). reflexivity.
    - now apply nonNegative_notNaN.
    - left. apply WEEKLY_REWARD_POOL_finite. }
  rewrite Hp. apply mul_notNaN; auto.
  destruct ratio as [rs|rs| |rs rm re] eqn:Er; try discriminate.
  - left. auto.
  - right. repeat split; discriminate.
  - left. auto.
Qed.

Lemma planner_floor_guarantee_witness :
  tokenAmount Scenario.r_merged
  = Math_max
      (Math_floor
         (mul (of_Z 150)
              (div WEEKLY_REWARD_POOL
                   (fold_left (fun sum x => add sum (points x))
                              [Scenario.r_merged] zero))))
      MIN_TOKENS_PER_USER
  /\ leb MIN_TOKENS_PER_USER (tokenAmount Scenario.r_merged) = true.
Proof.
  destruct (planner_floor_guarantee Scenario.db_two 0 2000
              [Scenario.r_merged] Scenario.r_merged
              eq_refl (or_introl eq_refl) eq_refl) as [Hf Hb].
  split; [exact Hf|].
  apply Hb. repeat constructor.
Defined.

(** ** The payout loop *)

Lemma set_userRewards_nil db : set_userRewards (fun l => l ++ []) db = db.
Proof. destruct db. unfold set_userRewards. simpl. now rewrite app_nil_r. Qed.

Lemma set_userRewards_app db recs1 recs2 :
  set_userRewards (fun l => l ++ recs2) (set_userRewards (fun l => l ++ recs1) db)
  = set_userRewards (fun l => l ++ (recs1 ++ recs2)) db.
Proof. unfold set_userRewards. simpl. now rewrite app_assoc. Qed.


Lemma payOne_no_wallet L wid st reward :
  hasWallet reward = false ->
  payOne L wid st reward
  = mkLoop (ls_db st) (ls_chain st) (ls_successful st) (S (ls_failed st)).
Proof. unfold payOne, hasWallet. now intros ->. Qed.

Lemma payOne_failure L wid st reward chain' msg :
  hasWallet reward = true ->
  attemptTransfer L (ls_chain st) reward = (chain', Throw msg) ->
  payOne L wid st reward
  = mkLoop (set_userRewards (fun l => l ++ [recordOf reward None]) (ls_db st))
           chain' (ls_successful st) (S (ls_failed st)).
Proof. unfold payOne, hasWallet. now intros -> ->. Qed.

(** A confirmed transfer of a payout keyed by [undefined]: the record
    with the signature is stored, [User.increment] throws, and the
    [catch] stores a second record and counts a failure. *)
Lemma payOne_confirmed_unkeyed L wid st reward chain' signature :
  userId reward = None ->
  hasWallet reward = true ->
  attemptTransfer L (ls_chain st) reward = (chain', Ok signature) ->
  payOne L wid st reward
  = mkLoop (set_userRewards
              (fun l => l ++ [recordOf reward (Some signature); recordOf reward None])
              (ls_db st))
           chain' (ls_successful st) (S (ls_failed st)).
Proof.
  unfold payOne, hasWallet. intros -> -> ->. simpl.
  unfold UserReward_create. now rewrite set_userRewards_app.
Qed.


Lemma attemptTransfer_chain L chain reward :
  fst (attemptTransfer L chain reward)
  = if validRecipient L (walletAddress reward)
    then match toBigInt (scaledAmount reward) with
         | Some raw => chain ++ [mkTransfer (walletAddress reward) raw]
         | None => chain
         end
    else chain.
Proof.
  unfold attemptTransfer.
  destruct (validRecipient L (walletAddress reward)); simpl; auto.
  destruct (toBigInt (scaledAmount reward)) as [raw|]; auto.
  destruct (rpc L (List.length chain) (walletAddress reward) raw); auto.
Qed.

(** A signature comes from a transfer that was taken to the endpoint. *)
Lemma attemptTransfer_signed L chain reward chain' signature :
  attemptTransfer L chain reward = (chain', Ok signature) ->
  exists raw, chain' = chain ++ [mkTransfer (walletAddress reward) raw]
              /\ validRecipient L (walletAddress reward) = true
              /\ toBigInt (scaledAmount reward) = Some raw.
Proof.
  unfold attemptTransfer.
  destruct (validRecipient L (walletAddress reward)); simpl; [|discriminate].
  destruct (toBigInt (scaledAmount reward)) as [raw|]; [|discriminate].
  destruct (rpc L (List.length chain) (walletAddress reward) raw);
    try discriminate.
  intros [= <- _]. eauto.
Qed.

Lemma loopTrace_nil L : loopTrace L [] [] [].
Proof. repeat split; auto. Qed.

Lemma loopTrace_app L plan1 plan2 recs1 recs2 sent1 sent2 :
  loopTrace L plan1 recs1 sent1 ->
  loopTrace L plan2 recs2 sent2 ->
  loopTrace L (plan1 ++ plan2) (recs1 ++ recs2) (sent1 ++ sent2).
Proof.
  intros (Ht1 & Hr1 & Hn1 & Hs1) (Ht2 & Hr2 & Hn2 & Hs2).
  unfold loopTrace.
  rewrite !filter_app, !map_app, !length_app, Ht1, Ht2, Hn1, Hn2.
  split; [reflexivity|]. split; [|split; [reflexivity|lia]].
  apply Forall_app. split.
  - eapply Forall_impl; [|exact Hr1]. intros r (reward & Hin & E).
    exists reward. split; auto. apply in_or_app. now left.
  - eapply Forall_impl; [|exact Hr2]. intros r (reward & Hin & E).
    exists reward. split; auto. apply in_or_app. now right.
Qed.

(** One iteration on a payout keyed by [undefined]: no user is credited
    and no success is counted. *)
Lemma payOne_unkeyed L wid st reward :
  userId reward = None ->
  exists recs sent,
    payOne L wid st reward
    = mkLoop (set_userRewards (fun l => l ++ recs) (ls_db st))
             (ls_chain st ++ sent) (ls_successful st) (S (ls_failed st))
    /\ loopTrace L [reward] recs sent.
Proof.
  intros Hkey.
  destruct (hasWallet reward) eqn:Ew.
  - destruct (attemptTransfer L (ls_chain st) reward) as [chain' [sig|msg]] eqn:Ea.
    + destruct (attemptTransfer_signed _ _ _ _ _ Ea) as (raw & -> & Hv & Hraw).
      exists [recordOf reward (Some sig); recordOf reward None],
             [mkTransfer (walletAddress reward) raw].
      split; [now apply payOne_confirmed_unkeyed|].
      unfold loopTrace, attemptable. simpl. rewrite Ew, Hv, Hraw. simpl.
      repeat split; auto.
      repeat constructor; exists reward; simpl; auto.
    + pose proof (attemptTransfer_chain L (ls_chain st) reward) as Hc.
      rewrite Ea in Hc. simpl in Hc.
      exists [recordOf reward None],
             (if validRecipient L (walletAddress reward)
              then match toBigInt (scaledAmount reward) with
                   | Some raw => [mkTransfer (walletAddress reward) raw]
                   | None => []
                   end
              else []).
      split.
      * rewrite (payOne_failure L wid st reward chain' msg Ew Ea). f_equal.
        rewrite Hc. destruct (validRecipient L (walletAddress reward));
          [|now rewrite app_nil_r].
        destruct (toBigInt (scaledAmount reward)); [reflexivity|].
        now rewrite app_nil_r.
      * unfold loopTrace, attemptable. simpl. rewrite Ew. simpl.
        destruct (validRecipient L (walletAddress reward)); simpl.
        -- destruct (toBigInt (scaledAmount reward)); simpl;
             repeat split; auto; try lia;
             repeat constructor; exists reward; simpl; auto.
        -- repeat split; auto.
           repeat constructor; exists reward; simpl; auto.
  - exists [], []. split.
    + rewrite (payOne_no_wallet L wid st reward Ew).
      now rewrite set_userRewards_nil, app_nil_r.
    + unfold loopTrace, attemptable. simpl. rewrite Ew. simpl.
      repeat split; auto.
Qed.

Lemma payAll_unkeyed L wid plan : forall st,
  Forall (fun reward => userId reward = None) plan ->
  exists recs sent,
    payAll L wid st plan
    = mkLoop (set_userRewards (fun l => l ++ recs) (ls_db st))
             (ls_chain st ++ sent) (ls_successful st)
             (ls_failed st + List.length plan)
    /\ loopTrace L plan recs sent.
Proof.
  induction plan as [|reward plan IH]; intros st Hkeys.
  - exists [], []. split; [|apply loopTrace_nil].
    simpl. rewrite set_userRewards_nil, app_nil_r, Nat.add_0_r. now destruct st.
  - inversion Hkeys as [|? ? Hk Hrest]; subst.
    destruct (payOne_unkeyed L wid st reward Hk) as (r1 & s1 & E1 & T1).
    destruct (IH (payOne L wid st reward) Hrest) as (r2 & s2 & E2 & T2).
    exists (r1 ++ r2), (s1 ++ s2). split.
    + unfold payAll in *. simpl. rewrite E2, E1. simpl.
      rewrite set_userRewards_app, <- app_assoc. f_equal. lia.
    + apply (loopTrace_app L [reward] plan); auto.
Qed.

(** ** The distributor *)

(** An identifier drawn for a new run is the identifier of no stored
    run. *)
Lemma fold_max_ge l : forall a, (a <= fold_left Nat.max l a)%nat.
Proof.
  induction l as [|x l IH]; intros a; simpl; [lia|].
  specialize (IH (Nat.max a x)). lia.
Qed.

Lemma fold_max_In l x : forall a, In x l -> (x <= fold_left Nat.max l a)%nat.
Proof.
  induction l as [|y l IH]; intros a; simpl; [tauto|].
  intros [->|Hin]; [|now apply IH].
  pose proof (fold_max_ge l (Nat.max a x)). lia.
Qed.

Lemma freshId_fresh db w :
  In w (weeklyRewards db) -> (WeeklyReward.id w < freshId db)%nat.
Proof.
  intros Hin. unfold freshId.
  pose proof (fold_max_In (map WeeklyReward.id (weeklyRewards db))
                          (WeeklyReward.id w) 0%nat (in_map _ _ _ Hin)).
  lia.
Qed.

Lemma update_fresh db (f : WeeklyReward.t -> WeeklyReward.t) :
  map (fun w => if Nat.eqb (WeeklyReward.id w) (freshId db) then f w else w)
      (weeklyRewards db)
  = weeklyRewards db.
Proof.
  rewrite <- (map_id (weeklyRewards db)) at 2.
  apply map_ext_in. intros w Hin.
  apply freshId_fresh in Hin.
  destruct (Nat.eqb_spec (WeeklyReward.id w) (freshId db)); [lia|reflexivity].
Qed.



(** A run of the distributor that gets to its payout loop, in closed
    form: no success is counted, so the status written is [failed]. *)
Lemma distributeWeeklyRewards_run L now db chain startDate endDate plan :
  calculateWeeklyRewards db startDate endDate = Ok plan ->
  plan <> [] ->
  treasuryKeypairValid L = true ->
  exists recs sent,
    loopTrace L plan recs sent
    /\ distributeWeeklyRewards L now db chain startDate endDate
       = (mkDB (users db) (articles db) (tags db) (contributions db)
               (weeklyRewards db ++ [closedRun now (openRun db startDate endDate plan)])
               (userRewards db ++ recs),
          chain ++ sent,
          mkResult false (List.length plan)
            (fold_left (fun sum reward => add sum (tokenAmount reward)) plan zero)
            (fold_left (fun sum reward => add sum (points reward)) plan zero)
            startDate endDate 0 (List.length plan) None).
Proof.
  intros Hplan Hne Hkey.
  pose proof (calculateWeeklyRewards_unkeyed _ _ _ _ Hplan) as Hkeys.
  unfold distributeWeeklyRewards. rewrite Hplan, Hkey.
  destruct plan as [|reward0 plan0]; [congruence|].
  set (plan := reward0 :: plan0) in *. cbv zeta. simpl negb. cbv iota.
  match goal with
  | |- context [payAll L ?wid ?st plan] =>
      destruct (payAll_unkeyed L wid plan st Hkeys) as (recs & sent & E & T)
  end.
  exists recs, sent. split; [exact T|].
  rewrite E. simpl.
  unfold WeeklyReward_update_status, resolveStatus. simpl.
  unfold WeeklyReward_update, set_weeklyRewards, set_userRewards. simpl.
  rewrite map_app, update_fresh. simpl. rewrite Nat.eqb_refl.
  reflexivity.
Qed.




(** A confirmed transfer is counted as failed as well: the record with
    the signature is followed by a record with a null reference, and no
    user is credited. *)
Example confirmed_transfer_counted_failed :
  let run := distributeWeeklyRewards Scenario.ledger_ok 5000
               Scenario.db_two [] 0 2000 in
  map UserReward.txHash (userRewards (fst (fst run))) = [Some "sig"%string; None]
  /\ map tr_to (snd (fst run)) = ["WalletA"%string]
  /\ successfulTransactions (snd run) = 0%nat
  /\ failedTransactions (snd run) = 1%nat
  /\ users (fst (fst run)) = users Scenario.db_two
  /\ map WeeklyReward.status (weeklyRewards (fst (fst run))) = [failed].
Proof. vm_compute. repeat split. Qed.

(** ** Re-running the distributor *)




(** ** The final status *)

(** The status word [distributeWeeklyRewards] computes from its
    counters. *)
Lemma resolveStatus_spec successful failedCount :
  (resolveStatus successful failedCount = word completed
   <-> (0 < successful)%nat /\ failedCount = 0%nat)
  /\ (resolveStatus successful failedCount = partial
      <-> (0 < successful)%nat /\ (0 < failedCount)%nat)
  /\ (resolveStatus successful failedCount = word failed <-> successful = 0%nat).
Proof.
  unfold resolveStatus.
  destruct successful, failedCount; simpl;
    repeat split; intros; try discriminate; try lia; auto.
  all: destruct H; lia.
Qed.

(** C5 fails on both paths that resolve the status of a run.  The
    [distribution-complete] handler saves [completed] for a stored run
    when the reported successes equal the reported users and otherwise
    tries to save ['partial'], which the column rejects: it answers 500
    and the run keeps the status it had, so a report that no payout
    succeeded does not store [failed], and no report does.
    [distributeWeeklyRewards] stores [failed] for every run that gets to
    the end of its payout loop, whatever the ledger answers, also when
    every transfer was confirmed. *)
Theorem terminal_status_divergence :
  (forall db startDate endDate weeklyReward totalUsers successful failedCount,
     WeeklyReward_findOne db startDate endDate = Some weeklyReward ->
     (eqb successful totalUsers = false ->
      distributionComplete db startDate endDate totalUsers successful failedCount
      = (db, (500%nat, None)))
     /\ (eqb successful totalUsers = true ->
         exists saved,
           distributionComplete db startDate endDate totalUsers successful
                                failedCount
           = (WeeklyReward_update (WeeklyReward.id weeklyReward)
                                  (fun _ => saved) db,
              (200%nat, Some saved))
           /\ WeeklyReward.status saved = completed)
     /\ Forall (fun w => WeeklyReward.status w = failed
                         -> exists w0, In w0 (weeklyRewards db)
                                       /\ WeeklyReward.status w0 = failed)
               (weeklyRewards
                  (fst (distributionComplete db startDate endDate totalUsers
                                             successful failedCount))))
  /\ (forall L now db chain startDate endDate plan,
        calculateWeeklyRewards db startDate endDate = Ok plan ->
        plan <> [] ->
        treasuryKeypairValid L = true ->
        let run := distributeWeeklyRewards L now db chain startDate endDate in
        exists w,
          weeklyRewards (fst (fst run)) = weeklyRewards db ++ [w]
          /\ WeeklyReward.status w = failed
          /\ WeeklyReward.distributedAt w = Some now
          /\ success (snd run) = false).
Proof.
  split.
  - intros db s e w tu su fa Hfind.
    unfold distributionComplete, routeStatus. rewrite Hfind.
    destruct (eqb su tu); simpl.
    + split; [discriminate|]. split.
      * intros _. eexists. split; [reflexivity|reflexivity].
      * unfold WeeklyReward_update. simpl.
        apply Forall_forall. intros x Hin Hst.
        apply in_map_iff in Hin as (w0 & <- & Hin0).
        destruct (Nat.eqb (WeeklyReward.id w0) (WeeklyReward.id w));
          [discriminate Hst | eauto].
    + split; [reflexivity|]. split; [discriminate|].
      apply Forall_forall. intros x Hin Hst. eauto.
  - intros L now db chain s e plan Hplan Hne Hkey run. subst run.
    destruct (distributeWeeklyRewards_run L now db chain s e plan Hplan Hne Hkey)
      as (recs & sent & _ & ->).
    simpl. eexists. split; [reflexivity|]. repeat split.
Qed.

Lemma terminal_status_divergence_witness :
  distributionComplete Scenario.db_pending 0 2000 (of_Z 2) (of_Z 0) (of_Z 2)
  = (Scenario.db_pending, (500%nat, None))
  /\ map WeeklyReward.status (weeklyRewards Scenario.db_pending) = [pending]
  /\ exists w,
       weeklyRewards
         (fst (fst (distributeWeeklyRewards Scenario.ledger_ok 5000
                      Scenario.db_alice [] 0 2000)))
       = weeklyRewards Scenario.db_alice ++ [w]
       /\ WeeklyReward.status w = failed
       /\ WeeklyReward.distributedAt w = Some 5000
       /\ success (snd (distributeWeeklyRewards Scenario.ledger_ok 5000
                          Scenario.db_alice [] 0 2000)) = false.
Proof.
  pose proof terminal_status_divergence as [Hroute Hrun].
  split; [|split; [reflexivity|]].
  - refine (proj1 (Hroute Scenario.db_pending 0 2000 Cases.run_pending
                          (of_Z 2) (of_Z 0) (of_Z 2) _) _).
    + vm_compute. reflexivity.
    + vm_compute. reflexivity.
  - refine (Hrun Scenario.ledger_ok 5000 Scenario.db_alice [] 0 2000
                 [Scenario.r_alice] _ _ eq_refl).
    + vm_compute. reflexivity.
    + discriminate.
Defined.

(** ** Confirmed payouts *)

(** C10: a Payout Record stored by [processUserReward] holds
    [points = round(tokens / run.pointToTokenRatio)], computed from the
    tokens paid and the ratio of the run; the record is the same whatever
    the database holds, so the contributor's aggregated contribution
    points are not read.  The record is stored exactly when these points
    are a value of the [INTEGER] column; otherwise the call throws and
    leaves the database as it was. *)
Theorem processUserReward_points :
  forall db db2 weeklyReward uid tokens txHash,
    let points :=
      Math_round (div tokens (WeeklyReward.pointToTokenRatio weeklyReward)) in
    match processUserReward db weeklyReward uid tokens txHash with
    | (db', Ok r) =>
        fitsINTEGER points = true
        /\ UserReward.points r = points
        /\ UserReward.txHash r = Some txHash
        /\ userRewards db' = userRewards db ++ [r]
        /\ contributions db' = contributions db
    | (db', Throw _) => fitsINTEGER points = false /\ db' = db
    end
    /\ snd (processUserReward db2 weeklyReward uid tokens txHash)
       = snd (processUserReward db weeklyReward uid tokens txHash).
Proof.
  intros db db2 w uid tokens txHash points.
  unfold processUserReward. fold points.
  destruct (fitsINTEGER points); simpl; repeat split.
Qed.

(** A contributor with 1 point who is paid the floor of 10 tokens in a run
    with ratio 0.02 is recorded with 500 points. *)
Example processUserReward_floor_payout :
  option_map UserReward.points
    (match snd (processUserReward Scenario.db_alice Scenario.run_small_ratio
                  "alice" (of_Z 10) "sig") with
     | Ok r => Some r
     | Throw _ => None
     end)
  = Some (of_Z 500).
Proof. vm_compute. reflexivity. Qed.

(** In a run whose ratio is 0 the points are [Infinity]: the insert is
    rejected and nothing is stored. *)
Example processUserReward_rejected :
  Math_round (div (of_Z 10) (WeeklyReward.pointToTokenRatio Scenario.run_zero_ratio))
  = S754_infinity false
  /\ processUserReward Scenario.db_alice Scenario.run_zero_ratio
       "alice" (of_Z 10) "sig"
     = (Scenario.db_alice, Throw "invalid input syntax for type integer").
Proof. split; vm_compute; reflexivity. Qed.

(** ** Reputation *)

(** C8 fails: the history query of [updateUserReputation] filters on
    [userId], which is no column of the contributions, so the query is
    rejected for every user; the call throws, returns neither the rescaled
    mean nor 1.0, and leaves the database, and with it every stored
    reputation, as it was. *)
Theorem updateUserReputation_throws :
  forall db userId,
    exists msg, updateUserReputation db userId = (db, Throw msg).
Proof. intros db userId. eexists. reflexivity. Qed.

(** Alice has one contribution of quality 1.0; her reputation is not
    recomputed. *)
Example updateUserReputation_with_history :
  isOk (snd (updateUserReputation Scenario.db_alice "alice")) = false
  /\ fst (updateUserReputation Scenario.db_alice "alice") = Scenario.db_alice.
Proof. split; reflexivity. Qed.

(** ** Demand *)

Lemma length_filter_map {A B : Type} (p : B -> bool) (f : A -> B) l :
  List.length (filter p (map f l)) = List.length (filter (fun x => p (f x)) l).
Proof.
  induction l as [|x l IH]; simpl; auto.
  destruct (p (f x)); simpl; auto.
Qed.

Lemma length_filter_false {A : Type} (p : A -> bool) l :
  (forall x, p x = false) -> List.length (filter p l) = 0%nat.
Proof.
  intros H. induction l as [|x l IH]; simpl; auto. now rewrite H.
Qed.

(** The count of the loop is the number of pairs of an article of the tag
    and a recent contribution to it. *)
Lemma recentContributions_count db now tag :
  recentContributions db now tag = recentCount db now tag.
Proof.
  unfold recentContributions, recentCount, tag_Articles, article_Contributions,
         Op_gte.
  generalize (contributions db) as cs. intros cs.
  rewrite <- (Nat.add_0_l (List.length _)).
  generalize 0%nat as acc.
  induction (articles db) as [|a arts IH]; intros acc; simpl.
  - lia.
  - rewrite filter_app, length_app, length_filter_map. simpl.
    destruct (mem_string (Tag.name tag) (Article.Tags a)) eqn:Em; simpl.
    + rewrite IH. lia.
    + rewrite IH. rewrite (length_filter_false (fun _ => false)) by auto. lia.
Qed.

Lemma newDemandMultiplier_demandOf count : newDemandMultiplier count = demandOf count.
Proof. now destruct count. Qed.

(** C9: for every topic the count of the update is the number of
    contributions of the last 30 days to the articles of the topic; the
    multiplier recomputed from a count is 1.0 for zero and
    [1.0 + min(1.5, count / 10)] otherwise, and it lies in [[1.0, 2.5]];
    the update writes the recomputed multiplier of a topic when it
    differs from the stored one by more than 0.1 and keeps the stored one
    otherwise, and it returns the number of topics written. *)
Theorem demand_multiplier_formula_and_range :
  forall db now,
    let recomputed tag := demandOf (recentCount db now tag) in
    let written tag :=
      gtb (Math_abs (sub (recomputed tag) (Tag.demandMultiplier tag))) (lit 1 1) in
    (forall tag, recentContributions db now tag = recentCount db now tag)
    /\ (forall count,
          newDemandMultiplier count = demandOf count
          /\ leb (lit 10 1) (demandOf count) = true
          /\ leb (demandOf count) (lit 25 1) = true)
    /\ updateTagDemandMultipliers db now
       = (set_tags
            (fun _ => map (fun tag => if written tag
                                      then Tag.mk (Tag.name tag) (recomputed tag)
                                      else tag)
                          (tags db))
            db,
          List.length (filter written (tags db))).
Proof.
  intros db now recomputed written.
  split; [intros tag; apply recentContributions_count|].
  split.
  - intros count. rewrite <- newDemandMultiplier_demandOf.
    split; [reflexivity|]. apply newDemandMultiplier_range.
  - assert (Hstep : forall tag,
              updateTag db now tag
              = (if written tag then Tag.mk (Tag.name tag) (recomputed tag) else tag,
                 written tag)).
    { intros tag. unfold updateTag, changedSignificantly.
      rewrite recentContributions_count, newDemandMultiplier_demandOf.
      fold (recomputed tag). fold (written tag).
      now destruct (written tag). }
    unfold updateTagDemandMultipliers.
    rewrite (map_ext _ _ Hstep), map_map, length_filter_map. simpl.
    reflexivity.
Qed.

(** No recent contribution gives 1.0, five give 1.5, fifteen or more 2.5. *)
Example newDemandMultiplier_values :
  newDemandMultiplier 0 = lit 10 1
  /\ newDemandMultiplier 5 = lit 15 1
  /\ newDemandMultiplier 15 = lit 25 1
  /\ newDemandMultiplier 1000 = lit 25 1.
Proof. vm_compute. repeat split. Qed.

(** A tag with three recent contributions to its article goes from 1.0
    to 1.3. *)
Example updateTagDemandMultipliers_three_contributions :
  recentContributions Cases.db_tagged 2000 Cases.tag_coq = 3%nat
  /\ tags (fst (updateTagDemandMultipliers Cases.db_tagged 2000))
     = [Tag.mk "coq" (lit 13 1)]
  /\ snd (updateTagDemandMultipliers Cases.db_tagged 2000) = 1%nat.
Proof. vm_compute. repeat split. Qed.

(** * Further properties *)

(** ** When the aggregators throw *)

Lemma aggregators_isOk db startDate endDate :
  isOk (calculateWeeklyRewards db startDate endDate)
  = forallb (linked db) (closedWindow db startDate endDate)
  /\ isOk (calculateRewards db startDate endDate)
     = match closedWindow db startDate endDate with
       | [] => true
       | first :: _ => linked db first
       end.
Proof.
  rewrite calculateWeeklyRewards_closed, calculateRewards_closed.
  destruct (closedWindow db startDate endDate) as [|c rest]; [split; reflexivity|].
  cbn [forallb].
  assert (Hl : linked db c
               = match contribution_User db c with
                 | Some _ => true
                 | None => false
                 end) by reflexivity.
  rewrite Hl. clear Hl.
  destruct (contribution_User db c); [|split; reflexivity].
  split; [|reflexivity].
  destruct (forallb (linked db) rest); [|reflexivity]. cbv zeta.
  now destruct (eqb _ zero).
Qed.

(** X1: the planner returns exactly when every row the query of the
    window returns is linked to a stored user, while [calculateRewards]
    looks at the user of the first row only: it returns for an empty
    window and whenever the first row returned is linked, whatever the
    later rows are. *)
Theorem aggregators_throw_iff_user_missing :
  forall db startDate endDate,
    let rows := Contribution_findAll_between db startDate endDate in
    isOk (calculateWeeklyRewards db startDate endDate)
    = forallb (linked db) rows
    /\ isOk (calculateRewards db startDate endDate)
       = match rows with
         | [] => true
         | first :: _ => linked db first
         end
    /\ (forall c, In c rows <-> In c (contributions db)
                               /\ inClosedWindow startDate endDate c).
Proof.
  intros db startDate endDate rows. subst rows.
  split; [|split].
  - change (Contribution_findAll_between db startDate endDate)
      with (closedWindow db startDate endDate).
    apply aggregators_isOk.
  - change (Contribution_findAll_between db startDate endDate)
      with (closedWindow db startDate endDate).
    apply aggregators_isOk.
  - intros c. apply Contribution_findAll_between_spec.
Qed.

(** ** One payout for the whole window *)

(** X3: the contributors of a window are not told apart.  Both
    aggregators return at most one entry; it is keyed by [undefined],
    holds the points of all rows the query of the window returns, and
    carries the wallet address of the user of the first row returned. *)
Theorem contributors_are_merged :
  forall db startDate endDate,
    let rows := Contribution_findAll_between db startDate endDate in
    (forall plan,
       calculateWeeklyRewards db startDate endDate = Ok plan ->
       (List.length plan <= 1)%nat
       /\ Forall (fun reward =>
                    userId reward = None
                    /\ points reward = sumOfPoints rows
                    /\ Some (walletAddress reward) = firstWallet db rows)
                 plan)
    /\ (forall users totalPoints,
          calculateRewards db startDate endDate = Ok (users, totalPoints) ->
          (List.length users <= 1)%nat
          /\ Forall (fun user =>
                       row_userId user = None
                       /\ row_points user = sumOfPoints rows
                       /\ Some (row_walletAddress user) = firstWallet db rows)
                    users).
Proof.
  intros db s e rows.
  change (Contribution_findAll_between db s e) with (closedWindow db s e) in rows.
  split.
  - intros plan. rewrite calculateWeeklyRewards_closed. fold rows.
    destruct rows as [|c rest]; [intros [= <-]; split; [simpl; lia|constructor]|].
    simpl firstWallet.
    destruct (contribution_User db c); [|discriminate].
    destruct (forallb (linked db) rest); [|discriminate]. cbv zeta.
    destruct (eqb _ zero); intros [= <-]; (split; [simpl; lia|]);
      repeat constructor.
  - intros users total. rewrite calculateRewards_closed. fold rows.
    destruct rows as [|c rest];
      [intros [= <- <-]; split; [simpl; lia|constructor]|].
    simpl firstWallet.
    destruct (contribution_User db c); [|discriminate].
    intros [= <- <-]. split; [simpl; lia|]. repeat constructor.
Qed.

Lemma contributors_are_merged_witness :
  (List.length [Scenario.r_merged] <= 1)%nat
  /\ Forall (fun reward =>
               userId reward = None
               /\ points reward
                  = sumOfPoints (Contribution_findAll_between Scenario.db_two 0 2000)
               /\ Some (walletAddress reward)
                  = firstWallet Scenario.db_two
                      (Contribution_findAll_between Scenario.db_two 0 2000))
            [Scenario.r_merged].
Proof.
  apply (proj1 (contributors_are_merged Scenario.db_two 0 2000)).
  vm_compute. reflexivity.
Defined.

(** ** The plan of the script and the plan of the service *)

Lemma toJSON_survives x : survivesJSON x -> ToNumber (toJSON x) = x.
Proof. unfold survivesJSON. now intros ->. Qed.

(** X2: when both aggregators return for a window, the points add up to a
    total other than zero and JSON carries every number of the answer
    unchanged, the script plans from the answer of [/rewards/calculate]
    the payouts that [calculateWeeklyRewards] plans for the same window:
    same keys, same wallet addresses, same token amounts. *)
Theorem script_plan_is_service_plan :
  forall db startDate endDate users totalPoints received totalReceived plan,
    calculateRewards db startDate endDate = Ok (users, totalPoints) ->
    GET_calculate db startDate endDate = Some (received, totalReceived) ->
    calculateWeeklyRewards db startDate endDate = Ok plan ->
    eqb totalPoints zero = false ->
    survivesJSON totalPoints ->
    Forall (fun user => survivesJSON (row_points user)) users ->
    map (fun user => (uc_userId user, uc_walletAddress user, uc_tokenAmount user))
        (userContributions received totalReceived)
    = map (fun reward => (userId reward, walletAddress reward, tokenAmount reward))
          plan.
Proof.
  intros db s e users total received totalJ plan Hcalc Hget Hplan Hnz Ht Hu.
  unfold GET_calculate in Hget. rewrite Hcalc in Hget. injection Hget as <- <-.
  revert Hcalc Hplan.
  rewrite calculateRewards_closed, calculateWeeklyRewards_closed.
  destruct (closedWindow db s e) as [|c rest].
  - intros [= <- <-]. discriminate Hnz.
  - destruct (contribution_User db c) as [user|]; [|discriminate].
    intros [= <- <-].
    destruct (forallb (linked db) rest); [|discriminate]. cbv zeta.
    rewrite Hnz. intros [= <-].
    inversion Hu as [|? ? Hp _]; subst. simpl in Hp.
    unfold userContributions. simpl.
    now rewrite (toJSON_survives _ Ht), (toJSON_survives _ Hp).
Qed.

Lemma script_plan_is_service_plan_witness :
  map (fun user => (uc_userId user, uc_walletAddress user, uc_tokenAmount user))
      (userContributions [mkReceivedUser None "WalletA" (Some (of_Z 150))]
                         (Some (of_Z 150)))
  = map (fun reward => (userId reward, walletAddress reward, tokenAmount reward))
        [Scenario.r_merged].
Proof.
  apply (script_plan_is_service_plan Scenario.db_two 0 2000
           [mkRow None "WalletA" (of_Z 150) (of_Z 2)] (of_Z 150)).
  - vm_compute. reflexivity.
  - vm_compute. reflexivity.
  - vm_compute. reflexivity.
  - reflexivity.
  - reflexivity.
  - repeat constructor.
Defined.

(** ** A window that ends before it starts *)

Lemma Contribution_findAll_between_reversed db startDate endDate :
  endDate < startDate -> Contribution_findAll_between db startDate endDate = [].
Proof.
  intros H. unfold Contribution_findAll_between.
  induction (contributions db) as [|c cs IH]; simpl; auto.
  unfold Op_between at 1.
  destruct (Z.leb_spec startDate (Contribution.createdAt c));
    destruct (Z.leb_spec (Contribution.createdAt c) endDate); simpl; auto; lia.
Qed.

(** X4: a window whose end lies before its start holds no contribution:
    [calculateRewards] returns no row and a total of zero, the planner
    plans nothing, [distributeWeeklyRewards] reports success without
    storing a run or sending a transfer, and [createWeeklyReward]
    throws. *)
Theorem reversed_window_is_empty :
  forall L now db chain startDate endDate totalTokens,
    endDate < startDate ->
    calculateRewards db startDate endDate = Ok ([], zero)
    /\ calculateWeeklyRewards db startDate endDate = Ok []
    /\ distributeWeeklyRewards L now db chain startDate endDate
       = (db, chain, mkResult true 0 zero zero startDate endDate 0 0 None)
    /\ isOk (createWeeklyReward db startDate endDate totalTokens) = false.
Proof.
  intros L now db chain s e tokens H.
  assert (Hcalc : calculateRewards db s e = Ok ([], zero)).
  { unfold calculateRewards. now rewrite Contribution_findAll_between_reversed. }
  assert (Hplan : calculateWeeklyRewards db s e = Ok []).
  { unfold calculateWeeklyRewards.
    now rewrite Contribution_findAll_between_reversed. }
  split; [exact Hcalc|]. split; [exact Hplan|]. split.
  - unfold distributeWeeklyRewards. now rewrite Hplan.
  - unfold createWeeklyReward. now rewrite Hcalc.
Qed.

Lemma reversed_window_is_empty_witness :
  calculateRewards Scenario.db_two 2000 0 = Ok ([], zero)
  /\ calculateWeeklyRewards Scenario.db_two 2000 0 = Ok []
  /\ distributeWeeklyRewards Scenario.ledger_ok 5000 Scenario.db_two [] 2000 0
     = (Scenario.db_two, [], mkResult true 0 zero zero 2000 0 0 0 None)
  /\ isOk (createWeeklyReward Scenario.db_two 2000 0 (of_Z 200000)) = false.
Proof.
  apply (reversed_window_is_empty Scenario.ledger_ok 5000 Scenario.db_two []
           2000 0 (of_Z 200000)).
  reflexivity.
Defined.

(** ** Lookups after an update of the user table *)

Lemma User_findByPk_update_where db uid f k :
  (forall u, User.id (f u) = User.id u) ->
  User_findByPk (User_update_where uid f db) k
  = option_map (fun u => if String.eqb (User.id u) uid then f u else u)
               (User_findByPk db k).
Proof.
  intros Hf. unfold User_findByPk, User_update_where. simpl.
  induction (users db) as [|u us IH]; simpl; auto.
  destruct (String.eqb (User.id u) uid) eqn:E.
  - rewrite Hf. destruct (String.eqb (User.id u) k); simpl; auto. now rewrite E.
  - destruct (String.eqb (User.id u) k); simpl; auto. now rewrite E.
Qed.

Lemma User_findByPk_id db k u : User_findByPk db k = Some u -> User.id u = k.
Proof.
  unfold User_findByPk. intros H. apply find_some in H as [_ H].
  now apply String.eqb_eq.
Qed.

Lemma User_findByPk_credit db uid f k :
  (forall u, User.id (f u) = User.id u) ->
  User_findByPk (User_update_where uid f db) k
  = if String.eqb k uid then option_map f (User_findByPk db k)
    else User_findByPk db k.
Proof.
  intros Hf. rewrite User_findByPk_update_where by exact Hf.
  destruct (User_findByPk db k) as [u|] eqn:Eu; simpl;
    [|destruct (String.eqb k uid); reflexivity].
  rewrite (User_findByPk_id _ _ _ Eu).
  destruct (String.eqb k uid); reflexivity.
Qed.

(** X5: [recordContribution] changes the statistics of the contributing
    user only: that user gets one more contribution, the points of the
    stored contribution and the current time as last activity, and every
    other user row is as before; the reputation multiplier stored with the
    contribution is the reputation of the user, or 1.0 when no such user
    is stored (the contribution is stored all the same). *)
Theorem recordContribution_user_stats :
  forall db now rnd1 rnd2 uid aid contributionType tagNames k,
    let db' := fst (recordContribution db now rnd1 rnd2 uid aid contributionType tagNames) in
    let stored := snd (recordContribution db now rnd1 rnd2 uid aid contributionType tagNames) in
    User_findByPk db' k
    = (if String.eqb k uid
       then option_map (creditedContribution (Contribution.totalPoints stored) now)
                       (User_findByPk db k)
       else User_findByPk db k)
    /\ Contribution.reputationMultiplier stored
       = match User_findByPk db uid with
         | Some u => User.reputation u
         | None => lit 10 1
         end.
Proof.
  intros db now rnd1 rnd2 uid aid ty tagNames k db' stored.
  split.
  - subst db' stored. unfold recordContribution. cbv zeta.
    set (pd := calculatePoints db rnd1 rnd2 ty uid (Some aid) tagNames).
    simpl fst. simpl snd.
    transitivity
      (User_findByPk
         (User_update_where uid
            (fun u => User.mk (User.id u) (User.walletAddress u)
                        (User.reputation u) (User.totalContributions u)
                        (User.totalPoints u) (User.totalTokensEarned u) now)
            (User_update_where uid
               (fun u => User.mk (User.id u) (User.walletAddress u)
                           (User.reputation u)
                           (add (User.totalContributions u) (of_Z 1))
                           (add (User.totalPoints u) (pd_totalPoints pd))
                           (User.totalTokensEarned u) (User.lastActiveAt u))
               db)) k);
      [destruct (isCreationOrMajorEdit ty), (isEdit ty); reflexivity|].
    rewrite !User_findByPk_update_where by reflexivity.
    destruct (User_findByPk db k) as [u|] eqn:Eu; simpl;
      [|destruct (String.eqb k uid); reflexivity].
    pose proof (User_findByPk_id _ _ _ Eu) as Hid.
    assert (Ec : String.eqb (User.id u) uid = String.eqb k uid) by now rewrite Hid.
    rewrite Ec. destruct (String.eqb k uid) eqn:Ek; simpl; rewrite Ec; reflexivity.
  - subst stored. unfold recordContribution, calculatePoints.
    destruct (basePointsRange ty). reflexivity.
Qed.

Lemma Article_findByPk_update_where db aid f k :
  (forall a, Article.id (f a) = Article.id a) ->
  Article_findByPk (Article_update_where aid f db) k
  = option_map (fun a => if String.eqb (Article.id a) aid then f a else a)
               (Article_findByPk db k).
Proof.
  intros Hf. unfold Article_findByPk, Article_update_where. simpl.
  induction (articles db) as [|a l IH]; simpl; auto.
  destruct (String.eqb (Article.id a) aid) eqn:E.
  - rewrite Hf. destruct (String.eqb (Article.id a) k); simpl; auto. now rewrite E.
  - destruct (String.eqb (Article.id a) k); simpl; auto. now rewrite E.
Qed.

Lemma Article_findByPk_id db k a : Article_findByPk db k = Some a -> Article.id a = k.
Proof.
  unfold Article_findByPk. intros H. apply find_some in H as [_ H].
  now apply String.eqb_eq.
Qed.

(** X30: [recordContribution] changes the statistics of the article of
    the contribution only: its revision count grows by one unless the
    contribution is a creation, its quality score is overwritten with
    the quality multiplier of this contribution exactly for creations and
    major edits, and its update time is the current time in every case
    (the increment of the revision count sets it as well); every other
    article is as before.  The contribution is appended to the table with
    neither its user nor its article set, and tags, runs and Payout
    Records are not touched. *)
Theorem recordContribution_article_stats :
  forall db now rnd1 rnd2 uid aid contributionType tagNames k,
    let db' := fst (recordContribution db now rnd1 rnd2 uid aid contributionType tagNames) in
    let stored := snd (recordContribution db now rnd1 rnd2 uid aid contributionType tagNames) in
    Article_findByPk db' k
    = (if String.eqb k aid
       then option_map (revisedArticle contributionType
                          (Contribution.qualityMultiplier stored) now)
                       (Article_findByPk db k)
       else Article_findByPk db k)
    /\ contributions db' = contributions db ++ [stored]
    /\ Contribution.UserId stored = None
    /\ Contribution.ArticleId stored = None
    /\ tags db' = tags db
    /\ weeklyRewards db' = weeklyRewards db
    /\ userRewards db' = userRewards db.
Proof.
  intros db now rnd1 rnd2 uid aid ty tagNames k db' stored.
  subst db' stored. unfold recordContribution. cbv zeta. simpl fst. simpl snd.
  set (pd := calculatePoints db rnd1 rnd2 ty uid (Some aid) tagNames).
  split.
  - cbn [Contribution.qualityMultiplier Contribution_create].
    assert (Hbase : forall d f g c,
              Article_findByPk (User_update_where uid f (User_update_where uid g
                                  (set_contributions (fun l => l ++ [c]) d))) k
              = Article_findByPk d k) by reflexivity.
    destruct (Article_findByPk db k) as [a|] eqn:Ea.
    + pose proof (Article_findByPk_id _ _ _ Ea) as Hid.
      assert (Ec : String.eqb (Article.id a) aid = String.eqb k aid) by now rewrite Hid.
      destruct ty; cbn [isEdit isCreationOrMajorEdit];
        rewrite ?Article_findByPk_update_where by reflexivity;
        rewrite Hbase, Ea; simpl; rewrite ?Ec;
        destruct (String.eqb k aid) eqn:Ek; simpl; rewrite ?Ec; reflexivity.
    + destruct ty; cbn [isEdit isCreationOrMajorEdit];
        rewrite ?Article_findByPk_update_where by reflexivity;
        rewrite Hbase, Ea; simpl; destruct (String.eqb k aid); reflexivity.
  - destruct (isCreationOrMajorEdit ty), (isEdit ty); repeat split.
Qed.

(** ** What the distributor leaves alone *)

Lemma distributeWeeklyRewards_frame L now db chain startDate endDate :
  let run := distributeWeeklyRewards L now db chain startDate endDate in
  users (fst (fst run)) = users db
  /\ articles (fst (fst run)) = articles db
  /\ tags (fst (fst run)) = tags db
  /\ contributions (fst (fst run)) = contributions db
  /\ successfulTransactions (snd run) = 0%nat.
Proof.
  intros run. subst run.
  destruct (calculateWeeklyRewards db startDate endDate) as [plan|msg] eqn:Hplan.
  - destruct plan as [|reward plan].
    + unfold distributeWeeklyRewards. rewrite Hplan. repeat split.
    + destruct (treasuryKeypairValid L) eqn:Hkey.
      * destruct (distributeWeeklyRewards_run L now db chain startDate endDate
                    (reward :: plan) Hplan ltac:(discriminate) Hkey)
          as (recs & sent & _ & ->).
        repeat split.
      * unfold distributeWeeklyRewards. rewrite Hplan, Hkey. repeat split.
  - unfold distributeWeeklyRewards. rewrite Hplan. repeat split.
Qed.

(** ** Stored contributions are never rewritten *)

(** X6: contributions are never rewritten or deleted after they were
    recorded: the distributor, the reputation and demand updaters,
    [processUserReward] and the [/distribution-complete] handler all leave
    the table of contributions as it is. *)
Theorem contributions_are_immutable :
  forall L now db chain startDate endDate uid weeklyReward tokens txHash
         totalUsers successful failedCount,
    contributions (fst (fst (distributeWeeklyRewards L now db chain startDate endDate)))
    = contributions db
    /\ contributions (fst (updateUserReputation db uid)) = contributions db
    /\ contributions (fst (updateTagDemandMultipliers db now)) = contributions db
    /\ contributions (fst (processUserReward db weeklyReward uid tokens txHash))
       = contributions db
    /\ contributions
         (fst (distributionComplete db startDate endDate totalUsers successful
                                    failedCount))
       = contributions db.
Proof.
  intros L now db chain s e uid w tokens tx totalUsers successful failedCount.
  split; [|split; [|split; [|split]]].
  - apply distributeWeeklyRewards_frame.
  - reflexivity.
  - reflexivity.
  - unfold processUserReward.
    destruct (fitsINTEGER _); reflexivity.
  - unfold distributionComplete.
    destruct (WeeklyReward_findOne db s e); [|reflexivity].
    destruct (ENUM_status _); reflexivity.
Qed.

(** ** The distributor credits nobody *)

(** X9: whatever the ledger answers, [distributeWeeklyRewards] changes no
    user row and counts no success: the planned payouts carry no user
    identifier, so the credit of a confirmed transfer throws and the
    payout is counted as failed. *)
Theorem distributor_never_credits :
  forall L now db chain startDate endDate,
    let run := distributeWeeklyRewards L now db chain startDate endDate in
    users (fst (fst run)) = users db
    /\ successfulTransactions (snd run) = 0%nat
    /\ Forall (fun r => UserReward.UserId r = None
                        /\ UserReward.WeeklyRewardId r = None)
              (skipn (List.length (userRewards db)) (userRewards (fst (fst run)))).
Proof.
  intros L now db chain s e run.
  destruct (distributeWeeklyRewards_frame L now db chain s e)
    as (Hu & _ & _ & _ & Hs).
  split; [exact Hu|]. split; [exact Hs|].
  subst run.
  destruct (calculateWeeklyRewards db s e) as [plan|msg] eqn:Hplan.
  - destruct plan as [|reward plan].
    + unfold distributeWeeklyRewards. rewrite Hplan. simpl.
      rewrite skipn_all. constructor.
    + destruct (treasuryKeypairValid L) eqn:Hkey.
      * destruct (distributeWeeklyRewards_run L now db chain s e
                    (reward :: plan) Hplan ltac:(discriminate) Hkey)
          as (recs & sent & (_ & Hrecs & _) & ->).
        simpl. rewrite skipn_app, skipn_all, Nat.sub_diag. simpl.
        eapply Forall_impl; [|exact Hrecs].
        intros r (rw & _ & ->). split; reflexivity.
      * unfold distributeWeeklyRewards. rewrite Hplan, Hkey. simpl.
        rewrite skipn_all. constructor.
  - unfold distributeWeeklyRewards. rewrite Hplan. simpl.
    rewrite skipn_all. constructor.
Qed.

(** ** Crediting a payout *)

(** X7: when [processUserReward] stores its Payout Record, it credits the
    tokens to the user named in the call and to nobody else; the record
    itself names neither that user nor the run, the runs are not touched,
    and the status of the run is not looked at.  When the record is
    rejected nothing is changed. *)
Theorem processUserReward_credits_one_user :
  forall db weeklyReward uid tokens txHash k,
    match processUserReward db weeklyReward uid tokens txHash with
    | (db', Ok r) =>
        User_findByPk db' k
        = (if String.eqb k uid
           then option_map (creditedTokens tokens) (User_findByPk db k)
           else User_findByPk db k)
        /\ weeklyRewards db' = weeklyRewards db
        /\ userRewards db' = userRewards db ++ [r]
        /\ UserReward.UserId r = None
        /\ UserReward.WeeklyRewardId r = None
    | (db', Throw _) => db' = db
    end.
Proof.
  intros db w uid tokens tx k. unfold processUserReward.
  destruct (fitsINTEGER _); [|reflexivity]. simpl.
  split; [|repeat split].
  now rewrite User_findByPk_credit by reflexivity.
Qed.

(** ** Run-level failures *)

(** X11: when the treasury key cannot be read, the distributor has
    already stored the run: it returns a failure with an error message,
    no transfer is sent, nobody is credited and no Payout Record is
    written, but one run of the window stays behind with status
    [processing] and no distribution date. *)
Theorem invalid_keypair_leaves_run_processing :
  forall L now db chain startDate endDate plan,
    calculateWeeklyRewards db startDate endDate = Ok plan ->
    plan <> [] ->
    treasuryKeypairValid L = false ->
    let run := distributeWeeklyRewards L now db chain startDate endDate in
    success (snd run) = false
    /\ errorMessage (snd run) <> None
    /\ snd (fst run) = chain
    /\ userRewards (fst (fst run)) = userRewards db
    /\ users (fst (fst run)) = users db
    /\ exists w,
         weeklyRewards (fst (fst run)) = weeklyRewards db ++ [w]
         /\ WeeklyReward.status w = processing
         /\ WeeklyReward.weekStartDate w = startDate
         /\ WeeklyReward.weekEndDate w = endDate
         /\ WeeklyReward.distributedAt w = None.
Proof.
  intros L now db chain s e plan Hplan Hne Hkey run. subst run.
  unfold distributeWeeklyRewards. rewrite Hplan, Hkey.
  destruct plan as [|r plan]; [congruence|]. cbn [negb fst snd].
  repeat split; try discriminate.
  eexists. repeat split.
Qed.

Lemma invalid_keypair_leaves_run_processing_witness :
  let run := distributeWeeklyRewards Cases.ledger_no_key 5000 Scenario.db_two [] 0 2000 in
  success (snd run) = false
  /\ errorMessage (snd run) <> None
  /\ snd (fst run) = []
  /\ userRewards (fst (fst run)) = userRewards Scenario.db_two
  /\ users (fst (fst run)) = users Scenario.db_two
  /\ exists w,
       weeklyRewards (fst (fst run)) = weeklyRewards Scenario.db_two ++ [w]
       /\ WeeklyReward.status w = processing
       /\ WeeklyReward.weekStartDate w = 0
       /\ WeeklyReward.weekEndDate w = 2000
       /\ WeeklyReward.distributedAt w = None.
Proof.
  refine (invalid_keypair_leaves_run_processing Cases.ledger_no_key 5000
            Scenario.db_two [] 0 2000 [Scenario.r_merged] _ _ eq_refl).
  - vm_compute. reflexivity.
  - discriminate.
Defined.

(** ** Creating runs *)



(** ** The demand updater *)

Lemma newDemandMultiplier_finite n :
  exists m e, newDemandMultiplier n = S754_finite false m e.
Proof.
  destruct (newDemandMultiplier_range n) as [H1 H2].
  change (lit 10 1) with ONE in H1. change (lit 25 1) with TWO_AND_HALF in H2.
  destruct (newDemandMultiplier n) as [s|s| |s m e]; try discriminate.
  - destruct s; discriminate.
  - destruct s; [discriminate | eauto].
Qed.

Lemma changedSignificantly_same s m e :
  changedSignificantly (S754_finite s m e) (S754_finite s m e) = false.
Proof.
  unfold changedSignificantly, gtb, sub, SFsub.
  rewrite Z.sub_diag. reflexivity.
Qed.

Lemma recentContributions_tags db now f tag tag' :
  Tag.name tag' = Tag.name tag ->
  recentContributions (set_tags f db) now tag' = recentContributions db now tag.
Proof.
  intros H. unfold recentContributions, tag_Articles, article_Contributions.
  simpl. now rewrite H.
Qed.

Lemma updateTag_again db now f tag :
  updateTag (set_tags f db) now (fst (updateTag db now tag))
  = (fst (updateTag db now tag), false).
Proof.
  unfold updateTag.
  destruct (changedSignificantly (newDemandMultiplier (recentContributions db now tag))
                                 (Tag.demandMultiplier tag)) eqn:E; simpl fst.
  - rewrite (recentContributions_tags db now f tag) by reflexivity.
    simpl Tag.demandMultiplier.
    destruct (newDemandMultiplier_finite (recentContributions db now tag))
      as (m & e & ->).
    now rewrite changedSignificantly_same.
  - rewrite (recentContributions_tags db now f tag) by reflexivity.
    now rewrite E.
Qed.

(** X14: recomputing the demand multipliers a second time at the same instant
    updates no tag. *)
Theorem updateTagDemandMultipliers_idempotent :
  forall db now,
    let db1 := fst (updateTagDemandMultipliers db now) in
    updateTagDemandMultipliers db1 now = (db1, 0%nat).
Proof.
  intros db now db1. subst db1. unfold updateTagDemandMultipliers.
  cbn [fst]. 
  set (f := fun _ : list Tag.t => map fst (map (updateTag db now) (tags db))).
  assert (Hmap : map (updateTag (set_tags f db) now) (tags (set_tags f db))
                 = map (fun t => (fst (updateTag db now t), false)) (tags db)).
  { unfold f at 2. cbn [tags set_tags]. rewrite !map_map.
    apply map_ext. intros t. apply updateTag_again. }
  rewrite Hmap. f_equal.
  - unfold set_tags. cbn. f_equal. unfold f. rewrite !map_map. reflexivity.
  - generalize (tags db). intros l. induction l; simpl; auto.
Qed.

(** X15: the updater keeps the tags, their names and their order; a tag is
    rewritten only with a multiplier of [[1.0, 2.5]] that differs from the
    old one by more than 0.1, and the number returned counts these tags. *)
Theorem updateTagDemandMultipliers_frame :
  forall db now,
    let db' := fst (updateTagDemandMultipliers db now) in
    let updatedTags := snd (updateTagDemandMultipliers db now) in
    map Tag.name (tags db') = map Tag.name (tags db)
    /\ Forall2 (fun old new =>
                  new = old
                  \/ (leb (lit 10 1) (Tag.demandMultiplier new) = true
                      /\ leb (Tag.demandMultiplier new) (lit 25 1) = true
                      /\ changedSignificantly (Tag.demandMultiplier new)
                                              (Tag.demandMultiplier old) = true))
               (tags db) (tags db')
    /\ updatedTags
       = List.length
           (filter (fun tag =>
                      changedSignificantly
                        (newDemandMultiplier (recentContributions db now tag))
                        (Tag.demandMultiplier tag))
                   (tags db))
    /\ (updatedTags <= List.length (tags db))%nat
    /\ users db' = users db /\ articles db' = articles db
    /\ weeklyRewards db' = weeklyRewards db /\ userRewards db' = userRewards db.
Proof.
  intros db now db' updatedTags. subst db' updatedTags.
  unfold updateTagDemandMultipliers. cbn [fst snd tags set_tags].
  assert (Hcount : List.length (filter snd (map (updateTag db now) (tags db)))
                   = List.length
                       (filter (fun tag =>
                                  changedSignificantly
                                    (newDemandMultiplier (recentContributions db now tag))
                                    (Tag.demandMultiplier tag))
                               (tags db))).
  { induction (tags db) as [|t l IH]; [reflexivity|].
    cbn [map filter]. unfold updateTag at 1.
    destruct (changedSignificantly _ _); cbn [snd List.length]; auto. }
  split; [|split; [|split; [|split]]].
  - rewrite !map_map. apply map_ext. intros t. unfold updateTag.
    destruct (changedSignificantly _ _); reflexivity.
  - rewrite map_map. clear Hcount. generalize (tags db). intros l.
    induction l as [|t l IH]; simpl; constructor; [|exact IH].
    unfold updateTag.
    destruct (changedSignificantly _ _) eqn:E; simpl; [|now left].
    right. destruct (newDemandMultiplier_range (recentContributions db now t)).
    auto.
  - exact Hcount.
  - rewrite Hcount. apply filter_length_le.
  - repeat split.
Qed.

(** ** Calendar dates *)

Lemma MS_PER_DAY_pos : 0 < MS_PER_DAY.
Proof. reflexivity. Qed.

Lemma day_of_startOfDay d : startOfDay d / MS_PER_DAY = d / MS_PER_DAY.
Proof. unfold startOfDay. apply Z.div_mul. discriminate. Qed.

Lemma day_of_addDays d n : addDays d n / MS_PER_DAY = d / MS_PER_DAY + n.
Proof. unfold addDays. apply Z.div_add. discriminate. Qed.

Lemma startOfDay_bounds d : startOfDay d <= d < startOfDay d + MS_PER_DAY.
Proof.
  unfold startOfDay.
  pose proof (Z.div_mod d MS_PER_DAY ltac:(discriminate)) as H.
  pose proof (Z.mod_pos_bound d MS_PER_DAY MS_PER_DAY_pos) as Hb.
  lia.
Qed.

Lemma startOfDay_addDays d n : startOfDay (addDays d n) = addDays (startOfDay d) n.
Proof.
  unfold startOfDay at 1. rewrite day_of_addDays. unfold startOfDay, addDays, Date. ring.
Qed.

Lemma getDay_range d : 0 <= getDay d < 7.
Proof. unfold getDay. apply Z.mod_pos_bound. lia. Qed.

Lemma getDay_startOfDay d : getDay (startOfDay d) = getDay d.
Proof. unfold getDay. now rewrite day_of_startOfDay. Qed.

Lemma getDay_addDays d n : getDay (addDays d n) = (getDay d + n) mod 7.
Proof.
  unfold getDay. rewrite day_of_addDays.
  rewrite Zplus_mod_idemp_l. f_equal. ring.
Qed.

(** X16: the week of [getPendingRewardsForUser] starts at 00:00 of the
    last Sunday: its start is a Sunday midnight, not after [now] and less
    than seven days before it. *)
Theorem startOfWeek_pending_is_sunday :
  forall now,
    getDay (startOfWeek_pending now) = 0
    /\ startOfDay (startOfWeek_pending now) = startOfWeek_pending now
    /\ startOfWeek_pending now <= now < startOfWeek_pending now + 7 * MS_PER_DAY.
Proof.
  intros now. unfold startOfWeek_pending.
  pose proof (getDay_range now) as Hr.
  split; [|split].
  - rewrite getDay_startOfDay, getDay_addDays.
    replace (getDay now + - getDay now) with 0 by ring. reflexivity.
  - unfold startOfDay at 1. now rewrite day_of_startOfDay.
  - rewrite startOfDay_addDays. pose proof (startOfDay_bounds now) as Hb.
    unfold addDays. unfold MS_PER_DAY in *. lia.
Qed.

Lemma startOfWeek_projected_alt now :
  startOfWeek_projected now = addDays (startOfDay now) (- ((getDay now + 6) mod 7)).
Proof.
  unfold startOfWeek_projected. rewrite startOfDay_addDays.
  pose proof (getDay_range now) as Hr.
  assert (H : (if getDay now =? 0 then 6 else getDay now - 1) = (getDay now + 6) mod 7).
  { destruct (Z.eqb_spec (getDay now) 0) as [->|Hn]; [reflexivity|].
    replace (getDay now + 6) with (getDay now - 1 + 1 * 7) by ring.
    rewrite Z.mod_add by discriminate. rewrite Z.mod_small; lia. }
  now rewrite H.
Qed.

Lemma startOfWeek_projected_day now :
  startOfWeek_projected now = mondayOf (now / MS_PER_DAY) * MS_PER_DAY.
Proof.
  rewrite startOfWeek_projected_alt. unfold addDays, startOfDay, mondayOf, getDay.
  rewrite Zplus_mod_idemp_l.
  replace (now / MS_PER_DAY + 4 + 6) with (now / MS_PER_DAY + 3 + 1 * 7) by ring.
  rewrite Z.mod_add by discriminate. unfold Date. ring.
Qed.

Lemma mondayOf_spec d : exists k, mondayOf d = 7 * k - 3 /\ 7 * k - 3 <= d < 7 * k + 4.
Proof.
  unfold mondayOf. exists ((d + 3) / 7).
  pose proof (Z.div_mod (d + 3) 7 ltac:(discriminate)) as H.
  pose proof (Z.mod_pos_bound (d + 3) 7 ltac:(lia)) as Hb.
  lia.
Qed.

(** X17: the week of [/projected] runs from Monday 00:00:00.000 to Sunday
    23:59:59.999 around [now]; the weeks of two instants are the same week
    or do not meet; and the week of [getPendingRewardsForUser] starts one
    day earlier, or six days later when [now] is a Sunday. *)
Theorem projected_week_window :
  forall now now',
    getDay (startOfWeek_projected now) = 1
    /\ startOfWeek_projected now <= now <= endOfWeek_projected now
    /\ endOfWeek_projected now = startOfWeek_projected now + 7 * MS_PER_DAY - 1
    /\ (startOfWeek_projected now' = startOfWeek_projected now
        \/ endOfWeek_projected now < startOfWeek_projected now'
        \/ endOfWeek_projected now' < startOfWeek_projected now)
    /\ startOfWeek_pending now
       = addDays (startOfWeek_projected now) (if getDay now =? 0 then 6 else -1).
Proof.
  intros now now'.
  assert (Hend : forall t, endOfWeek_projected t
                           = startOfWeek_projected t + 7 * MS_PER_DAY - 1).
  { intros t. unfold endOfWeek_projected, endOfDay.
    rewrite startOfDay_addDays.
    replace (startOfDay (startOfWeek_projected t)) with (startOfWeek_projected t).
    - unfold addDays, Date. ring.
    - unfold startOfWeek_projected. unfold startOfDay at 2.
      now rewrite day_of_startOfDay. }
  pose proof (getDay_range now) as Hr.
  split; [|split; [|split; [|split]]].
  - rewrite startOfWeek_projected_alt, getDay_addDays, getDay_startOfDay.
    assert (H : forall g, 0 <= g < 7 -> (g + - ((g + 6) mod 7)) mod 7 = 1).
    { intros g Hg.
      assert (Hc : g = 0 \/ g = 1 \/ g = 2 \/ g = 3 \/ g = 4 \/ g = 5 \/ g = 6) by lia.
      destruct Hc as [->|[->|[->|[->|[->|[->| ->]]]]]]; reflexivity. }
    now apply H.
  - rewrite Hend, startOfWeek_projected_day.
    destruct (mondayOf_spec (now / MS_PER_DAY)) as (k & -> & Hk).
    pose proof (startOfDay_bounds now) as Hb. unfold startOfDay in Hb.
    unfold MS_PER_DAY in *. lia.
  - apply Hend.
  - rewrite !Hend, !startOfWeek_projected_day.
    destruct (mondayOf_spec (now / MS_PER_DAY)) as (k & -> & Hk).
    destruct (mondayOf_spec (now' / MS_PER_DAY)) as (k' & -> & Hk').
    unfold MS_PER_DAY. destruct (Z.lt_trichotomy k k') as [H|[H|H]]; lia.
  - unfold startOfWeek_pending. rewrite startOfWeek_projected_alt.
    rewrite startOfDay_addDays. unfold addDays.
    assert (H : forall g, 0 <= g < 7 ->
                - g = - ((g + 6) mod 7) + (if g =? 0 then 6 else -1)).
    { intros g Hg.
      assert (Hc : g = 0 \/ g = 1 \/ g = 2 \/ g = 3 \/ g = 4 \/ g = 5 \/ g = 6) by lia.
      destruct Hc as [->|[->|[->|[->|[->|[->| ->]]]]]]; reflexivity. }
    rewrite (H (getDay now) Hr). unfold Date. ring.
Qed.

(** ** Completing a run *)

Lemma WeeklyReward_findByPk_id db wid w :
  WeeklyReward_findByPk db wid = Some w -> WeeklyReward.id w = wid.
Proof.
  unfold WeeklyReward_findByPk. intros H. apply find_some in H as [_ H].
  now apply Nat.eqb_eq.
Qed.

(** X20: [completeDistribution] throws exactly when no run has the identifier;
    otherwise that run, whatever its status was, is stored as completed
    with the given transaction reference and the current time, and its
    window, totals and ratio are kept; no other run, no user and no Payout
    Record changes. *)
Theorem completeDistribution_effect :
  forall db now wid txHash,
    match completeDistribution db now wid txHash with
    | Throw msg =>
        WeeklyReward_findByPk db wid = None
        /\ msg = "Weekly reward not found"%string
    | Ok (db', saved) =>
        (exists w,
            WeeklyReward_findByPk db wid = Some w
            /\ saved
               = WeeklyReward.mk wid (WeeklyReward.weekStartDate w)
                   (WeeklyReward.weekEndDate w) (WeeklyReward.totalPoints w)
                   (WeeklyReward.totalTokens w) (WeeklyReward.pointToTokenRatio w)
                   (Some txHash) (Some now) completed)
        /\ (forall k, WeeklyReward_findByPk db' k
                      = if Nat.eqb k wid then Some saved
                        else WeeklyReward_findByPk db k)
        /\ List.length (weeklyRewards db') = List.length (weeklyRewards db)
        /\ users db' = users db
        /\ userRewards db' = userRewards db
        /\ contributions db' = contributions db
    end.
Proof.
  intros db now wid tx. unfold completeDistribution.
  destruct (WeeklyReward_findByPk db wid) as [w|] eqn:E; [|auto].
  pose proof (WeeklyReward_findByPk_id _ _ _ E) as Hid.
  rewrite Hid.
  split; [eauto|]. split; [|split; [|auto]].
  - intros k.
    unfold WeeklyReward_findByPk, WeeklyReward_update. simpl.
    unfold WeeklyReward_findByPk in E.
    revert E. induction (weeklyRewards db) as [|x l IH]; simpl; [discriminate|].
    destruct (Nat.eqb (WeeklyReward.id x) wid) eqn:Ex.
    + intros [= ->]. simpl. apply Nat.eqb_eq in Ex.
      destruct (Nat.eqb_spec wid k) as [<-|Hk].
      * now rewrite Nat.eqb_refl.
      * destruct (Nat.eqb_spec k wid) as [->|_]; [congruence|].
        rewrite Ex. destruct (Nat.eqb_spec wid k); [congruence|].
        clear IH. induction l as [|y l IH]; simpl; auto.
        destruct (Nat.eqb (WeeklyReward.id y) wid) eqn:Ey; simpl.
        -- destruct (Nat.eqb_spec wid k); [congruence|].
           apply Nat.eqb_eq in Ey. rewrite Ey.
           destruct (Nat.eqb_spec wid k); [congruence|]. exact IH.
        -- destruct (Nat.eqb (WeeklyReward.id y) k); auto.
    + intros E. destruct (Nat.eqb_spec (WeeklyReward.id x) k) as [Hk|Hk].
      * destruct (Nat.eqb_spec k wid) as [->|_]; [|reflexivity].
        apply Nat.eqb_neq in Ex. congruence.
      * now apply IH.
  - unfold WeeklyReward_update. simpl. apply length_map.
Qed.

(** ** Queries by user *)


(** ** Confirming a payout *)

Lemma confirm_answers :
  forall db body,
    confirm db body
    = if negb (wellFormed body) then (db, 400%nat, None)
      else match namedRun db body with
           | None => (db, 404%nat, None)
           | Some weeklyReward =>
               if fitsINTEGER (confirmedPoints weeklyReward body)
               then
                 let r := UserReward.mk None None
                            (confirmedPoints weeklyReward body)
                            (body_tokens body) (Some (body_txHash body)) in
                 (User_update_where (body_userId body)
                    (creditedTokens (body_tokens body))
                    (set_userRewards (fun l => l ++ [r]) db),
                  200%nat, Some r)
               else (db, 500%nat, None)
           end.
Proof.
  intros db body. unfold confirm, wellFormed, namedRun.
  destruct (body_weekStartDate body) as [s|], (body_weekEndDate body) as [e|];
    rewrite ?andb_false_r; simpl; auto.
  rewrite andb_true_r.
  destruct (truthy (body_userId body)); simpl; auto.
  destruct (falsyNumber (body_tokens body)); simpl; auto.
  destruct (truthy (body_txHash body)); simpl; auto.
  destruct (WeeklyReward_findOne db s e) as [w|]; auto.
  unfold processUserReward, confirmedPoints.
  destruct (fitsINTEGER _); reflexivity.
Qed.

(** X24: [/confirm] answers 400 to a request with a missing field, 404
    when no run has the window and 500 when the points computed for the
    request are no value of the column, and in these cases leaves the
    database as it is; otherwise it answers 200, after storing one Payout
    Record, whatever the status of the run, and without touching the
    runs.  The record stored names neither the user nor the run. *)
Theorem confirm_stores_only_on_200 :
  forall db body,
    let '(db', status, stored) := confirm db body in
    (status = 400%nat <-> wellFormed body = false)
    /\ (status = 404%nat <-> wellFormed body = true /\ namedRun db body = None)
    /\ (status = 500%nat
        <-> wellFormed body = true
            /\ exists w, namedRun db body = Some w
                         /\ fitsINTEGER (confirmedPoints w body) = false)
    /\ (status = 200%nat
        <-> wellFormed body = true
            /\ exists w, namedRun db body = Some w
                         /\ fitsINTEGER (confirmedPoints w body) = true)
    /\ weeklyRewards db' = weeklyRewards db
    /\ match stored with
       | Some r =>
           status = 200%nat
           /\ userRewards db' = userRewards db ++ [r]
           /\ UserReward.UserId r = None
           /\ UserReward.WeeklyRewardId r = None
           /\ option_map (fun w => confirmedPoints w body) (namedRun db body)
              = Some (UserReward.points r)
           /\ UserReward.tokens r = body_tokens body
           /\ UserReward.txHash r = Some (body_txHash body)
       | None => status <> 200%nat /\ db' = db
       end.
Proof.
  intros db body. rewrite confirm_answers.
  destruct (wellFormed body); simpl.
  - destruct (namedRun db body) as [w|]; simpl.
    + destruct (fitsINTEGER (confirmedPoints w body)) eqn:Hfit; simpl.
      * split; [split; discriminate|].
        split; [split; [discriminate | intros [_ H]; discriminate]|].
        split; [split; [discriminate
                       | intros (_ & w' & [= <-] & H); congruence]|].
        split; [split; [intros _; split; [reflexivity | eauto] | reflexivity]|].
        split; [reflexivity|]. repeat split.
      * split; [split; discriminate|].
        split; [split; [discriminate | intros [_ H]; discriminate]|].
        split; [split; [intros _; split; [reflexivity | eauto] | reflexivity]|].
        split; [split; [discriminate
                       | intros (_ & w' & [= <-] & H); congruence]|].
        split; [reflexivity|]. split; [discriminate | reflexivity].
    + split; [split; discriminate|].
      split; [split; auto|].
      split; [split; [discriminate | intros (_ & w' & H & _); discriminate]|].
      split; [split; [discriminate | intros (_ & w' & H & _); discriminate]|].
      split; [reflexivity|]. split; [discriminate | reflexivity].
  - split; [split; reflexivity|].
    split; [split; [discriminate | intros [H _]; discriminate]|].
    split; [split; [discriminate | intros [H _]; discriminate]|].
    split; [split; [discriminate | intros [H _]; discriminate]|].
    split; [reflexivity|]. split; [discriminate | reflexivity].
Qed.

(** X25: [/confirm] is not idempotent: a request that was answered 200 is
    answered 200 again when it is repeated, a second identical Payout
    Record is stored and the tokens are credited a second time. *)
Theorem confirm_twice :
  forall db body db1 r,
    confirm db body = (db1, 200%nat, Some r) ->
    exists db2,
      confirm db1 body = (db2, 200%nat, Some r)
      /\ userRewards db2 = userRewards db ++ [r; r]
      /\ forall k,
           User_findByPk db2 k
           = if String.eqb k (body_userId body)
             then option_map (fun u => creditedTokens (body_tokens body)
                                         (creditedTokens (body_tokens body) u))
                             (User_findByPk db k)
             else User_findByPk db k.
Proof.
  intros db body db1 r H.
  rewrite confirm_answers in H.
  destruct (negb (wellFormed body)) eqn:Hw; [discriminate|].
  destruct (namedRun db body) as [w|] eqn:Hrun; [|discriminate].
  destruct (fitsINTEGER (confirmedPoints w body)) eqn:Hfit; [|discriminate].
  cbv zeta in H. injection H as <- <-.
  set (r := UserReward.mk None None (confirmedPoints w body) (body_tokens body)
              (Some (body_txHash body))).
  set (db1 := User_update_where (body_userId body)
                (creditedTokens (body_tokens body))
                (set_userRewards (fun l => l ++ [r]) db)).
  assert (Hrun1 : namedRun db1 body = Some w).
  { unfold namedRun in *.
    destruct (body_weekStartDate body), (body_weekEndDate body); auto. }
  eexists. rewrite confirm_answers, Hw, Hrun1, Hfit. cbv zeta.
  split; [reflexivity|]. split.
  - subst db1. simpl. now rewrite <- app_assoc.
  - intros k. rewrite User_findByPk_credit by reflexivity.
    change (User_findByPk
              (set_userRewards
                 (fun l => l ++ [UserReward.mk None None (confirmedPoints w body)
                                   (body_tokens body) (Some (body_txHash body))])
                 db1) k)
      with (User_findByPk db1 k).
    subst db1. rewrite User_findByPk_credit by reflexivity.
    change (User_findByPk (set_userRewards (fun l => l ++ [r]) db) k)
      with (User_findByPk db k).
    destruct (String.eqb k (body_userId body)); auto.
    destruct (User_findByPk db k); reflexivity.
Qed.

Lemma confirm_twice_witness :
  exists db2,
    confirm (fst (fst (confirm Scenario.db_pending Cases.body_alice)))
            Cases.body_alice
    = (db2, 200%nat, Some Cases.reward_alice)
    /\ userRewards db2
       = userRewards Scenario.db_pending ++ [Cases.reward_alice; Cases.reward_alice]
    /\ forall k,
         User_findByPk db2 k
         = if String.eqb k (body_userId Cases.body_alice)
           then option_map (fun u => creditedTokens (body_tokens Cases.body_alice)
                                       (creditedTokens (body_tokens Cases.body_alice) u))
                           (User_findByPk Scenario.db_pending k)
           else User_findByPk Scenario.db_pending k.
Proof.
  apply (confirm_twice Scenario.db_pending Cases.body_alice
           (fst (fst (confirm Scenario.db_pending Cases.body_alice)))
           Cases.reward_alice).
  vm_compute. reflexivity.
Defined.

(** ** Projected rewards *)

(** X26: [/projected] never finds the requester among the rows: the rows
    are keyed by [undefined], so the requester is shown 0 points, 0
    contributions and 0 projected tokens whatever they contributed in the
    current week, while the period reports the points of all
    contributions of the week under at most one user. *)
Theorem projected_never_finds_requester :
  forall db now requesterId period projection,
    projected db now requesterId = Ok (period, projection) ->
    let window :=
      closedWindow db (startOfWeek_projected now) (endOfWeek_projected now) in
    projection = mkUserProjection zero zero zero
    /\ period_totalPoints period = add zero (sumOfPoints window)
    /\ (period_totalUsers period <= 1)%nat
    /\ (period_totalUsers period = 0%nat <-> window = [])
    /\ tokenPerPoint period
       = (if gtb (period_totalPoints period) zero
          then div WEEKLY_TOKEN_ALLOCATION (period_totalPoints period)
          else zero).
Proof.
  intros db now requesterId period projection H window.
  unfold projected in H. rewrite calculateRewards_closed in H. fold window in H.
  destruct window as [|c rest].
  - simpl in H. injection H as <- <-. simpl. repeat split; auto; lia.
  - destruct (contribution_User db c); [|discriminate].
    simpl in H. injection H as <- <-. simpl.
    repeat split; auto; try lia; discriminate.
Qed.

Lemma projected_never_finds_requester_witness :
  mkUserProjection zero zero zero = mkUserProjection zero zero zero
  /\ of_Z 100
     = add zero (sumOfPoints (closedWindow Cases.db_midnight
                                (startOfWeek_projected 5000)
                                (endOfWeek_projected 5000)))
  /\ (1 <= 1)%nat
  /\ (1%nat = 0%nat
      <-> closedWindow Cases.db_midnight (startOfWeek_projected 5000)
                       (endOfWeek_projected 5000) = [])
  /\ div WEEKLY_TOKEN_ALLOCATION (of_Z 100)
     = (if gtb (of_Z 100) zero
        then div WEEKLY_TOKEN_ALLOCATION (of_Z 100)
        else zero).
Proof.
  apply (projected_never_finds_requester Cases.db_midnight 5000 "alice"
           (mkCurrentPeriod (startOfWeek_projected 5000) (endOfWeek_projected 5000)
              (of_Z 100) 1 (div WEEKLY_TOKEN_ALLOCATION (of_Z 100)))
           (mkUserProjection zero zero zero)).
  vm_compute. reflexivity.
Defined.

(** ** The window of the distribution script *)




(** ** The distribution script *)

(** A request without a user identifier is refused. *)
Lemma confirm_missing_userId db tokens txHash s e :
  confirm db (mkConfirmBody EmptyString tokens txHash s e) = (db, 400%nat, None).
Proof. unfold confirm. simpl. now destruct s, e. Qed.

(** One iteration for a user whose identifier is missing: the
    confirmation is refused, so a failure is logged whether or not the
    transfer went through, and the database stays as it is. *)
Lemma distributeTo_unkeyed env s e st user :
  uc_userId user = None ->
  let st' := distributeTo env s e st user in
  sl_db st' = sl_db st
  /\ List.length (filter isFailed (sl_transactions st'))
     = S (List.length (filter isFailed (sl_transactions st)))
  /\ List.length (filter isSuccess (sl_transactions st'))
     = (List.length (filter isSuccess (sl_transactions st))
        + match distribute env (sl_index st) user with
          | Some _ => 1
          | None => 0
          end)%nat
  /\ sl_index st' = S (sl_index st).
Proof.
  intros Hkey. unfold distributeTo. rewrite Hkey. simpl bodyString.
  destruct (distribute env (sl_index st) user) as [sig|]; cbn zeta.
  - rewrite confirm_missing_userId. simpl.
    rewrite !filter_app, !length_app. simpl. repeat split; lia.
  - simpl. rewrite !filter_app, !length_app. simpl. repeat split; lia.
Qed.

Lemma scriptLoop_unkeyed env s e plan : forall st,
  Forall (fun user => uc_userId user = None) plan ->
  let st' := fold_left (distributeTo env s e) plan st in
  sl_db st' = sl_db st
  /\ List.length (filter isFailed (sl_transactions st'))
     = (List.length (filter isFailed (sl_transactions st)) + List.length plan)%nat
  /\ (List.length (filter isSuccess (sl_transactions st'))
      <= List.length (filter isSuccess (sl_transactions st)) + List.length plan)%nat.
Proof.
  induction plan as [|user plan IH]; intros st Hkeys; simpl.
  - repeat split; lia.
  - inversion Hkeys as [|? ? Hk Hrest]; subst.
    destruct (distributeTo_unkeyed env s e st user Hk) as (Hd & Hf & Hs & _).
    destruct (IH (distributeTo env s e st user) Hrest) as (Hd' & Hf' & Hs').
    cbv zeta in *. split; [congruence|]. split; [lia|].
    destruct (distribute env (sl_index st) user); lia.
Qed.

(** The users the script receives carry no identifier. *)
Lemma GET_calculate_unkeyed db s e received total :
  GET_calculate db s e = Some (received, total) ->
  Forall (fun user => uc_userId user = None) (userContributions received total)
  /\ (List.length received <= 1)%nat
  /\ exists users totalPoints,
       calculateRewards db s e = Ok (users, totalPoints)
       /\ List.length users = List.length received.
Proof.
  unfold GET_calculate. rewrite calculateRewards_closed.
  destruct (closedWindow db s e) as [|c rest].
  - intros [= <- <-]. split; [constructor|]. split; [simpl; lia|].
    eexists. eexists. split; reflexivity.
  - destruct (contribution_User db c); [|discriminate].
    intros [= <- <-]. split; [repeat constructor|]. split; [simpl; lia|].
    eexists. eexists. split; reflexivity.
Qed.

(** X28: the script never creates the Distribution Run of its window.  When no
    run is stored for the window, a run of the script leaves the database
    as it was; and when the script gets as far as the payout loop, every
    confirmation is refused, so that the log holds a failure for every
    user, also for those whose transfer went through, and the script
    exits with code 1. *)
Theorem script_needs_existing_run :
  forall env now db,
    WeeklyReward_findOne db (script_weekStartDate now) (script_weekEndDate now)
    = None ->
    finalDB (main env now db) = db
    /\ match loggedTransactions (main env now db) with
       | Some transactions =>
           exitCode (main env now db) = 1%nat
           /\ exists users totalPoints,
                calculateRewards db (script_weekStartDate now) (script_weekEndDate now)
                = Ok (users, totalPoints)
                /\ List.length (filter isFailed transactions) = List.length users
       | None => True
       end.
Proof.
  intros env now db Hnone. unfold main.
  destruct (GET_calculate db (script_weekStartDate now) (script_weekEndDate now))
    as [[received total]|] eqn:Hget; [|simpl; auto].
  destruct (GET_calculate_unkeyed _ _ _ _ _ Hget)
    as (Hkeys & _ & users & totalPoints & Hcalc & Hlen).
  destruct (Nat.eqb _ 0 || strictlyZero total); [simpl; auto|].
  destruct (authorityBalance env) as [amount|]; [|simpl; auto].
  destruct (toBigInt _) as [needed|]; [|simpl; auto].
  destruct (amount <? needed); [simpl; auto|].
  set (plan := userContributions received total) in *.
  destruct (scriptLoop_unkeyed env (script_weekStartDate now) (script_weekEndDate now)
              plan (mkScriptLoop db [] 0) Hkeys) as (Hdb & Hfail & _).
  cbv zeta in *. simpl in Hdb, Hfail.
  set (st := fold_left _ plan _) in *.
  unfold distributionComplete. rewrite Hdb, Hnone. simpl.
  split; [reflexivity|]. split; [reflexivity|].
  exists users, totalPoints. split; [exact Hcalc|].
  rewrite Hfail, Hlen. subst plan. unfold userContributions.
  now rewrite length_map.
Qed.

Lemma script_needs_existing_run_witness :
  finalDB (main Cases.env_ok Cases.script_now Scenario.db_two) = Scenario.db_two
  /\ match loggedTransactions (main Cases.env_ok Cases.script_now Scenario.db_two) with
     | Some transactions =>
         exitCode (main Cases.env_ok Cases.script_now Scenario.db_two) = 1%nat
         /\ exists users totalPoints,
              calculateRewards Scenario.db_two (script_weekStartDate Cases.script_now)
                               (script_weekEndDate Cases.script_now)
              = Ok (users, totalPoints)
              /\ List.length (filter isFailed transactions) = List.length users
     | None => True
     end.
Proof.
  apply (script_needs_existing_run Cases.env_ok Cases.script_now Scenario.db_two).
  vm_compute. reflexivity.
Defined.

(** X29: the accounts of a run of the script that reached the payout
    loop.  The window has one row, and the confirmation of its payout is
    refused because the row carries no user identifier: no Payout Record
    is stored and nobody is credited, and the log holds a failure for the
    row, also when the transfer went through.  The script exits with code
    0 exactly when a run is stored for the window and the transfer went
    through; the run that [/distribution-complete] found is then marked
    [completed], and in every other case the database is left as it
    was. *)
Theorem script_accounting :
  forall env now db transactions,
    loggedTransactions (main env now db) = Some transactions ->
    let result := main env now db in
    let startDate := script_weekStartDate now in
    let endDate := script_weekEndDate now in
    (exists row totalPoints,
        calculateRewards db startDate endDate = Ok ([row], totalPoints))
    /\ userRewards (finalDB result) = userRewards db
    /\ users (finalDB result) = users db
    /\ contributions (finalDB result) = contributions db
    /\ List.length (filter isFailed transactions) = 1%nat
    /\ (List.length (filter isSuccess transactions) <= 1)%nat
    /\ (exitCode result = 0%nat
        <-> WeeklyReward_findOne db startDate endDate <> None
            /\ List.length (filter isSuccess transactions) = 1%nat)
    /\ (exitCode result = 0%nat ->
        exists w,
          WeeklyReward_findOne db startDate endDate = Some w
          /\ finalDB result
             = WeeklyReward_update (WeeklyReward.id w)
                                   (fun _ => withStatus completed w) db)
    /\ (exitCode result <> 0%nat -> finalDB result = db).
Proof.
  intros env now db txs Hlog result startDate endDate.
  subst result startDate endDate. revert Hlog. unfold main.
  set (s := script_weekStartDate now). set (e := script_weekEndDate now).
  destruct (GET_calculate db s e) as [[received total]|] eqn:Hget; [|discriminate].
  destruct (GET_calculate_unkeyed _ _ _ _ _ Hget)
    as (Hkeys & Hle & users & totalPoints & Hcalc & Hlen).
  destruct (Nat.eqb (List.length received) 0 || strictlyZero total) eqn:Hz;
    [discriminate|].
  destruct (authorityBalance env) as [amount|]; [|discriminate].
  destruct (toBigInt _) as [needed|]; [|discriminate].
  destruct (amount <? needed); [discriminate|].
  set (plan := userContributions received total) in *.
  assert (Hplan : List.length plan = 1%nat).
  { subst plan. unfold userContributions. rewrite length_map.
    apply orb_false_iff in Hz as [Hz _]. apply Nat.eqb_neq in Hz. lia. }
  destruct (scriptLoop_unkeyed env s e plan (mkScriptLoop db [] 0) Hkeys)
    as (Hdb & Hfail & Hsucc).
  cbv zeta in *. simpl in Hdb, Hfail, Hsucc.
  set (st := fold_left _ plan _) in *.
  rewrite Hplan in *.
  assert (Hrow : exists row totalPoints0,
             calculateRewards db s e = Ok ([row], totalPoints0)).
  { rewrite Hcalc. destruct users as [|row [|row2 users]]; simpl in Hlen.
    - subst plan. unfold userContributions in Hplan.
      rewrite length_map in Hplan. lia.
    - eauto.
    - subst plan. unfold userContributions in Hplan.
      rewrite length_map in Hplan. lia. }
  unfold distributionComplete, routeStatus. rewrite Hdb.
  destruct (WeeklyReward_findOne db s e) as [w|] eqn:Hfind.
  - assert (Hcases : List.length (filter isSuccess (sl_transactions st)) = 0%nat
                     \/ List.length (filter isSuccess (sl_transactions st)) = 1%nat)
      by lia.
    destruct Hcases as [Hs|Hs]; rewrite Hs.
    + change (eqb (of_Z (Z.of_nat 0)) (of_Z (Z.of_nat 1))) with false.
      simpl. intros [= <-].
      split; [exact Hrow|]. repeat split; auto; try lia; try discriminate.
      all: try (intros [_ H1]; lia).
    + change (eqb (of_Z (Z.of_nat 1)) (of_Z (Z.of_nat 1))) with true.
      simpl. intros [= <-].
      split; [exact Hrow|]. repeat split; auto; try lia; try discriminate.
      intros _. exists w. split; reflexivity.
  - simpl. intros [= <-].
    split; [exact Hrow|]. repeat split; auto; try lia; try discriminate.
    all: try (intros [H _]; congruence).
Qed.

Lemma script_accounting_witness :
  let result := main Cases.env_ok Cases.script_now Cases.db_script in
  let transactions :=
    [mkTransactionEntry "WalletA" (of_Z 200000) (Some "sig"%string) tx_success;
     mkTransactionEntry "WalletA" (of_Z 200000) None tx_failed] in
  userRewards (finalDB result) = userRewards Cases.db_script
  /\ List.length (filter isFailed transactions) = 1%nat
  /\ exitCode result = 0%nat
  /\ exists w,
       WeeklyReward_findOne Cases.db_script (script_weekStartDate Cases.script_now)
                            (script_weekEndDate Cases.script_now)
       = Some w
       /\ finalDB result
          = WeeklyReward_update (WeeklyReward.id w)
                                (fun _ => withStatus completed w) Cases.db_script.
Proof.
  intros result transactions.
  pose proof (script_accounting Cases.env_ok Cases.script_now Cases.db_script
                transactions) as H.
  assert (Hlog : loggedTransactions
                   (main Cases.env_ok Cases.script_now Cases.db_script)
                 = Some transactions) by (vm_compute; reflexivity).
  destruct (H Hlog) as (_ & Hrec & _ & _ & Hfailed & _ & Hexit & Hstatus & _).
  assert (Hzero : exitCode result = 0%nat) by (vm_compute; reflexivity).
  split; [exact Hrec|]. split; [exact Hfailed|]. split; [exact Hzero|].
  exact (Hstatus Hzero).
Defined.

(** The same run with an endpoint that sends no transfer: one failure is
    logged, [/distribution-complete] answers 500, the stored run keeps its
    status and the script exits with code 1. *)
Example script_failed_transfer :
  let result := main Cases.env_down Cases.script_now Cases.db_script in
  option_map (map entry_status) (loggedTransactions result) = Some [tx_failed]
  /\ exitCode result = 1%nat
  /\ finalDB result = Cases.db_script.
Proof. vm_compute. repeat split. Qed.

(** ** Contributions recorded by the service *)

Lemma recordContribution_contributions db now rnd1 rnd2 uid aid ty tagNames :
  contributions (fst (recordContribution db now rnd1 rnd2 uid aid ty tagNames))
  = contributions db
    ++ [snd (recordContribution db now rnd1 rnd2 uid aid ty tagNames)]
  /\ Contribution.UserId
       (snd (recordContribution db now rnd1 rnd2 uid aid ty tagNames)) = None
  /\ Contribution.ArticleId
       (snd (recordContribution db now rnd1 rnd2 uid aid ty tagNames)) = None
  /\ Contribution.createdAt
       (snd (recordContribution db now rnd1 rnd2 uid aid ty tagNames)) = now.
Proof.
  unfold recordContribution. cbv zeta. simpl snd.
  destruct (isCreationOrMajorEdit ty), (isEdit ty); repeat split.
Qed.

(** X8: a contribution stored by [recordContribution] has no user, so it
    stops the planner: for every window that holds the time of the call,
    [calculateWeeklyRewards] throws on the database [recordContribution]
    leaves, and [distributeWeeklyRewards] reports the error without
    storing a run; [calculateRewards] throws as well when the window held
    no contribution before. *)
Theorem recorded_contribution_stops_the_planner :
  forall L db now later chain rnd1 rnd2 uid aid contributionType tagNames
         startDate endDate,
    startDate <= now <= endDate ->
    let db' :=
      fst (recordContribution db now rnd1 rnd2 uid aid contributionType tagNames) in
    isOk (calculateWeeklyRewards db' startDate endDate) = false
    /\ (closedWindow db startDate endDate = [] ->
        isOk (calculateRewards db' startDate endDate) = false)
    /\ fst (distributeWeeklyRewards L later db' chain startDate endDate)
       = (db', chain)
    /\ success (snd (distributeWeeklyRewards L later db' chain startDate endDate))
       = false.
Proof.
  intros L db now later chain rnd1 rnd2 uid aid ty tagNames s e Hwin db'.
  destruct (recordContribution_contributions db now rnd1 rnd2 uid aid ty tagNames)
    as (Hc & Hu & _ & Hat).
  fold db' in Hc.
  set (stored := snd (recordContribution db now rnd1 rnd2 uid aid ty tagNames)) in *.
  assert (Hwindow : closedWindow db' s e = closedWindow db s e ++ [stored]).
  { unfold closedWindow. rewrite Hc, filter_app. cbn [filter]. rewrite Hat.
    destruct (Z.leb_spec s now); [|lia].
    destruct (Z.leb_spec now e); [|lia]. reflexivity. }
  assert (Hl : linked db' stored = false).
  { unfold linked, contribution_User. now rewrite Hu. }
  assert (Hplan : isOk (calculateWeeklyRewards db' s e) = false).
  { rewrite (proj1 (aggregators_isOk db' s e)).
    rewrite Hwindow, forallb_app. cbn [forallb]. rewrite Hl.
    now rewrite andb_false_r. }
  split; [exact Hplan|]. split.
  - intros Hempty.
    rewrite (proj2 (aggregators_isOk db' s e)).
    rewrite Hwindow, Hempty. exact Hl.
  - unfold distributeWeeklyRewards.
    destruct (calculateWeeklyRewards db' s e); [discriminate|]. split; reflexivity.
Qed.

Lemma recorded_contribution_stops_the_planner_witness :
  isOk (calculateWeeklyRewards
          (fst (recordContribution Scenario.db_alice 1500 zero zero "alice" "art1"
                  minor_edit None)) 0 2000)
  = false.
Proof.
  refine (proj1 (recorded_contribution_stops_the_planner Scenario.ledger_ok
                   Scenario.db_alice 1500 5000 [] zero zero "alice" "art1"
                   minor_edit None 0 2000 _)).
  lia.
Defined.

(** X13: a contribution stored by [recordContribution] has no article
    either, so it is never counted as recent activity of a tag: the count
    of the demand update for a tag is the same before and after the call,
    whatever article the call names. *)
Theorem recorded_contribution_is_no_demand :
  forall db now later rnd1 rnd2 uid aid contributionType tagNames tag,
    let db' :=
      fst (recordContribution db now rnd1 rnd2 uid aid contributionType tagNames) in
    recentContributions db' later tag = recentContributions db later tag
    /\ tags db' = tags db.
Proof.
  intros db now later rnd1 rnd2 uid aid ty tagNames tag db'.
  split.
  - destruct (recordContribution_contributions db now rnd1 rnd2 uid aid ty tagNames)
      as (Hc & _ & Ha & _).
    fold db' in Hc.
    set (stored := snd (recordContribution db now rnd1 rnd2 uid aid ty tagNames)) in *.
    assert (Hcount : forall a b,
              Article.id a = Article.id b ->
              List.length (article_Contributions db' later a)
              = List.length (article_Contributions db later b)).
    { intros a b Hid. unfold article_Contributions.
      rewrite Hc, filter_app, length_app. cbn [filter]. rewrite Ha.
      cbn [andb length]. rewrite Nat.add_0_r, Hid. reflexivity. }
    assert (Harts : exists g,
              articles db' = map g (articles db)
              /\ forall a, Article.id (g a) = Article.id a
                           /\ Article.Tags (g a) = Article.Tags a).
    { subst db'. unfold recordContribution. cbv zeta. simpl fst.
      destruct (isCreationOrMajorEdit ty), (isEdit ty); simpl.
      - rewrite map_map. eexists. split; [reflexivity|].
        intros a. destruct (String.eqb (Article.id a) aid) eqn:E; simpl;
          rewrite ?E; simpl; rewrite ?E; simpl; split; reflexivity.
      - eexists. split; [reflexivity|].
        intros a. cbv beta.
        destruct (String.eqb (Article.id a) aid); split; reflexivity.
      - eexists. split; [reflexivity|].
        intros a. cbv beta.
        destruct (String.eqb (Article.id a) aid); split; reflexivity.
      - exists (fun a => a). split; [now rewrite map_id|].
        intros a. split; reflexivity. }
    destruct Harts as (g & Hg & Hpres).
    unfold recentContributions, tag_Articles. rewrite Hg. clear Hg.
    generalize 0%nat as acc.
    induction (articles db) as [|a l IH]; intros acc; [reflexivity|].
    cbn [map filter]. destruct (Hpres a) as [Hid Ht]. rewrite Ht.
    destruct (mem_string (Tag.name tag) (Article.Tags a)); [|apply IH].
    cbn [fold_left]. rewrite (Hcount (g a) a Hid). apply IH.
  - subst db'. unfold recordContribution. cbv zeta. simpl fst.
    destruct (isCreationOrMajorEdit ty), (isEdit ty); reflexivity.
Qed.
